(** * Deployment orchestration, readiness polling and report aggregation

    A shallow embedding of the three scripts of the repository:

    - [deploy_aso_stack_with_memory.py]  (module [Deployer]):
      sequential apply of the resource files, readiness monitoring;
    - [apps/cert-manager/validate-cert-manager.py]  (module [CertManager]):
      the validation checks, their summary and the exit code;
    - [istio_test_suite.py]  (module [Istio]):
      the executive summary of the test report and the exit code.

    The scripts talk to the outside through [subprocess.run], the wall clock
    and [print].  The embedding makes these explicit: an [Environment] holds
    what the outside answers (the result of the n-th command, how long it
    takes, how a text decodes), a [World] holds what the script has done so
    far (the clock, the commands issued with their results, the lines
    printed).  Time is counted in whole seconds.  The loops that wait on
    the clock take a bound on their iterations ([fuel]) and the statements
    about them say which bound lets them return.

    The modules [DeployerProps], [CertManagerProps] and [IstioProps] hold
    the statements about the three scripts; [DeployerBehaviour],
    [ValidatorBehaviour], [IssuanceBehaviour] and [IstioBehaviour] (with
    the report sections of [IstioReport]) hold further ones. *)

From Stdlib Require Import ZArith List String Ascii Bool Lia Floats Uint63.
From Stdlib Require Import DecimalString.
From Stdlib Require QArith.
Import ListNotations.

Open Scope string_scope.
Open Scope Z_scope.

(** ** Python strings *)

Module Py.

(** [old in s] on strings. *)
Fixpoint contains (needle hay : string) : bool :=
  String.prefix needle hay ||
  match hay with
  | EmptyString => false
  | String _ rest => contains needle rest
  end.

(** [s.replace(old, new)] for a non-empty [old]: left to right, the
    occurrences do not overlap.  [skip] counts the characters of the
    occurrence just replaced that are still to be dropped. *)
Fixpoint replace_from (old new : string) (skip : nat) (s : string) : string :=
  match s with
  | EmptyString => EmptyString
  | String c rest =>
      match skip with
      | S k => replace_from old new k rest
      | O =>
          if String.prefix old s
          then new ++ replace_from old new (String.length old - 1) rest
          else String c (replace_from old new 0 rest)
      end
  end.

Definition replace (old new s : string) : string := replace_from old new 0 s.

(** [s.lower()] on the ASCII letters. *)
Definition lower_ascii (c : ascii) : ascii :=
  let n := nat_of_ascii c in
  if (Nat.leb 65 n && Nat.leb n 90)%bool then ascii_of_nat (n + 32) else c.

Fixpoint lower (s : string) : string :=
  match s with
  | EmptyString => EmptyString
  | String c rest => String (lower_ascii c) (lower rest)
  end.

(** The ASCII characters [str.isspace] accepts. *)
Definition isspace (c : ascii) : bool :=
  let n := nat_of_ascii c in
  (Nat.leb 9 n && Nat.leb n 13) || (Nat.leb 28 n && Nat.leb n 32).

Fixpoint lstrip (s : string) : string :=
  match s with
  | EmptyString => EmptyString
  | String c rest => if isspace c then lstrip rest else s
  end.

Fixpoint rstrip (s : string) : string :=
  match s with
  | EmptyString => EmptyString
  | String c rest =>
      match rstrip rest with
      | EmptyString => if isspace c then EmptyString else String c EmptyString
      | kept => String c kept
      end
  end.

(** [s.strip()]. *)
Definition strip (s : string) : string := rstrip (lstrip s).

(** [x in xs] on a list of strings. *)
Definition mem (x : string) (xs : list string) : bool :=
  existsb (String.eqb x) xs.

(** [d.get(key, default)] once the key has been looked up. *)
Definition get_default {A} (value : option A) (default : A) : A :=
  match value with
  | Some v => v
  | None => default
  end.

(** [value == expected] where [value] is the result of a [d.get(key)]. *)
Definition get_eqb (value : option string) (expected : string) : bool :=
  match value with
  | Some v => String.eqb v expected
  | None => false
  end.

End Py.

(** ** What [subprocess.run] returns *)

Record CompletedProcess := mkCompleted {
  returncode : Z;
  stdout : string;
  stderr : string
}.

(** A command line with the result it got. *)
Definition Call : Type := list string * CompletedProcess.

(** ** deploy_aso_stack_with_memory.py *)

Module Deployer.

(** One entry of [status.conditions] of a resource. *)
Record Condition := mkCondition {
  cond_type : option string;
  cond_status : option string;
  cond_message : option string
}.

(** A value found where the script goes on as if it had a string: a
    string, or a value of another type that [subprocess.run] does not take
    as an argument (the [None] of a null value, a number, a list), given by
    the name of its type. *)
Inductive Value :=
| Str (s : string)
| NotStr (type_name : string).

(** A string is such a value. *)
Coercion Str : string >-> Value.

(** One document of a resource file: [doc.get('kind')],
    [doc['metadata']['name']] ([None] when the key is missing) and the
    entry of ['namespace'] in [doc['metadata']]: [None] when the key is
    missing, its value otherwise, [NotStr "NoneType"] for a null value.
    The kind and the name of a document are strings where they are
    given, as Kubernetes requires of a manifest. *)
Record Document := mkDocument {
  doc_kind : option string;
  doc_name : option string;
  doc_namespace : option Value
}.

(** The outside of the script.
    - [kubectl n args]: the result of the n-th kubectl invocation of the run
      (counted from 0) when called with [args];
    - [kubectl_seconds n]: the time that invocation takes;
    - [yaml_safe_load out]: [yaml.safe_load(out)] followed by
      [.get('status', {}).get('conditions', [])], or the text of the
      exception raised on the way;
    - [yaml_safe_load_all path]: the documents of the file at [path]
      ([None] for an empty document), or the text of the exception raised
      by [open] or the parser. *)
Record Environment := mkEnvironment {
  kubectl : nat -> list string -> CompletedProcess;
  kubectl_seconds : nat -> nat;
  yaml_safe_load : string -> string + list Condition;
  yaml_safe_load_all : string -> string + list (option Document)
}.

(** The lines the script prints, by the statement that prints them. *)
Inductive Line :=
| MemoryQuery (query_pattern : string)
| MemoryIssue (resource_type : string)
| MemorySuccess (resource_type : string)
| FinalMemoryUpdate
| Banner
| Deploying (resource_file : string)
| PreviousIssues (n : nat) (resource_type : string)
| Applied (resource_file : string)
| ApplyFailed (resource_file : string) (err : string)
| Monitoring (resource_file : string)
| PreviousTiming (resource_type : string)
| NoDetails (resource_file : string)
| ReadyAfter (name : string) (seconds : Z)
| Status (current_status : string)
| StillProvisioning (seconds : Z)
| NotReadyWithin (resource_type : string) (expected_time : Z)
| ErrorReading (resource_file : string) (err : string)
| Phase (resource_file : string)
| NoMonitoringNeeded (resource_file : string)
| PhaseFailed (resource_file : string)
| Summary (success_count : nat) (total : nat)
| HandoffReady
| PartialSuccess.

Record World := mkWorld {
  clock : Z;
  history : list Call;
  output : list Line
}.

Record ResourceDetail := mkDetail {
  rd_type : string;
  rd_name : string;
  rd_namespace : Value
}.

Record DeploymentResult := mkResult {
  resource : string;
  deployed : bool;
  monitored : bool
}.

(** The fields of the deployer object the methods read or write. *)
Record Deployer := mkDeployer {
  stack_dir : string;
  namespace : string;
  cluster_name : string;
  resource_order : list string;
  deployment_results : list DeploymentResult
}.

(** [__init__]. *)
Definition new_deployer : Deployer :=
  {| stack_dir := "./aso-stack";
     namespace := "azure-system";
     cluster_name := "uk8s-tsshared-weu-gt025-int-prod";
     resource_order :=
       ["resourcegroup.yaml"; "identity.yaml"; "roleassignment.yaml";
        "cluster.yaml"; "federated.yaml"; "extension.yaml";
        "fluxconfiguration.yaml"];
     deployment_results := [] |}.

Definition append_result (self : Deployer) (r : DeploymentResult) : Deployer :=
  {| stack_dir := stack_dir self;
     namespace := namespace self;
     cluster_name := cluster_name self;
     resource_order := resource_order self;
     deployment_results := deployment_results self ++ [r] |}.

Definition print (l : Line) (w : World) : World :=
  {| clock := clock w; history := history w; output := output w ++ [l] |}.

(** [time.sleep(seconds)]. *)
Definition sleep (seconds : Z) (w : World) : World :=
  {| clock := clock w + seconds; history := history w; output := output w |}.

Section WithEnvironment.

Variable env : Environment.

(** [store_issue_immediately]: only the log line is live code. *)
Definition store_issue_immediately (resource_type : string) (w : World) : World :=
  print (MemoryIssue resource_type) w.

(** [store_success_pattern]: only the log line is live code. *)
Definition store_success_pattern (resource_type : string) (w : World) : World :=
  print (MemorySuccess resource_type) w.

(** [query_memory_before_action]: returns the [entities] of the fixed
    answer [{"entities": [], "relations": []}]. *)
Definition query_memory_before_action (query_pattern : string) (w : World)
  : list string * World :=
  ([], print (MemoryQuery query_pattern) w).

(** [run_kubectl_command].  [subprocess.run] is taken to return: the
    kubectl binary is there, whatever its exit status. *)
Definition run_kubectl_command (cmd_args : list string) (w : World)
  : CompletedProcess * World :=
  let n := List.length (history w) in
  let result := kubectl env n cmd_args in
  (result,
   {| clock := clock w + Z.of_nat (kubectl_seconds env n);
      history := history w ++ [("kubectl" :: cmd_args, result)];
      output := output w |}).

(** The [for condition in conditions] loop of [check_resource_status]. *)
Fixpoint ready_condition (conditions : list Condition) : bool * string :=
  match conditions with
  | [] => (false, "No Ready condition found")
  | condition :: rest =>
      if Py.get_eqb (cond_type condition) "Ready"
      then (Py.get_eqb (cond_status condition) "True",
            Py.get_default (cond_message condition) "")
      else ready_condition rest
  end.

(** What [check_resource_status] makes of the result of its command. *)
Definition read_status (result : CompletedProcess) : bool * string :=
  if returncode result =? 0 then
    match yaml_safe_load env (stdout result) with
    | inr conditions => ready_condition conditions
    | inl e => (false, "Error checking status: " ++ e)
    end
  else (false, "Resource not found: " ++ stderr result).

Definition status_args (resource_type resource_name namespace : string)
  : list string :=
  ["get"; resource_type; resource_name; "-n"; namespace; "-o"; "yaml"].

(** [check_resource_status].  With a namespace that is not a string
    [subprocess.run] raises [TypeError] before any process is started, and
    the [except] clause makes the answer of it. *)
Definition check_resource_status
    (resource_type resource_name : string) (namespace : Value) (w : World)
  : (bool * string) * World :=
  match namespace with
  | Str namespace =>
      let cmd_args := status_args resource_type resource_name namespace in
      let (result, w) := run_kubectl_command cmd_args w in
      (read_status result, w)
  | NotStr type_name =>
      ((false,
        "Error checking status: expected str, bytes or os.PathLike object, not "
        ++ type_name), w)
  end.

(** [deploy_resource_with_memory]. *)
Definition deploy_resource_with_memory
    (self : Deployer) (resource_file : string) (w : World) : bool * World :=
  let w := print (Deploying resource_file) w in
  let resource_type := Py.replace ".yaml" "" resource_file in
  let (memory_results, w) :=
    query_memory_before_action ("aso " ++ resource_type ++ " issues") w in
  let w :=
    match memory_results with
    | [] => w
    | _ => print (PreviousIssues (List.length memory_results) resource_type) w
    end in
  let cmd_args := ["apply"; "-f"; stack_dir self ++ "/" ++ resource_file] in
  let (result, w) := run_kubectl_command cmd_args w in
  if returncode result =? 0 then
    let w := store_success_pattern resource_type w in
    (true, print (Applied resource_file) w)
  else
    let w := store_issue_immediately resource_type w in
    (false, print (ApplyFailed resource_file (stderr result)) w).

(** The [for doc in docs] loop of [get_resource_details]; [None] when
    [doc['metadata']['name']] raises. *)
Fixpoint collect_details (docs : list (option Document))
  : option (list ResourceDetail) :=
  match docs with
  | [] => Some []
  | doc :: rest =>
      match doc with
      | Some d =>
          match doc_kind d with
          | Some kind =>
              if String.eqb kind "" then collect_details rest
              else
                match doc_name d with
                | Some name =>
                    match collect_details rest with
                    | Some resources =>
                        Some ({| rd_type := Py.lower kind;
                                 rd_name := name;
                                 rd_namespace :=
                                   Py.get_default (doc_namespace d)
                                     (Str "default") |}
                              :: resources)
                    | None => None
                    end
                | None => None
                end
          | None => collect_details rest
          end
      | None => collect_details rest
      end
  end.

(** [get_resource_details]. *)
Definition get_resource_details
    (self : Deployer) (resource_file : string) (w : World)
  : list ResourceDetail * World :=
  let file_path := stack_dir self ++ "/" ++ resource_file in
  match yaml_safe_load_all env file_path with
  | inr docs =>
      match collect_details docs with
      | Some resources => (resources, w)
      | None => ([], print (ErrorReading resource_file "KeyError") w)
      end
  | inl e => ([], print (ErrorReading resource_file e) w)
  end.

(** The timeout [monitor_with_memory_updates] picks. *)
Definition expected_time (resource_type : string) : Z :=
  if String.eqb resource_type "cluster" then 1800
  else if String.eqb resource_type "extension" then 600
  else 300.

(** How one pass of [for rd in resource_details] ends: with the [return
    True] of the ready branch, or at the end of the list; either way with
    the value [last_status] has then. *)
Inductive Sweep :=
| FoundReady (last_status : string) (w : World)
| NoneReady (last_status : string) (w : World).

(** The [for rd in resource_details] loop inside the monitoring loop. *)
Fixpoint monitor_sweep
    (resource_type : string) (monitor_start : Z)
    (resource_details : list ResourceDetail) (last_status : string) (w : World)
  : Sweep :=
  match resource_details with
  | [] => NoneReady last_status w
  | rd :: rest =>
      let '((is_ready, message), w) :=
        check_resource_status (rd_type rd) (rd_name rd) (rd_namespace rd) w in
      if is_ready then
        let final_duration := clock w - monitor_start in
        let w := print (ReadyAfter (rd_name rd) final_duration) w in
        FoundReady last_status
          (store_success_pattern (resource_type ++ "-timing") w)
      else
        let current_status := rd_name rd ++ ": " ++ message in
        if negb (String.eqb current_status last_status) then
          monitor_sweep resource_type monitor_start rest current_status
            (print (Status current_status) w)
        else
          monitor_sweep resource_type monitor_start rest last_status w
  end.

(** The [while time.time() - monitor_start < expected_time] loop with what
    follows it.  The result is the value returned, together with the value
    [last_status] has at that point.  [fuel] bounds the number of
    iterations; [None] when it runs out. *)
Fixpoint monitor_loop
    (fuel : nat) (resource_type : string) (expected : Z) (monitor_start : Z)
    (resource_details : list ResourceDetail) (last_status : string) (w : World)
  : option ((bool * string) * World) :=
  match fuel with
  | O => None
  | S fuel =>
      if clock w - monitor_start <? expected then
        let elapsed := clock w - monitor_start in
        match monitor_sweep resource_type monitor_start resource_details
                last_status w with
        | FoundReady last_status w => Some ((true, last_status), w)
        | NoneReady last_status w =>
            let w :=
              if (elapsed >? 120) && (elapsed mod 60 =? 0)
              then print (StillProvisioning elapsed) w
              else w in
            let w := sleep 30 w in
            monitor_loop fuel resource_type expected monitor_start
              resource_details last_status w
        end
      else
        let w := print (NotReadyWithin resource_type expected) w in
        let w := store_issue_immediately (resource_type ++ "-timeout") w in
        Some ((false, last_status), w)
  end.

(** [monitor_with_memory_updates]. *)
Definition monitor_with_memory_updates
    (fuel : nat) (self : Deployer) (resource_file : string) (w : World)
  : option (bool * World) :=
  let w := print (Monitoring resource_file) w in
  let resource_type := Py.replace ".yaml" "" resource_file in
  let (timing_query, w) :=
    query_memory_before_action
      ("aso " ++ resource_type ++ " provisioning time") w in
  let expected := expected_time resource_type in
  let w :=
    match timing_query with
    | [] => w
    | _ => print (PreviousTiming resource_type) w
    end in
  let monitor_start := clock w in
  let (resource_details, w) := get_resource_details self resource_file w in
  match resource_details with
  | [] => Some (true, print (NoDetails resource_file) w)
  | _ =>
      match monitor_loop fuel resource_type expected monitor_start
              resource_details "" w with
      | Some ((ready, _), w) => Some (ready, w)
      | None => None
      end
  end.

(** [success_count = sum(1 for r in self.deployment_results if r["deployed"])]. *)
Definition success_count (results : list DeploymentResult) : nat :=
  List.length (filter deployed results).

(** [store_deployment_summary]. *)
Definition store_deployment_summary (self : Deployer) (w : World) : World :=
  let w := print FinalMemoryUpdate w in
  print (Summary (success_count (deployment_results self))
                 (List.length (resource_order self))) w.

(** The body of [for resource_file in self.resource_order]. *)
Definition deploy_phase
    (fuel : nat) (self : Deployer) (resource_file : string) (w : World)
  : option (Deployer * World) :=
  let w := print (Phase resource_file) w in
  let (deploy_success, w) := deploy_resource_with_memory self resource_file w in
  if deploy_success then
    let monitoring :=
      if Py.mem resource_file ["cluster.yaml"; "extension.yaml"]
      then monitor_with_memory_updates fuel self resource_file w
      else Some (true, print (NoMonitoringNeeded resource_file) w) in
    match monitoring with
    | Some (monitor_success, w) =>
        Some (append_result self
                {| resource := resource_file;
                   deployed := deploy_success;
                   monitored := monitor_success |}, w)
    | None => None
    end
  else
    Some (append_result self
            {| resource := resource_file;
               deployed := false;
               monitored := false |},
          print (PhaseFailed resource_file) w).

(** The loop [for resource_file in self.resource_order]. *)
Fixpoint deploy_phases
    (fuel : nat) (self : Deployer) (files : list string) (w : World)
  : option (Deployer * World) :=
  match files with
  | [] => Some (self, w)
  | resource_file :: rest =>
      match deploy_phase fuel self resource_file w with
      | Some (self, w) => deploy_phases fuel self rest w
      | None => None
      end
  end.

(** [run_memory_guided_deployment]: the value returned, the deployer and
    the world it leaves. *)
Definition run_memory_guided_deployment
    (fuel : nat) (self : Deployer) (w : World)
  : option (bool * Deployer * World) :=
  let w := print Banner w in
  let (_, w) :=
    query_memory_before_action
      ("aso " ++ cluster_name self ++ " deployment") w in
  match deploy_phases fuel self (resource_order self) w with
  | Some (self, w) =>
      let w := store_deployment_summary self w in
      Some (Nat.eqb (success_count (deployment_results self))
                    (List.length (resource_order self)), self, w)
  | None => None
  end.

(** [main]: the exit code. *)
Definition main (fuel : nat) (w : World) : option (Z * World) :=
  match run_memory_guided_deployment fuel new_deployer w with
  | Some (success, _, w) =>
      if success then Some (0, print HandoffReady w)
      else Some (1, print PartialSuccess w)
  | None => None
  end.

End WithEnvironment.

End Deployer.

(** ** apps/cert-manager/validate-cert-manager.py *)

Module CertManager.

(** [json.loads] followed by the field accesses of a check: the fields, a
    [json.JSONDecodeError], or another exception ([KeyError], ...) with its
    text. *)
Inductive Decoded (A : Type) :=
| Parsed (a : A)
| JSONDecodeError
| OtherError (e : string).
Arguments Parsed {A} a.
Arguments JSONDecodeError {A}.
Arguments OtherError {A} e.

(** [pod["metadata"]["name"]] and [pod["status"]["phase"]]. *)
Record Pod := mkPod {
  pod_name : string;
  pod_phase : string
}.

(** [issuer["metadata"]["name"]] and the [(type, status)] pairs of
    [issuer.get("status", {}).get("conditions", [])]. *)
Record Issuer := mkIssuer {
  issuer_name : string;
  issuer_conditions : list (string * string)
}.

(** The annotation [azure.workload.identity/client-id] and the label
    [azure.workload.identity/use] of the service account. *)
Record ServiceAccount := mkServiceAccount {
  sa_client_id : option string;
  sa_use : option string
}.

(** The outside of the script.
    - [command n cmd]: the result of the n-th command of the run (kubectl
      or az, counted from 0) when it is [cmd];
    - [command_seconds n]: the time it takes;
    - [decode_*]: [json.loads] of an output and the fields a check reads. *)
Record Environment := mkEnvironment {
  command : nat -> list string -> CompletedProcess;
  command_seconds : nat -> nat;
  decode_pods : string -> Decoded (list Pod);
  decode_issuers : string -> Decoded (list Issuer);
  decode_service_account : string -> Decoded ServiceAccount;
  decode_records : string -> Decoded (list string)
}.

(** The lines printed, by their mark: a heading or plain text, a line
    with the check mark, a line with the cross, a line with the
    information or warning sign. *)
Inductive Line :=
| Plain (text : string)
| Good (text : string)
| Bad (text : string)
| Note (text : string).

Record World := mkWorld {
  clock : Z;
  history : list Call;
  output : list Line
}.

(** The fields of the validator object. *)
Record Validator := mkValidator {
  namespace : string;
  dns_zone : string;
  cluster : string;
  client_id : string;
  results : list (string * bool)
}.

(** [__init__]. *)
Definition new_validator : Validator :=
  {| namespace := "cert-manager";
     dns_zone := "davidmarkgardiner.co.uk";
     cluster := "uk8s-tsshared-weu-gt025-int-prod";
     client_id := "1317ba0a-60d3-4f05-b41e-483ed1d6acb3";
     results := [] |}.

(** [self.results.append(entry)]. *)
Definition record_result (self : Validator) (entry : string * bool) : Validator :=
  {| namespace := namespace self;
     dns_zone := dns_zone self;
     cluster := cluster self;
     client_id := client_id self;
     results := results self ++ [entry] |}.

Definition print (l : Line) (w : World) : World :=
  {| clock := clock w; history := history w; output := output w ++ [l] |}.

Definition sleep (seconds : Z) (w : World) : World :=
  {| clock := clock w + seconds; history := history w; output := output w |}.

(** What a call of a check function does: it returns a value or lets an
    exception escape. *)
Inductive Report :=
| Returned (success : bool)
| Raised (e : string).

(** [str(n)] for an integer. *)
Definition decimal (n : Z) : string :=
  DecimalString.NilZero.string_of_int (Z.to_int n).

Section WithEnvironment.

Variable env : Environment.

(** [subprocess.run(cmd, capture_output=True, text=True)], taken to
    return or, with [check], to raise [CalledProcessError] only. *)
Definition run_command (cmd : list string) (w : World) : CompletedProcess * World :=
  let n := List.length (history w) in
  let result := command env n cmd in
  (result,
   {| clock := clock w + Z.of_nat (command_seconds env n);
      history := history w ++ [(cmd, result)];
      output := output w |}).

(** [run_kubectl]: [None] when [check] is set and the exit status is not
    zero ([subprocess.CalledProcessError]). *)
Definition run_kubectl (args : list string) (check : bool) (w : World)
  : option CompletedProcess * World :=
  let cmd := "kubectl" :: args in
  let (result, w) := run_command cmd w in
  if check && negb (returncode result =? 0) then
    let w := print (Bad ("Command failed: " ++ String.concat " " cmd)) w in
    (None, print (Plain ("   Error: " ++ stderr result)) w)
  else (Some result, w).

(** [run_az]. *)
Definition run_az (args : list string) (check : bool) (w : World)
  : option CompletedProcess * World :=
  let cmd := "az" :: args in
  let (result, w) := run_command cmd w in
  if check && negb (returncode result =? 0) then
    let w := print (Bad ("Azure CLI command failed: " ++ String.concat " " cmd)) w in
    (None, print (Plain ("   Error: " ++ stderr result)) w)
  else (Some result, w).

Definition expected_pods : list string :=
  ["cert-manager"; "cert-manager-webhook"; "cert-manager-cainjector"].

(** The [for expected in expected_pods] loop for one pod. *)
Definition match_pod (pod : Pod) (state : list string * World)
  : list string * World :=
  fold_left
    (fun '((running_pods, w) : list string * World) expected =>
       if Py.contains expected (pod_name pod) then
         if String.eqb (pod_phase pod) "Running"
         then ((running_pods ++ [expected])%list,
               print (Good (expected ++ " is running")) w)
         else (running_pods, print (Bad (expected ++ " status: " ++ pod_phase pod)) w)
       else (running_pods, w))
    expected_pods state.

(** [check_cert_manager_pods]. *)
Definition check_cert_manager_pods (self : Validator) (w : World)
  : Report * Validator * World :=
  let w := print (Plain "Checking cert-manager pods...") w in
  let (result, w) :=
    run_kubectl ["get"; "pods"; "-n"; namespace self; "-o"; "json"] true w in
  match result with
  | None => (Returned false, self, w)
  | Some result =>
      match decode_pods env (stdout result) with
      | Parsed pods =>
          let (running_pods, w) :=
            fold_left (fun state pod => match_pod pod state) pods ([], w) in
          let success := Nat.leb 3 (List.length running_pods) in
          (Returned success, record_result self ("Cert-Manager Pods", success), w)
      | JSONDecodeError =>
          (Returned false, self, print (Bad "Failed to parse pod status") w)
      | OtherError e => (Raised e, self, w)
      end
  end.

Definition required_crds : list string :=
  ["certificates.cert-manager.io";
   "certificaterequests.cert-manager.io";
   "issuers.cert-manager.io";
   "clusterissuers.cert-manager.io";
   "challenges.acme.cert-manager.io";
   "orders.acme.cert-manager.io"].

(** [check_crds_installed]. *)
Definition check_crds_installed (self : Validator) (w : World)
  : Report * Validator * World :=
  let w := print (Plain "Checking cert-manager CRDs...") w in
  let (result, w) := run_kubectl ["get"; "crd"] true w in
  match result with
  | None => (Returned false, self, w)
  | Some result =>
      let missing :=
        filter (fun crd => negb (Py.contains crd (stdout result))) required_crds in
      let (success, w) :=
        match missing with
        | [] => (true, print (Good "All required CRDs are installed") w)
        | _ => (false, print (Bad ("Missing CRDs: " ++ String.concat ", " missing)) w)
        end in
      (Returned success, record_result self ("CRDs Installed", success), w)
  end.

(** The [for condition in conditions] loop of [check_clusterissuers]. *)
Definition issuer_ready (conditions : list (string * string)) : bool :=
  existsb
    (fun '(type, status) => String.eqb type "Ready" && String.eqb status "True")
    conditions.

(** [check_clusterissuers]. *)
Definition check_clusterissuers (self : Validator) (w : World)
  : Report * Validator * World :=
  let w := print (Plain "Checking ClusterIssuers...") w in
  let (result, w) := run_kubectl ["get"; "clusterissuer"; "-o"; "json"] true w in
  match result with
  | None => (Returned false, self, w)
  | Some result =>
      match decode_issuers env (stdout result) with
      | Parsed issuers =>
          let (ready_issuers, w) :=
            fold_left
              (fun '((ready_issuers, w) : list string * World) issuer =>
                 let name := issuer_name issuer in
                 if issuer_ready (issuer_conditions issuer)
                 then ((ready_issuers ++ [name])%list,
                       print (Good ("ClusterIssuer " ++ name ++ " is ready")) w)
                 else (ready_issuers,
                       print (Bad ("ClusterIssuer " ++ name ++ " is not ready")) w))
              issuers ([], w) in
          let success := Nat.leb 2 (List.length ready_issuers) in
          (Returned success, record_result self ("ClusterIssuers Ready", success), w)
      | JSONDecodeError =>
          (Returned false, self, print (Bad "Failed to parse ClusterIssuer status") w)
      | OtherError e => (Raised e, self, w)
      end
  end.

(** [check_workload_identity]. *)
Definition check_workload_identity (self : Validator) (w : World)
  : Report * Validator * World :=
  let w := print (Plain "Checking Azure Workload Identity configuration...") w in
  let (result, w) :=
    run_kubectl
      ["get"; "serviceaccount"; "cert-manager"; "-n"; namespace self; "-o"; "json"]
      true w in
  match result with
  | None => (Returned false, self, w)
  | Some result =>
      match decode_service_account env (stdout result) with
      | Parsed data =>
          let client_id_annotation := sa_client_id data in
          let workload_label := sa_use data in
          if Py.get_eqb client_id_annotation (client_id self) then
            let w := print (Good "Service account has correct client ID") w in
            if Py.get_eqb workload_label "true" then
              let w := print (Good "Service account has workload identity label") w in
              let success := true in
              (Returned success,
               record_result self ("Workload Identity Config", success), w)
            else
              (Returned false, self,
               print (Bad "Service account missing workload identity label") w)
          else
            (Returned false, self,
             print (Bad "Service account client ID mismatch") w)
      | JSONDecodeError =>
          (Returned false, self,
           print (Bad "Failed to parse service account configuration") w)
      | OtherError e => (Raised e, self, w)
      end
  end.

(** [check_azure_permissions]. *)
Definition check_azure_permissions (self : Validator) (w : World)
  : Report * Validator * World :=
  let w := print (Plain "Checking Azure DNS permissions...") w in
  let (result, w) :=
    run_az
      ["network"; "dns"; "record-set"; "txt"; "list";
       "--zone-name"; dns_zone self;
       "--resource-group"; "dns";
       "--query"; "[?contains(name, 'acme-challenge')].name";
       "-o"; "json"]
      true w in
  match result with
  | Some result =>
      if returncode result =? 0 then
        match decode_records env (stdout result) with
        | Parsed records =>
            let w :=
              match records with
              | [] => print (Note "No ACME challenge records found") w
              | _ =>
                  print (Good ("Found " ++ decimal (Z.of_nat (List.length records))
                               ++ " ACME challenge records in DNS zone")) w
              end in
            let success := true in
            (Returned success, record_result self ("Azure DNS Permissions", success), w)
        | JSONDecodeError =>
            (Returned false, self, print (Bad "Failed to parse DNS records") w)
        | OtherError e => (Raised e, self, w)
        end
      else
        (Returned false, self,
         print (Bad "Cannot access Azure DNS zone - check permissions") w)
  | None =>
      (Returned false, self,
       print (Bad "Cannot access Azure DNS zone - check permissions") w)
  end.

(** How the waiting loop of [test_certificate_issuance] ends: with the
    [return success] of the ready branch, or by leaving the loop (the
    condition fails or [break]). *)
Inductive Waiting :=
| Issued (self : Validator) (w : World)
| LeftLoop (w : World).

(** The [while time.time() - start_time < timeout_seconds] loop of
    [test_certificate_issuance]; [None] when [fuel] runs out. *)
Fixpoint wait_for_certificate
    (fuel : nat) (self : Validator) (test_name : string)
    (timeout_seconds start_time : Z) (w : World) : option Waiting :=
  match fuel with
  | O => None
  | S fuel =>
      if clock w - start_time <? timeout_seconds then
        let (result, w) :=
          run_kubectl
            ["get"; "certificate"; test_name;
             "-o"; "jsonpath={.status.conditions[?(@.type=='Ready')].status}"]
            true w in
        let ready :=
          match result with
          | Some result => String.eqb (Py.strip (stdout result)) "True"
          | None => false
          end in
        if ready then
          let elapsed := clock w - start_time in
          let w :=
            print (Good ("Certificate issued successfully in "
                         ++ decimal elapsed ++ " seconds")) w in
          let (_, w) := run_kubectl ["delete"; "certificate"; test_name] false w in
          let success := true in
          Some (Issued (record_result self ("Certificate Issuance Test", success)) w)
        else
          let (cert_status, w) :=
            run_kubectl ["describe"; "certificate"; test_name] true w in
          let failed :=
            match cert_status with
            | Some cert_status => Py.contains "Error" (stdout cert_status)
            | None => false
            end in
          if failed then
            let w := print (Bad "Certificate issuance failed:") w in
            let w :=
              print (Plain (match cert_status with
                            | Some cert_status => stdout cert_status
                            | None => ""
                            end)) w in
            Some (LeftLoop w)
          else
            wait_for_certificate fuel self test_name timeout_seconds start_time
              (sleep 10 w)
      else Some (LeftLoop w)
  end.

(** [test_certificate_issuance], from the [kubectl apply] of the test
    certificate on (writing the file under /tmp is taken to succeed). *)
Definition test_certificate_issuance
    (fuel : nat) (timeout_seconds : Z) (self : Validator) (w : World)
  : option (Report * Validator * World) :=
  let w := print (Plain "Testing certificate issuance...") w in
  let test_name := "test-cert-" ++ decimal (clock w) in
  let (apply_result, w) :=
    run_kubectl ["apply"; "-f"; "/tmp/" ++ test_name ++ ".yaml"] true w in
  match apply_result with
  | None => Some (Returned false, self, w)
  | Some _ =>
      let w := print (Good ("Created test certificate: " ++ test_name)) w in
      let start_time := clock w in
      match wait_for_certificate fuel self test_name timeout_seconds start_time w with
      | Some (Issued self w) => Some (Returned true, self, w)
      | Some (LeftLoop w) =>
          let w :=
            print (Bad ("Certificate issuance timed out after "
                        ++ decimal timeout_seconds ++ " seconds")) w in
          let (_, w) := run_kubectl ["delete"; "certificate"; test_name] false w in
          Some (Returned false,
                record_result self ("Certificate Issuance Test", false), w)
      | None => None
      end
  end.

(** [passed = sum(1 for _, success in self.results if success)]. *)
Definition count_passed (results : list (string * bool)) : nat :=
  List.length (filter snd results).

(** [generate_summary]. *)
Definition generate_summary (self : Validator) (w : World) : bool * World :=
  let w := print (Plain "CERT-MANAGER VALIDATION SUMMARY") w in
  let passed := count_passed (results self) in
  let total := List.length (results self) in
  let w :=
    fold_left
      (fun w '((check_name, success) : string * bool) =>
         print (if success then Good check_name else Bad check_name) w)
      (results self) w in
  let w :=
    print (Plain ("Overall: " ++ decimal (Z.of_nat passed) ++ "/"
                  ++ decimal (Z.of_nat total) ++ " checks passed")) w in
  if Nat.eqb passed total then
    (true, print (Good "All validations passed! Cert-manager is ready for production use.") w)
  else
    (false, print (Note "Some validations failed. Please review and fix issues before production use.") w).

(** The [checks] list of [run_all_validations]. *)
Definition checks : list (string * (Validator -> World -> Report * Validator * World)) :=
  [("CRDs Installation", check_crds_installed);
   ("Pod Status", check_cert_manager_pods);
   ("Workload Identity", check_workload_identity);
   ("ClusterIssuers", check_clusterissuers);
   ("Azure DNS Permissions", check_azure_permissions)].

(** The loop [for name, check_func in checks] with its [try]/[except].
    Beside the validator and the world it gives, for the statements below,
    what each call [check_func()] did; the script drops that value. *)
Fixpoint run_checks
    (todo : list (string * (Validator -> World -> Report * Validator * World)))
    (self : Validator) (w : World)
  : list (string * Report) * Validator * World :=
  match todo with
  | [] => ([], self, w)
  | (name, check_func) :: rest =>
      let w := print (Plain ("Running: " ++ name)) w in
      let '(report, self, w) := check_func self w in
      let '(self, w) :=
        match report with
        | Returned _ => (self, w)
        | Raised e =>
            (record_result self (name, false),
             print (Bad ("Check failed with exception: " ++ e)) w)
        end in
      let '(reports, self, w) := run_checks rest self w in
      ((name, report) :: reports, self, w)
  end.

(** [run_all_validations]. *)
Definition run_all_validations (self : Validator) (w : World)
  : bool * Validator * World :=
  let w := print (Plain "Starting Cert-Manager validation") w in
  let '(_, self, w) := run_checks checks self w in
  let (success, w) := generate_summary self w in
  (success, self, w).

(** The [__main__] block: the exit status. *)
Definition main (w : World) : Z * World :=
  let '(success, _, w) := run_all_validations new_validator w in
  (if success then 0 else 1, w).

(** What each check of a run reported. *)
Definition check_reports (w : World) : list (string * Report) :=
  fst (fst (run_checks checks new_validator w)).

End WithEnvironment.

End CertManager.

(** ** istio_test_suite.py *)

Module Istio.

(** An entry of [self.test_results] (the time stamp and the details are
    left out: the report only counts the entries that passed). *)
Record TestResult := mkTestResult {
  test : string;
  passed : bool
}.

(** An entry of [self.security_findings]. *)
Record Finding := mkFinding {
  severity : string;
  finding_type : string;
  description : string;
  remediation : string
}.

(** The two lists of the suite the report is computed from. *)
Record Suite := mkSuite {
  test_results : list TestResult;
  security_findings : list Finding
}.

(** [__init__]. *)
Definition new_suite : Suite :=
  {| test_results := []; security_findings := [] |}.

(** [store_test_result]. *)
Definition store_test_result (self : Suite) (test_name : string) (passed : bool)
  : Suite :=
  {| test_results := test_results self ++ [{| test := test_name; passed := passed |}];
     security_findings := security_findings self |}.

(** [store_security_finding]. *)
Definition store_security_finding
    (self : Suite) (severity finding_type description remediation : string)
  : Suite :=
  {| test_results := test_results self;
     security_findings :=
       security_findings self
       ++ [{| severity := severity; finding_type := finding_type;
              description := description; remediation := remediation |}] |}.

(** The conversion of a Python integer to a float, exact below [2^53]. *)
Definition float_of_Z (n : Z) : float := PrimFloat.of_uint63 (Uint63.of_Z n).

(** [pass_rate = (passed_tests / total_tests * 100) if total_tests > 0 else 0]
    in binary64 arithmetic. *)
Definition pass_rate (passed_tests total_tests : Z) : float :=
  if total_tests >? 0
  then PrimFloat.mul
         (PrimFloat.div (float_of_Z passed_tests) (float_of_Z total_tests))
         (float_of_Z 100)
  else float_of_Z 0.

(** The ["executive_summary"] of the report, without the formatted rate. *)
Record ExecutiveSummary := mkSummary {
  overall_status : string;
  total_tests : Z;
  passed_tests : Z;
  failed_tests : Z;
  critical_security_issues : Z;
  high_security_issues : Z
}.

Definition with_severity (level : string) (findings : list Finding) : list Finding :=
  filter (fun f => String.eqb (severity f) level) findings.

(** [generate_report]: the executive summary. *)
Definition generate_report (self : Suite) : ExecutiveSummary :=
  let total_tests := Z.of_nat (List.length (test_results self)) in
  let passed_tests := Z.of_nat (List.length (filter passed (test_results self))) in
  let pass_rate := pass_rate passed_tests total_tests in
  let critical_findings := with_severity "CRITICAL" (security_findings self) in
  let high_findings := with_severity "HIGH" (security_findings self) in
  {| overall_status :=
       if PrimFloat.leb (float_of_Z 80) pass_rate
          && (Z.of_nat (List.length critical_findings) =? 0)
       then "PASS" else "FAIL";
     total_tests := total_tests;
     passed_tests := passed_tests;
     failed_tests := total_tests - passed_tests;
     critical_security_issues := Z.of_nat (List.length critical_findings);
     high_security_issues := Z.of_nat (List.length high_findings) |}.


End Istio.

(** * Properties of the deployer *)

Module DeployerProps.

Import Deployer.

(** A sub-resource can be queried when its namespace is a string. *)
Definition queryable (rd : ResourceDetail) : bool :=
  match rd_namespace rd with
  | Str _ => true
  | NotStr _ => false
  end.

(** The sub-resources of a list that can be queried. *)
Definition queried (resource_details : list ResourceDetail) : list ResourceDetail :=
  filter queryable resource_details.

Definition namespace_text (rd : ResourceDetail) : string :=
  match rd_namespace rd with
  | Str namespace => namespace
  | NotStr _ => ""
  end.

(** The command line of a status query for a sub-resource. *)
Definition status_query (rd : ResourceDetail) : list string :=
  "kubectl" :: status_args (rd_type rd) (rd_name rd) (namespace_text rd).

(** The command line that applies a resource file. *)
Definition apply_command (self : Deployer) (resource_file : string) : list string :=
  ["kubectl"; "apply"; "-f"; stack_dir self ++ "/" ++ resource_file].

Definition is_status_query (c : Call) : bool :=
  match fst c with
  | _ :: verb :: _ => String.eqb verb "get"
  | _ => false
  end.

Definition is_apply (c : Call) : bool :=
  match fst c with
  | _ :: verb :: _ => String.eqb verb "apply"
  | _ => false
  end.

(** The applies among some calls, in the order they were made. *)
Definition applies (calls : list Call) : list Call := filter is_apply calls.

(** An apply succeeded when its exit status is zero. *)
Definition apply_succeeded (c : Call) : bool := returncode (snd c) =? 0.

(** The number of iterations a budget of [budget] seconds allows when an
    iteration takes 30 seconds: the ceiling of [budget / 30]. *)
Definition ticks (budget : Z) : nat := Z.to_nat ((budget + 29) / 30).

Definition sweep_world (s : Sweep) : World :=
  match s with
  | FoundReady _ w => w
  | NoneReady _ w => w
  end.

(** [w'] comes after [w]: the calls [added] were made in between. *)
Definition follows (w w' : World) (added : list Call) : Prop :=
  history w' = (history w ++ added)%list.

Lemma follows_refl w : follows w w [].
Proof. unfold follows. now rewrite app_nil_r. Qed.

Lemma follows_trans w1 w2 w3 a b :
  follows w1 w2 a -> follows w2 w3 b -> follows w1 w3 (a ++ b)%list.
Proof. unfold follows. intros H1 H2. now rewrite H2, H1, app_assoc. Qed.

Lemma ticks_nonpositive budget : budget <= 0 -> ticks budget = 0%nat.
Proof.
  intros H. unfold ticks.
  destruct (Z_le_gt_dec ((budget + 29) / 30) 0) as [Hle | Hgt].
  - destruct ((budget + 29) / 30); try reflexivity. lia.
  - exfalso.
    assert ((budget + 29) / 30 <= 29 / 30) by (apply Z.div_le_mono; lia).
    change (29 / 30) with 0 in *. lia.
Qed.

Lemma ticks_positive budget :
  0 < budget -> ticks budget = S (ticks (budget - 30)).
Proof.
  intros H. unfold ticks.
  replace (budget + 29) with ((budget - 30 + 29) + 1 * 30) by lia.
  rewrite Z.div_add by lia.
  assert (0 <= (budget - 30 + 29) / 30) by (apply Z.div_pos; lia).
  rewrite Z2Nat.inj_add by lia.
  change (Z.to_nat 1) with 1%nat. lia.
Qed.

(** [ticks] is the ceiling of the quotient by 30. *)
Lemma ticks_ceiling budget :
  0 < budget ->
  30 * (Z.of_nat (ticks budget) - 1) < budget <= 30 * Z.of_nat (ticks budget).
Proof.
  intros H. unfold ticks.
  assert (0 <= (budget + 29) / 30) by (apply Z.div_pos; lia).
  rewrite Z2Nat.id by lia.
  pose proof (Z.div_mod (budget + 29) 30 ltac:(lia)).
  pose proof (Z.mod_pos_bound (budget + 29) 30 ltac:(lia)).
  lia.
Qed.

Lemma ticks_mono a b : a <= b -> (ticks a <= ticks b)%nat.
Proof.
  intros H. unfold ticks.
  assert ((a + 29) / 30 <= (b + 29) / 30) by (apply Z.div_le_mono; lia).
  lia.
Qed.

(** The status lines among the lines printed. *)
Definition status_lines (lines : list Line) : list string :=
  flat_map (fun l => match l with Status text => [text] | _ => [] end) lines.

Section Polling.

Variable env : Environment.

(** The world after the status of [rd] is checked in [w]. *)
Definition after_query (rd : ResourceDetail) (w : World) : World :=
  snd (check_resource_status env (rd_type rd) (rd_name rd) (rd_namespace rd) w).

(** The result the status query for [rd] gets in [w]. *)
Definition query_result (rd : ResourceDetail) (w : World) : CompletedProcess :=
  kubectl env (List.length (history w))
    (status_args (rd_type rd) (rd_name rd) (namespace_text rd)).

(** What the status check of [rd] answers when it is made as the n-th
    command of the run: ready or not, and the message.  A sub-resource
    that cannot be queried answers without a command. *)
Definition answer_at (n : nat) (rd : ResourceDetail) : bool * string :=
  match rd_namespace rd with
  | Str namespace =>
      read_status env
        (kubectl env n (status_args (rd_type rd) (rd_name rd) namespace))
  | NotStr type_name =>
      (false,
       "Error checking status: expected str, bytes or os.PathLike object, not "
       ++ type_name)
  end.

(** The calls the status check of [rd] makes in [w]: its query, or none. *)
Definition query_calls (rd : ResourceDetail) (w : World) : list Call :=
  if queryable rd then [(status_query rd, query_result rd w)] else [].

Lemma check_resource_status_eq rd w :
  check_resource_status env (rd_type rd) (rd_name rd) (rd_namespace rd) w
  = (answer_at (List.length (history w)) rd, after_query rd w).
Proof.
  unfold after_query, answer_at, check_resource_status.
  destruct (rd_namespace rd); reflexivity.
Qed.

Lemma answer_at_queryable n rd :
  queryable rd = true ->
  answer_at n rd
  = read_status env
      (kubectl env n (status_args (rd_type rd) (rd_name rd) (namespace_text rd))).
Proof.
  unfold queryable, answer_at, namespace_text.
  destruct (rd_namespace rd); [reflexivity | discriminate].
Qed.

Lemma answer_at_not_queryable n rd :
  queryable rd = false -> fst (answer_at n rd) = false.
Proof.
  unfold queryable, answer_at.
  destruct (rd_namespace rd); [discriminate | reflexivity].
Qed.

Lemma after_query_history rd w :
  history (after_query rd w) = (history w ++ query_calls rd w)%list.
Proof.
  unfold after_query, query_calls, query_result, status_query, queryable,
    namespace_text, check_resource_status.
  destruct (rd_namespace rd); cbn; [reflexivity | now rewrite app_nil_r].
Qed.

Lemma after_query_clock rd w :
  clock (after_query rd w)
  = clock w
    + if queryable rd
      then Z.of_nat (kubectl_seconds env (List.length (history w)))
      else 0.
Proof.
  unfold after_query, queryable, check_resource_status.
  destruct (rd_namespace rd); cbn; [reflexivity | lia].
Qed.

Lemma after_query_output rd w : output (after_query rd w) = output w.
Proof.
  unfold after_query, check_resource_status.
  destruct (rd_namespace rd); reflexivity.
Qed.

Lemma query_calls_status rd w :
  forallb is_status_query (query_calls rd w) = true
  /\ (List.length (query_calls rd w) <= 1)%nat.
Proof.
  unfold query_calls. destruct (queryable rd); cbn; split; auto.
Qed.

Lemma monitor_sweep_cons resource_type monitor_start rd rest last_status w :
  monitor_sweep env resource_type monitor_start (rd :: rest) last_status w
  = let w1 := after_query rd w in
    let answer := answer_at (List.length (history w)) rd in
    if fst answer then
      FoundReady last_status
        (store_success_pattern (resource_type ++ "-timing")
           (print (ReadyAfter (rd_name rd) (clock w1 - monitor_start)) w1))
    else
      let current_status := rd_name rd ++ ": " ++ snd answer in
      if negb (String.eqb current_status last_status)
      then monitor_sweep env resource_type monitor_start rest current_status
             (print (Status current_status) w1)
      else monitor_sweep env resource_type monitor_start rest last_status w1.
Proof.
  cbn [monitor_sweep]. rewrite check_resource_status_eq.
  destruct (answer_at (List.length (history w)) rd) as [is_ready message].
  reflexivity.
Qed.

(** A pass over the sub-resources only makes status queries, at most one
    for each sub-resource, and the clock does not go back. *)
Lemma monitor_sweep_follows resource_type monitor_start resource_details :
  forall last_status w,
  exists added,
    follows w
      (sweep_world
         (monitor_sweep env resource_type monitor_start resource_details
            last_status w))
      added
    /\ forallb is_status_query added = true
    /\ (List.length added <= List.length resource_details)%nat
    /\ clock w
       <= clock (sweep_world
                   (monitor_sweep env resource_type monitor_start
                      resource_details last_status w)).
Proof.
  induction resource_details as [|rd rest IH]; intros last_status w.
  - exists []. cbn. repeat split; try apply follows_refl; lia.
  - rewrite monitor_sweep_cons. cbv zeta.
    assert (Hq : follows w (after_query rd w) (query_calls rd w))
      by apply after_query_history.
    destruct (query_calls_status rd w) as [Hqs Hql].
    assert (Hc : clock w <= clock (after_query rd w)).
    { rewrite after_query_clock. destruct (queryable rd); lia. }
    destruct (fst (answer_at (List.length (history w)) rd)).
    + exists (query_calls rd w).
      cbn [sweep_world store_success_pattern print clock].
      split; [exact Hq|]. split; [exact Hqs|]. split; [cbn; lia | exact Hc].
    + set (current := rd_name rd ++ ": "
                      ++ snd (answer_at (List.length (history w)) rd)).
      assert (Hnext : forall ls w1,
                 history w1 = history (after_query rd w) ->
                 clock w1 = clock (after_query rd w) ->
                 exists added,
                   follows w
                     (sweep_world
                        (monitor_sweep env resource_type monitor_start rest ls w1))
                     added
                   /\ forallb is_status_query added = true
                   /\ (List.length added <= List.length (rd :: rest))%nat
                   /\ clock w
                      <= clock (sweep_world
                                  (monitor_sweep env resource_type monitor_start
                                     rest ls w1))).
      { intros ls w1 Hh1 Hc1.
        destruct (IH ls w1) as (added & Hf & Hs & Hl & Hk).
        exists (query_calls rd w ++ added)%list.
        split; [|split; [|split]].
        - unfold follows in *. rewrite Hf, Hh1, Hq, app_assoc. reflexivity.
        - rewrite forallb_app, Hqs, Hs. reflexivity.
        - rewrite length_app. cbn [List.length]. lia.
        - lia. }
      destruct (negb (String.eqb current last_status)); apply Hnext; reflexivity.
Qed.


(** From the n-th command of the run on, no status check of one of the
    sub-resources reports the readiness condition. *)
Definition never_ready_from (n : nat) (resource_details : list ResourceDetail)
  : Prop :=
  forall m rd,
    (n <= m)%nat -> In rd resource_details -> fst (answer_at m rd) = false.

(** The commands take no time: the clock only moves in [time.sleep]. *)
Definition instantaneous : Prop :=
  forall n, kubectl_seconds env n = 0%nat.

(** The time the [n] commands from the [start]-th command of the run on
    take. *)
Fixpoint seconds (start n : nat) : Z :=
  match n with
  | O => 0
  | S n => Z.of_nat (kubectl_seconds env start) + seconds (S start) n
  end.

Lemma seconds_nonnegative n : forall start, 0 <= seconds start n.
Proof. induction n as [|n IH]; intros start; cbn [seconds]; [lia|]. specialize (IH (S start)). lia. Qed.

Lemma seconds_app a : forall start b,
  seconds start (a + b) = seconds start a + seconds (start + a) b.
Proof.
  induction a as [|a IH]; intros start b; cbn [seconds Nat.add].
  - now rewrite Nat.add_0_r.
  - rewrite IH. replace (S start + a)%nat with (start + S a)%nat by lia. lia.
Qed.



Lemma never_ready_later n m resource_details :
  (n <= m)%nat ->
  never_ready_from n resource_details -> never_ready_from m resource_details.
Proof. intros Hle H k rd Hk Hin. apply H; [lia | exact Hin]. Qed.

(** When nothing is ready a pass checks every sub-resource once, in
    order: it queries those that can be queried, and the clock moves by
    the time these queries take. *)
Lemma monitor_sweep_never_ready resource_type monitor_start :
  forall resource_details last_status w,
  never_ready_from (List.length (history w)) resource_details ->
  exists last_status' w' added,
    monitor_sweep env resource_type monitor_start resource_details last_status w
    = NoneReady last_status' w'
    /\ follows w w' added
    /\ map fst added = map status_query (queried resource_details)
    /\ clock w' = clock w + seconds (List.length (history w)) (List.length added).
Proof.
  induction resource_details as [|rd rest IH]; intros last_status w Hnever.
  - exists last_status, w, []. cbn.
    repeat split; try apply follows_refl. lia.
  - rewrite monitor_sweep_cons. cbv zeta.
    rewrite (Hnever _ rd (le_n _) (or_introl eq_refl)).
    set (current := rd_name rd ++ ": "
                    ++ snd (answer_at (List.length (history w)) rd)).
    assert (Hq : history (after_query rd w) = (history w ++ query_calls rd w)%list)
      by apply after_query_history.
    assert (Hnext : forall ls w1,
               history w1 = history (after_query rd w) ->
               clock w1 = clock (after_query rd w) ->
               exists last_status' w' added,
                 monitor_sweep env resource_type monitor_start rest ls w1
                 = NoneReady last_status' w'
                 /\ follows w w' added
                 /\ map fst added = map status_query (queried (rd :: rest))
                 /\ clock w'
                    = clock w
                      + seconds (List.length (history w)) (List.length added)).
    { intros ls w1 Hh1 Hc1.
      destruct (IH ls w1) as (ls' & w' & added & Heq & Hf & Hm & Hclk).
      { apply (never_ready_later (List.length (history w))).
        - rewrite Hh1, Hq, length_app. lia.
        - intros m rd' Hm Hin. apply Hnever; [exact Hm | now right]. }
      exists ls', w', (query_calls rd w ++ added)%list.
      split; [exact Heq|]. split; [|split].
      - unfold follows in *. rewrite Hf, Hh1, Hq, app_assoc. reflexivity.
      - unfold queried, query_calls in *. cbn [filter].
        destruct (queryable rd); cbn [map app]; [f_equal|]; exact Hm.
      - rewrite Hclk, Hc1, after_query_clock, Hh1, Hq, !length_app.
        unfold query_calls. destruct (queryable rd); cbn [List.length seconds].
        + replace (List.length (history w) + 1)%nat
            with (S (List.length (history w))) by lia.
          cbn [Nat.add seconds]. lia.
        + rewrite Nat.add_0_r. cbn [Nat.add]. lia. }
    destruct (negb (String.eqb current last_status)); apply Hnext; reflexivity.
Qed.

Lemma status_queries_only (added : list Call) :
  forall resource_details,
  map fst added = map status_query resource_details ->
  forallb is_status_query added = true.
Proof.
  induction added as [|c added IH]; intros [|rd rest] H; try discriminate;
    [reflexivity|].
  cbn [map] in H. injection H as Hc Hrest.
  cbn [forallb]. rewrite (IH rest Hrest), andb_true_r.
  unfold is_status_query. rewrite Hc. reflexivity.
Qed.

Lemma monitor_loop_unfold fuel resource_type expected monitor_start
    resource_details last_status w :
  monitor_loop env (S fuel) resource_type expected monitor_start
    resource_details last_status w
  = if clock w - monitor_start <? expected then
      match monitor_sweep env resource_type monitor_start resource_details
              last_status w with
      | FoundReady last_status1 w1 => Some ((true, last_status1), w1)
      | NoneReady last_status1 w1 =>
          let elapsed := clock w - monitor_start in
          monitor_loop env fuel resource_type expected monitor_start
            resource_details last_status1
            (sleep 30
               (if (elapsed >? 120) && (elapsed mod 60 =? 0)
                then print (StillProvisioning elapsed) w1
                else w1))
      end
    else
      Some ((false, last_status),
            store_issue_immediately (resource_type ++ "-timeout")
              (print (NotReadyWithin resource_type expected) w)).
Proof. reflexivity. Qed.

(** The polling loop when no status check of its sub-resources is ever
    ready.  From a world where [remaining] seconds of the budget are left
    it makes [p] passes, each over every sub-resource, sleeps 30 seconds
    after each, and returns [False] once the budget has elapsed; the time
    the queries take counts against the budget. *)
Lemma monitor_loop_never_ready resource_type expected monitor_start
    resource_details :
  forall fuel last_status w,
  never_ready_from (List.length (history w)) resource_details ->
  (ticks (expected - (clock w - monitor_start)) < fuel)%nat ->
  let remaining := expected - (clock w - monitor_start) in
  exists last_status' w' added p,
    monitor_loop env fuel resource_type expected monitor_start
      resource_details last_status w
    = Some ((false, last_status'), w')
    /\ follows w w' added
    /\ map fst added
       = List.concat (repeat (map status_query (queried resource_details)) p)
    /\ clock w'
       = clock w + 30 * Z.of_nat p
         + seconds (List.length (history w)) (List.length added)
    /\ (remaining <= 0 -> p = 0%nat)
    /\ (0 < remaining -> (1 <= p)%nat /\ 30 * (Z.of_nat p - 1) < remaining)
    /\ remaining
       <= 30 * Z.of_nat p + seconds (List.length (history w)) (List.length added)
    /\ exists lines,
         output w'
         = (lines ++ [NotReadyWithin resource_type expected;
                      MemoryIssue (resource_type ++ "-timeout")])%list.
Proof.
  induction fuel as [|fuel IH]; intros last_status w Hnever Hfuel; [lia|].
  cbv zeta. rewrite monitor_loop_unfold.
  set (remaining := expected - (clock w - monitor_start)) in *.
  destruct (clock w - monitor_start <? expected) eqn:Hcond.
  - apply Z.ltb_lt in Hcond.
    assert (Hpos : 0 < remaining) by (unfold remaining; lia).
    destruct (monitor_sweep_never_ready resource_type monitor_start
                resource_details last_status w Hnever)
      as (ls1 & w1 & added1 & -> & Hf1 & Hm1 & Hclk1).
    cbv zeta.
    set (w2 := sleep 30 _).
    assert (Hh2 : history w2 = history w1).
    { unfold w2. destruct (_ && _); reflexivity. }
    assert (Hc2 : clock w2 = clock w1 + 30).
    { unfold w2. destruct (_ && _); cbn; lia. }
    pose proof (seconds_nonnegative (List.length added1)
                  (List.length (history w))) as Hs1.
    pose proof (ticks_positive remaining Hpos) as Hticks.
    pose proof (ticks_mono (expected - (clock w2 - monitor_start))
                  (remaining - 30) ltac:(unfold remaining; lia)) as Hmono.
    assert (Hlen2 : List.length (history w2)
                    = (List.length (history w) + List.length added1)%nat).
    { unfold follows in Hf1. rewrite Hh2, Hf1, length_app. reflexivity. }
    destruct (IH ls1 w2)
      as (ls' & w' & added2 & p & Heq & Hf2 & Hm2 & Hclk2 & Hzero & Hlow & Hup
          & lines & Hout).
    { apply (never_ready_later (List.length (history w))); [lia | exact Hnever]. }
    { lia. }
    cbv zeta in Hzero, Hlow, Hup.
    exists ls', w', (added1 ++ added2)%list, (S p).
    split; [exact Heq|].
    assert (Hsec : seconds (List.length (history w))
                     (List.length (added1 ++ added2))
                   = seconds (List.length (history w)) (List.length added1)
                     + seconds (List.length (history w2)) (List.length added2)).
    { rewrite length_app, seconds_app, Hlen2. reflexivity. }
    split; [|split; [|split; [|split; [|split; [|split]]]]].
    + unfold follows in *. rewrite Hf2, Hh2, Hf1, app_assoc. reflexivity.
    + cbn [repeat List.concat]. rewrite map_app. f_equal; assumption.
    + rewrite Hsec, Hclk2, Hc2, Hclk1. lia.
    + lia.
    + intros _. split; [lia|].
      destruct (Z_le_gt_dec (expected - (clock w2 - monitor_start)) 0) as [Hle | Hgt].
      * rewrite (Hzero Hle). unfold remaining. lia.
      * specialize (Hlow ltac:(lia)). unfold remaining. lia.
    + rewrite Hsec. unfold remaining. lia.
    + exists lines. exact Hout.
  - apply Z.ltb_ge in Hcond.
    eexists last_status, _, [], 0%nat. split; [reflexivity|].
    cbn [repeat List.concat map List.length seconds].
    split; [unfold follows; cbn; now rewrite app_nil_r|]. split; [reflexivity|].
    split; [cbn; lia|]. split; [reflexivity|].
    split; [unfold remaining; lia|]. split; [unfold remaining; lia|].
    exists (output w). unfold store_issue_immediately. cbn [print output].
    now rewrite <- app_assoc.
Qed.

(** The polling loop returns whenever the fuel exceeds the number of
    passes the remaining budget allows; it only makes status queries. *)
Lemma monitor_loop_returns resource_type expected monitor_start resource_details :
  forall fuel last_status w,
  (ticks (expected - (clock w - monitor_start)) < fuel)%nat ->
  exists result w' added,
    monitor_loop env fuel resource_type expected monitor_start
      resource_details last_status w
    = Some (result, w')
    /\ follows w w' added
    /\ forallb is_status_query added = true.
Proof.
  induction fuel as [|fuel IH]; intros last_status w Hfuel; [lia|].
  rewrite monitor_loop_unfold.
  destruct (clock w - monitor_start <? expected) eqn:Hcond.
  - apply Z.ltb_lt in Hcond.
    destruct (monitor_sweep_follows resource_type monitor_start
                resource_details last_status w)
      as (added1 & Hf1 & Hs1 & _ & Hc1).
    destruct (monitor_sweep env resource_type monitor_start resource_details
                last_status w) as [ls1 w1 | ls1 w1]; cbn [sweep_world] in *.
    + exists (true, ls1), w1, added1. auto.
    + cbv zeta. set (w2 := sleep 30 _).
      assert (Hh2 : history w2 = history w1).
      { unfold w2. destruct (_ && _); reflexivity. }
      assert (Hc2 : clock w2 = clock w1 + 30).
      { unfold w2. destruct (_ && _); cbn; lia. }
      destruct (IH ls1 w2) as (result & w' & added2 & Heq & Hf2 & Hs2).
      { pose proof (ticks_positive (expected - (clock w - monitor_start))
                      ltac:(lia)) as Ht.
        pose proof (ticks_mono (expected - (clock w2 - monitor_start))
                      (expected - (clock w - monitor_start) - 30) ltac:(lia)).
        lia. }
      exists result, w', (added1 ++ added2)%list.
      split; [exact Heq|]. split.
      * unfold follows in *. rewrite Hf2, Hh2, Hf1, app_assoc. reflexivity.
      * rewrite forallb_app, Hs1, Hs2. reflexivity.
  - eexists _, _, []. split; [reflexivity|]. split; [|reflexivity].
    unfold follows. cbn. now rewrite app_nil_r.
Qed.

Lemma expected_time_ticks resource_type :
  (ticks (expected_time resource_type) <= 60)%nat.
Proof.
  unfold expected_time.
  destruct (String.eqb resource_type "cluster");
    [|destruct (String.eqb resource_type "extension")];
    vm_compute; lia.
Qed.

Lemma get_resource_details_world self resource_file w :
  let w' := snd (get_resource_details env self resource_file w) in
  history w' = history w /\ clock w' = clock w.
Proof.
  unfold get_resource_details.
  destruct (yaml_safe_load_all env _) as [e | docs]; [split; reflexivity|].
  destruct (collect_details docs); split; reflexivity.
Qed.

(** What [get_resource_details] returns does not depend on the world. *)
Definition sub_resources (self : Deployer) (resource_file : string)
  : list ResourceDetail :=
  fst (get_resource_details env self resource_file
         {| clock := 0; history := []; output := [] |}).

Lemma get_resource_details_fst self resource_file w :
  fst (get_resource_details env self resource_file w)
  = sub_resources self resource_file.
Proof.
  unfold sub_resources, get_resource_details.
  destruct (yaml_safe_load_all env _) as [e | docs]; [reflexivity|].
  destruct (collect_details docs); reflexivity.
Qed.

(** [monitor_with_memory_updates] seen from the loop: the world in which
    the loop starts. *)
Definition monitor_entry (self : Deployer) (resource_file : string) (w : World)
  : World :=
  snd (get_resource_details env self resource_file
         (print (MemoryQuery ("aso " ++ Py.replace ".yaml" "" resource_file
                              ++ " provisioning time"))
            (print (Monitoring resource_file) w))).

Lemma monitor_entry_world self resource_file w :
  history (monitor_entry self resource_file w) = history w
  /\ clock (monitor_entry self resource_file w) = clock w.
Proof.
  unfold monitor_entry.
  destruct (get_resource_details_world self resource_file
              (print (MemoryQuery ("aso " ++ Py.replace ".yaml" "" resource_file
                                   ++ " provisioning time"))
                 (print (Monitoring resource_file) w))) as [Hh Hc].
  split; [rewrite Hh | rewrite Hc]; reflexivity.
Qed.

Lemma monitor_with_memory_updates_unfold fuel self resource_file w :
  monitor_with_memory_updates env fuel self resource_file w
  = let resource_type := Py.replace ".yaml" "" resource_file in
    let w0 := monitor_entry self resource_file w in
    match sub_resources self resource_file with
    | [] => Some (true, print (NoDetails resource_file) w0)
    | _ :: _ =>
        match monitor_loop env fuel resource_type (expected_time resource_type)
                (clock w) (sub_resources self resource_file) "" w0 with
        | Some ((ready, _), w') => Some (ready, w')
        | None => None
        end
    end.
Proof.
  unfold monitor_with_memory_updates, query_memory_before_action, monitor_entry.
  cbv zeta.
  set (w1 := print (MemoryQuery _) _).
  rewrite <- (get_resource_details_fst self resource_file w1).
  destruct (get_resource_details env self resource_file w1) as [rds w2].
  cbn [fst snd]. destruct rds; reflexivity.
Qed.

(** [monitor_with_memory_updates] returns when the fuel exceeds 60, the
    number of passes of the longest budget; it only makes status queries. *)
Lemma monitor_with_memory_updates_returns fuel self resource_file w :
  (60 < fuel)%nat ->
  exists ready w' added,
    monitor_with_memory_updates env fuel self resource_file w = Some (ready, w')
    /\ follows w w' added
    /\ forallb is_status_query added = true.
Proof.
  intros Hfuel. rewrite monitor_with_memory_updates_unfold. cbv zeta.
  destruct (monitor_entry_world self resource_file w) as [Hh Hc].
  destruct (sub_resources self resource_file) as [|rd rds].
  - eexists true, _, []. split; [reflexivity|]. split; [|reflexivity].
    unfold follows. cbn. now rewrite Hh, app_nil_r.
  - set (resource_type := Py.replace ".yaml" "" resource_file).
    destruct (monitor_loop_returns resource_type (expected_time resource_type)
                (clock w) (rd :: rds) fuel "" (monitor_entry self resource_file w))
      as ([ready ls] & w' & added & Heq & Hf & Hs).
    { rewrite Hc. replace (clock w - clock w) with 0 by lia.
      rewrite Z.sub_0_r. pose proof (expected_time_ticks resource_type). lia. }
    exists ready, w', added. rewrite Heq.
    split; [reflexivity|]. split; [|exact Hs].
    unfold follows in *. now rewrite Hf, Hh.
Qed.

Lemma status_query_not_apply (calls : list Call) :
  forallb is_status_query calls = true -> applies calls = [].
Proof.
  induction calls as [|c calls IH]; [reflexivity|].
  cbn [forallb]. intros H. apply andb_true_iff in H as [Hc Hrest].
  unfold applies in *. cbn [filter]. rewrite (IH Hrest).
  unfold is_status_query in Hc. unfold is_apply.
  destruct (fst c) as [|prog [|verb args]]; try discriminate.
  apply String.eqb_eq in Hc. subst verb. reflexivity.
Qed.

(** [deploy_resource_with_memory] makes one call, the apply of the file,
    and returns whether its exit status is zero. *)
Lemma deploy_resource_with_memory_spec self resource_file w :
  exists call w',
    deploy_resource_with_memory env self resource_file w
    = (apply_succeeded call, w')
    /\ follows w w' [call]
    /\ fst call = apply_command self resource_file.
Proof.
  unfold deploy_resource_with_memory, query_memory_before_action,
    run_kubectl_command.
  cbv zeta. cbn [history print List.length].
  set (result := kubectl env _ _).
  exists (apply_command self resource_file, result).
  unfold apply_succeeded. cbn [snd fst].
  destruct (returncode result =? 0); eexists; (split; [reflexivity|]);
    split; reflexivity.
Qed.

(** One phase: one apply, then status queries only; one result is
    appended, for this file, [deployed] as the apply went, and not
    [monitored] when the apply failed. *)
Lemma deploy_phase_spec fuel self resource_file w :
  (60 < fuel)%nat ->
  exists r w' call queries,
    deploy_phase env fuel self resource_file w = Some (append_result self r, w')
    /\ follows w w' (call :: queries)
    /\ fst call = apply_command self resource_file
    /\ forallb is_status_query queries = true
    /\ resource r = resource_file
    /\ deployed r = apply_succeeded call
    /\ (deployed r = false -> monitored r = false).
Proof.
  intros Hfuel. unfold deploy_phase. cbv zeta.
  destruct (deploy_resource_with_memory_spec self resource_file
              (print (Phase resource_file) w))
    as (call & w1 & -> & Hf1 & Hcall).
  destruct (apply_succeeded call) eqn:Hok.
  - destruct (Py.mem resource_file ["cluster.yaml"; "extension.yaml"]).
    + destruct (monitor_with_memory_updates_returns fuel self resource_file w1 Hfuel)
        as (ready & w2 & queries & -> & Hf2 & Hs2).
      eexists _, w2, call, queries. split; [reflexivity|].
      cbn [resource deployed monitored].
      repeat split; try assumption; try discriminate; try now symmetry.
      unfold follows in *. rewrite Hf2, Hf1. cbn. now rewrite <- app_assoc.
    + eexists _, _, call, []. split; [reflexivity|].
      cbn [resource deployed monitored].
      repeat split; try assumption; try discriminate; try now symmetry.
  - eexists _, _, call, []. split; [reflexivity|].
    cbn [resource deployed monitored].
    repeat split; try assumption; try discriminate; try now symmetry.
Qed.

Lemma append_result_fields self r :
  stack_dir (append_result self r) = stack_dir self
  /\ resource_order (append_result self r) = resource_order self
  /\ deployment_results (append_result self r)
     = (deployment_results self ++ [r])%list.
Proof. repeat split. Qed.

(** The loop over the files: the results appended are one for each file,
    in order, and so are the applies among the calls made. *)
Lemma deploy_phases_spec fuel :
  (60 < fuel)%nat ->
  forall files self w,
  exists self' w' added new,
    deploy_phases env fuel self files w = Some (self', w')
    /\ follows w w' added
    /\ stack_dir self' = stack_dir self
    /\ resource_order self' = resource_order self
    /\ deployment_results self' = (deployment_results self ++ new)%list
    /\ map resource new = files
    /\ map fst (applies added) = map (apply_command self) files
    /\ map deployed new = map apply_succeeded (applies added)
    /\ Forall (fun r => deployed r = false -> monitored r = false) new.
Proof.
  intros Hfuel.
  induction files as [|resource_file rest IH]; intros self w.
  - exists self, w, [], []. cbn.
    repeat split; try apply follows_refl; try now rewrite app_nil_r.
    constructor.
  - cbn [deploy_phases].
    destruct (deploy_phase_spec fuel self resource_file w Hfuel)
      as (r & w1 & call & queries & -> & Hf1 & Hcall & Hq & Hres & Hdep & Hmon).
    destruct (append_result_fields self r) as (Hsd & Hro & Hdr).
    destruct (IH (append_result self r) w1)
      as (self' & w' & added & new & -> & Hf & Hsd' & Hro' & Hdr' & Hmap & Hap & Hde & Hall).
    exists self', w', ((call :: queries) ++ added)%list, (r :: new).
    split; [reflexivity|].
    assert (Happly : is_apply call = true).
    { unfold is_apply. rewrite Hcall. reflexivity. }
    assert (Happlies : applies ((call :: queries) ++ added)
                       = call :: applies added).
    { unfold applies. rewrite filter_app. cbn [filter]. rewrite Happly.
      fold (applies queries). rewrite (status_query_not_apply queries Hq).
      reflexivity. }
    repeat split.
    + eapply follows_trans; eassumption.
    + congruence.
    + congruence.
    + rewrite Hdr', Hdr, <- app_assoc. reflexivity.
    + cbn [map]. congruence.
    + rewrite Happlies. cbn [map]. rewrite Hap, Hcall.
      unfold apply_command. rewrite Hsd. reflexivity.
    + rewrite Happlies. cbn [map]. congruence.
    + constructor; assumption.
Qed.

Lemma filter_all_length {A} (f : A -> bool) (l : list A) :
  Nat.eqb (List.length (filter f l)) (List.length l) = forallb f l.
Proof.
  induction l as [|x l IH]; [reflexivity|].
  cbn [filter forallb]. destruct (f x); cbn [andb List.length].
  - exact IH.
  - pose proof (filter_length_le f l).
    apply Nat.eqb_neq. lia.
Qed.

(** [run_memory_guided_deployment], all in one: it returns; it appends one
    result for each file of [resource_order], in order; the applies it
    makes are those of the files, in order; a result is [deployed] as its
    apply went and is not [monitored] when the apply failed; the value
    returned compares the number of deployed results with the number of
    files. *)
Lemma run_memory_guided_deployment_spec fuel self w :
  (60 < fuel)%nat ->
  exists success self' w' added new,
    run_memory_guided_deployment env fuel self w = Some (success, self', w')
    /\ follows w w' added
    /\ deployment_results self' = (deployment_results self ++ new)%list
    /\ map resource new = resource_order self
    /\ map fst (applies added) = map (apply_command self) (resource_order self)
    /\ map deployed new = map apply_succeeded (applies added)
    /\ Forall (fun r => deployed r = false -> monitored r = false) new
    /\ success
       = Nat.eqb (success_count (deployment_results self ++ new))
           (List.length (resource_order self)).
Proof.
  intros Hfuel. unfold run_memory_guided_deployment, query_memory_before_action.
  cbv zeta.
  set (w0 := print (MemoryQuery _) _).
  destruct (deploy_phases_spec fuel Hfuel (resource_order self) self w0)
    as (self' & w' & added & new & -> & Hf & Hsd & Hro & Hdr & Hmap & Hap & Hde & Hall).
  eexists _, self', _, added, new. split; [reflexivity|].
  repeat split; try assumption.
  rewrite Hdr, Hro. reflexivity.
Qed.


(** The polling loop has one exit with [False]: the one after the budget
    has run out. *)
Lemma monitor_loop_false_after_budget resource_type expected monitor_start
    resource_details :
  forall fuel last_status w last_status' w',
  monitor_loop env fuel resource_type expected monitor_start resource_details
    last_status w = Some ((false, last_status'), w') ->
  expected <= clock w' - monitor_start.
Proof.
  induction fuel as [|fuel IH]; intros last_status w last_status' w' H;
    [discriminate|].
  rewrite monitor_loop_unfold in H.
  destruct (clock w - monitor_start <? expected) eqn:Hcond.
  - destruct (monitor_sweep env resource_type monitor_start resource_details
                last_status w) as [ls1 w1 | ls1 w1]; [discriminate|].
    exact (IH _ _ _ _ H).
  - apply Z.ltb_ge in Hcond. injection H as _ <-. cbn. lia.
Qed.

(** With no sub-resource to query, [monitor_with_memory_updates] returns
    [True] at once: no query, no waiting, the warning as last line. *)
Lemma monitor_without_details fuel self resource_file w :
  sub_resources self resource_file = [] ->
  exists w',
    monitor_with_memory_updates env fuel self resource_file w = Some (true, w')
    /\ history w' = history w
    /\ clock w' = clock w
    /\ last (output w') Banner = NoDetails resource_file.
Proof.
  intros Hnone. rewrite monitor_with_memory_updates_unfold. cbv zeta.
  rewrite Hnone. eexists. split; [reflexivity|].
  destruct (monitor_entry_world self resource_file w) as [Hh Hc].
  repeat split; try assumption.
  cbn [print output]. apply last_last.
Qed.

End Polling.

Lemma forallb_of_map {A} (f : A -> bool) (l : list A) :
  forallb (fun b => b) (map f l) = forallb f l.
Proof.
  induction l as [|x l IH]; [reflexivity|].
  cbn [map forallb]. now rewrite IH.
Qed.

Lemma status_lines_snoc lines l :
  status_lines (lines ++ [l])
  = (status_lines lines ++ match l with Status text => [text] | _ => [] end)%list.
Proof.
  unfold status_lines. rewrite flat_map_app. cbn [flat_map].
  now rewrite app_nil_r.
Qed.

Lemma status_lines_after_pass (still : bool) elapsed w :
  status_lines
    (output (sleep 30 (if still then print (StillProvisioning elapsed) w else w)))
  = status_lines (output w).
Proof.
  destruct still; cbn [sleep print output]; [|reflexivity].
  now rewrite status_lines_snoc, app_nil_r.
Qed.

(** What does hold of the debounce: with one sub-resource whose status
    checks are never ready and always carry the same message, the polling
    loop prints at most one status line, and none when the line is the one
    already in [last_status]. *)
Lemma debounce_one_sub_resource env resource_type expected monitor_start rd
    message :
  (forall n, answer_at env n rd = (false, message)) ->
  forall fuel last_status w result w',
  monitor_loop env fuel resource_type expected monitor_start [rd] last_status w
  = Some (result, w') ->
  exists extra,
    status_lines (output w') = (status_lines (output w) ++ extra)%list
    /\ (extra = [] \/ extra = [rd_name rd ++ ": " ++ message])
    /\ (last_status = rd_name rd ++ ": " ++ message -> extra = []).
Proof.
  intros Hanswer.
  induction fuel as [|fuel IH]; intros last_status w result w' H; [discriminate|].
  rewrite monitor_loop_unfold in H.
  destruct (clock w - monitor_start <? expected).
  - rewrite monitor_sweep_cons in H. cbv zeta in H.
    rewrite Hanswer in H. cbn [fst snd] in H.
    set (current := rd_name rd ++ ": " ++ message) in *.
    cbn [monitor_sweep] in H.
    destruct (String.eqb current last_status) eqn:E; cbn [negb] in H.
    + apply String.eqb_eq in E. subst last_status.
      destruct (IH _ _ _ _ H) as (extra & Hout & _ & Hsame).
      exists extra. rewrite (Hsame eq_refl) in *.
      rewrite Hout, status_lines_after_pass, after_query_output. auto.
    + destruct (IH _ _ _ _ H) as (extra & Hout & _ & Hsame).
      rewrite (Hsame eq_refl), app_nil_r in Hout.
      exists [current]. rewrite Hout, status_lines_after_pass.
      cbn [print output]. rewrite status_lines_snoc, after_query_output.
      split; [reflexivity|]. split; [auto|].
      intros ->. rewrite String.eqb_refl in E. discriminate.
  - injection H as _ <-. exists [].
    unfold store_issue_immediately. cbn [print output].
    rewrite !status_lines_snoc, !app_nil_r. auto.
Qed.


(** ** The claims about the deployer *)

(** C1.  Whatever the environment answers (so for every pattern of apply
    failures), [run_memory_guided_deployment] returns, and the results it
    appends are exactly one for each file of [resource_order], in the same
    order.  The applies it makes are those of the files, in order; a result
    is [deployed] exactly when its apply succeeded, and a failed apply
    leaves [deployed = False] and [monitored = False] while the later files
    are still applied. *)
Theorem run_records_each_resource_once env fuel self w :
  (60 < fuel)%nat ->
  exists success self' w' added new,
    run_memory_guided_deployment env fuel self w = Some (success, self', w')
    /\ follows w w' added
    /\ deployment_results self' = (deployment_results self ++ new)%list
    /\ List.length new = List.length (resource_order self)
    /\ map resource new = resource_order self
    /\ map fst (applies added) = map (apply_command self) (resource_order self)
    /\ map deployed new = map apply_succeeded (applies added)
    /\ Forall (fun r => deployed r = false -> monitored r = false) new.
Proof.
  intros Hfuel.
  destruct (run_memory_guided_deployment_spec env fuel self w Hfuel)
    as (success & self' & w' & added & new & Heq & Hf & Hdr & Hres & Hap & Hde & Hall & _).
  exists success, self', w', added, new.
  repeat split; try assumption.
  rewrite <- Hres. symmetry. apply length_map.
Qed.

(** C9.  For a fresh deployer the value [run_memory_guided_deployment]
    returns is [True] exactly when every apply of the run succeeded; what
    the monitoring of a resource returned plays no part in it. *)
Theorem run_success_iff_every_apply_succeeded env fuel self w :
  (60 < fuel)%nat ->
  deployment_results self = [] ->
  exists success self' w' added,
    run_memory_guided_deployment env fuel self w = Some (success, self', w')
    /\ follows w w' added
    /\ map fst (applies added) = map (apply_command self) (resource_order self)
    /\ (success = true <-> forallb apply_succeeded (applies added) = true).
Proof.
  intros Hfuel Hfresh.
  destruct (run_memory_guided_deployment_spec env fuel self w Hfuel)
    as (success & self' & w' & added & new & Heq & Hf & Hdr & Hres & Hap & Hde & Hall & Hsucc).
  exists success, self', w', added.
  repeat split; try assumption.
  - intros ->. rewrite Hfresh in Hsucc. cbn [app] in Hsucc.
    rewrite <- Hres, length_map in Hsucc. unfold success_count in Hsucc.
    rewrite filter_all_length in Hsucc.
    rewrite <- forallb_of_map, <- Hde, forallb_of_map. now symmetry.
  - intros Hall'. rewrite Hsucc, Hfresh. cbn [app].
    rewrite <- Hres, length_map. unfold success_count.
    rewrite filter_all_length.
    rewrite <- forallb_of_map, <- Hde, forallb_of_map in Hall'. exact Hall'.
Qed.



(** ** Concrete runs *)

(** The world in which a run starts. *)
Definition fresh : World := {| clock := 0; history := []; output := [] |}.

Definition document (kind name : string) : option Document :=
  Some {| doc_kind := Some kind; doc_name := Some name;
          doc_namespace := Some (Str "azure-system") |}.

(** A stack in which the two monitored files hold one resource each. *)
Definition stack_files (path : string) : string + list (option Document) :=
  if String.eqb path "./aso-stack/cluster.yaml"
  then inr [document "ManagedCluster" "aks"]
  else if String.eqb path "./aso-stack/extension.yaml"
  then inr [document "Extension" "flux"]
  else inl "No such file".

(** A stack in which the two monitored files hold two resources each. *)
Definition paired_files (path : string) : string + list (option Document) :=
  if String.eqb path "./aso-stack/cluster.yaml"
  then inr [document "ManagedCluster" "aks"; document "AgentPool" "pool"]
  else if String.eqb path "./aso-stack/extension.yaml"
  then inr [document "Extension" "flux"; document "Extension" "policy"]
  else inl "No such file".

(** A cluster given by the files whose apply it rejects, the message of
    the Ready condition it reports to the n-th command (the condition is
    True when the message is "ready"), and the resource files.  Commands
    take no time. *)
Definition cluster (rejects : string -> bool) (message : nat -> string)
    (files : string -> string + list (option Document)) : Environment :=
  {| kubectl := fun n args =>
       match args with
       | verb :: _ :: path :: _ =>
           if String.eqb verb "apply"
           then if rejects path
                then {| returncode := 1; stdout := ""; stderr := "rejected" |}
                else {| returncode := 0; stdout := "configured"; stderr := "" |}
           else {| returncode := 0; stdout := message n; stderr := "" |}
       | _ => {| returncode := 0; stdout := message n; stderr := "" |}
       end;
     kubectl_seconds := fun _ => 0%nat;
     yaml_safe_load := fun out =>
       inr [{| cond_type := Some "Ready";
               cond_status := Some (if String.eqb out "ready" then "True" else "False");
               cond_message := Some out |}];
     yaml_safe_load_all := files |}.

(** Every apply succeeds, nothing ever becomes ready. *)
Definition stuck : Environment :=
  cluster (fun _ => false) (fun _ => "Provisioning") stack_files.

(** The apply of the fifth file is rejected, everything else is ready at
    once. *)
Definition fifth_rejected : Environment :=
  cluster (fun path => String.eqb path "./aso-stack/federated.yaml")
    (fun _ => "ready") stack_files.

(** Two resources in each monitored file, nothing ever becomes ready. *)
Definition stuck_pairs : Environment :=
  cluster (fun _ => false) (fun _ => "Provisioning") paired_files.

(** Two resources in each monitored file, the first command finds its
    resource ready. *)
Definition first_ready : Environment :=
  cluster (fun _ => false)
    (fun n => if Nat.eqb n 0 then "ready" else "Provisioning") paired_files.


(** Everything is ready at once. *)
Definition healthy : Environment :=
  cluster (fun _ => false) (fun _ => "ready") stack_files.

(** Every status query reports an unrecoverable failure. *)
Definition broken : Environment :=
  cluster (fun _ => false) (fun _ => "Error: provisioning failed, quota exceeded")
    stack_files.

(** The same cluster with commands that take one second each. *)
Definition slowed (env : Environment) : Environment :=
  {| kubectl := kubectl env;
     kubectl_seconds := fun _ => 1%nat;
     yaml_safe_load := yaml_safe_load env;
     yaml_safe_load_all := yaml_safe_load_all env |}.


(** The cluster is ready by the time it is polled (the fifth command of
    the run is its status query); the extension never becomes ready.
    Every command takes one second. *)
Definition ready_then_stuck : Environment :=
  slowed (cluster (fun _ => false)
            (fun n => if Nat.leb n 4 then "ready" else "Provisioning")
            stack_files).


Lemma cluster_instantaneous rejects message files :
  instantaneous (cluster rejects message files).
Proof. intros n. reflexivity. Qed.

(** The results of a run, when it returns. *)
Definition results_of (run : option (bool * Deployer * World))
  : list DeploymentResult :=
  match run with
  | Some (_, self, _) => deployment_results self
  | None => []
  end.

(** The scenario of section 8: seven files, the apply of the fifth fails.
    The log has seven entries, the fifth with [deployed] and [monitored]
    [False], the others deployed. *)
Example seven_resources_fifth_fails :
  results_of (run_memory_guided_deployment fifth_rejected 61 new_deployer fresh)
  = [ {| resource := "resourcegroup.yaml"; deployed := true; monitored := true |};
      {| resource := "identity.yaml"; deployed := true; monitored := true |};
      {| resource := "roleassignment.yaml"; deployed := true; monitored := true |};
      {| resource := "cluster.yaml"; deployed := true; monitored := true |};
      {| resource := "federated.yaml"; deployed := false; monitored := false |};
      {| resource := "extension.yaml"; deployed := true; monitored := true |};
      {| resource := "fluxconfiguration.yaml"; deployed := true; monitored := true |} ].
Proof. vm_compute. reflexivity. Qed.

Lemma run_records_each_resource_once_witness :
  (60 < 61)%nat
  /\ exists success self' w' added new,
       run_memory_guided_deployment fifth_rejected 61 new_deployer fresh
       = Some (success, self', w')
       /\ follows fresh w' added
       /\ deployment_results self' = (deployment_results new_deployer ++ new)%list
       /\ List.length new = List.length (resource_order new_deployer)
       /\ map resource new = resource_order new_deployer
       /\ map fst (applies added)
          = map (apply_command new_deployer) (resource_order new_deployer)
       /\ map deployed new = map apply_succeeded (applies added)
       /\ Forall (fun r => deployed r = false -> monitored r = false) new.
Proof.
  split; [lia|].
  apply (run_records_each_resource_once fifth_rejected 61 new_deployer fresh).
  lia.
Defined.

(** Monitoring that times out does not count against the run: every apply
    succeeds, the cluster and the extension never become ready, and the
    run still returns [True]. *)
Example timed_out_monitoring_still_succeeds :
  match run_memory_guided_deployment stuck 61 new_deployer fresh with
  | Some (success, self, _) =>
      success = true
      /\ In {| resource := "cluster.yaml"; deployed := true; monitored := false |}
           (deployment_results self)
  | None => False
  end.
Proof. vm_compute. split; [reflexivity|]. do 3 right. left. reflexivity. Qed.

Lemma run_success_iff_every_apply_succeeded_witness :
  (60 < 61)%nat
  /\ deployment_results new_deployer = []
  /\ exists success self' w' added,
       run_memory_guided_deployment stuck 61 new_deployer fresh
       = Some (success, self', w')
       /\ follows fresh w' added
       /\ map fst (applies added)
          = map (apply_command new_deployer) (resource_order new_deployer)
       /\ (success = true <-> forallb apply_succeeded (applies added) = true).
Proof.
  split; [lia|]. split; [reflexivity|].
  apply (run_success_iff_every_apply_succeeded stuck 61 new_deployer fresh).
  - lia.
  - reflexivity.
Defined.



(** The world in which the poll of [extension.yaml] starts on
    [ready_then_stuck]: the five files before it are deployed, the
    cluster was seen ready, and the extension file has just been applied. *)
Definition extension_applied : World :=
  Eval vm_compute in
    match deploy_phases ready_then_stuck 61 new_deployer
            ["resourcegroup.yaml"; "identity.yaml"; "roleassignment.yaml";
             "cluster.yaml"; "federated.yaml"] fresh with
    | Some (self, w) =>
        snd (deploy_resource_with_memory ready_then_stuck self "extension.yaml" w)
    | None => fresh
    end.


(** On that run the cluster was polled and seen ready with one query; the
    poll of the extension then makes 20 passes of 31 seconds and times out. *)
Example extension_poll_after_ready_cluster :
  map fst (filter is_status_query (history extension_applied))
  = [["kubectl"; "get"; "managedcluster"; "aks"; "-n"; "azure-system"; "-o"; "yaml"]]
  /\ match monitor_with_memory_updates ready_then_stuck 61 new_deployer
             "extension.yaml" extension_applied with
     | Some (ready, w') =>
         ready = false
         /\ List.length (history w')
            = (List.length (history extension_applied) + 20)%nat
     | None => False
     end.
Proof. vm_compute. repeat split. Qed.

(** The scenario of section 8: the cluster file (1800 seconds), one
    sub-resource that never becomes ready: 60 status queries, then [False]. *)
Example cluster_never_ready_sixty_queries :
  match monitor_with_memory_updates stuck 61 new_deployer "cluster.yaml" fresh with
  | Some (ready, w') =>
      ready = false
      /\ List.length (filter is_status_query (history w')) = 60%nat
      /\ clock w' = 1800
  | None => False
  end.
Proof. vm_compute. repeat split. Qed.

Definition aks : ResourceDetail :=
  {| rd_type := "managedcluster"; rd_name := "aks"; rd_namespace := "azure-system" |}.

Definition pool : ResourceDetail :=
  {| rd_type := "agentpool"; rd_name := "pool"; rd_namespace := "azure-system" |}.


(** Two sub-resources, the first ready at the first pass: the poller
    returns [True] after one query; the second is never asked. *)
Example first_of_two_ready :
  sub_resources first_ready new_deployer "cluster.yaml" = [aks; pool]
  /\ match monitor_with_memory_updates first_ready 61 new_deployer "cluster.yaml"
             fresh with
     | Some (ready, w') =>
         ready = true /\ map fst (history w') = [status_query aks]
     | None => False
     end.
Proof. vm_compute. repeat split. Qed.

(** ** The degraded result (C3) *)





(** ** The debounce (C7) *)

(** C7 fails on a file with two sub-resources: [last_status] is one
    variable for the whole file, the status lines of the two sub-resources
    differ, so each of them differs from the line printed just before and
    both are printed again at every pass, although the message of each
    sub-resource never changes.  Over the 20 passes of the extension budget
    each line is printed 20 times. *)
Theorem debounce_defeated_by_two_sub_resources :
  match monitor_with_memory_updates stuck_pairs 61 new_deployer "extension.yaml"
          fresh with
  | Some (ready, w') =>
      ready = false
      /\ status_lines (output w')
         = List.concat (repeat ["flux: Provisioning"; "policy: Provisioning"] 20)
  | None => False
  end.
Proof. vm_compute. split; reflexivity. Qed.

(** With one sub-resource the same unchanging message is printed once. *)
Example debounce_with_one_sub_resource :
  match monitor_with_memory_updates stuck 61 new_deployer "extension.yaml" fresh with
  | Some (ready, w') =>
      ready = false /\ status_lines (output w') = ["flux: Provisioning"]
  | None => False
  end.
Proof. vm_compute. split; reflexivity. Qed.

(** ** The terminal error (C4) *)

(** A status query whose message speaks of an error. *)
Definition surfaces_error (env : Environment) (c : Call) : bool :=
  is_status_query c && Py.contains "Error" (snd (read_status env (snd c))).

(** The claim: once a status query has surfaced an error the poller
    returns [False] before the budget of the file has elapsed. *)
Definition terminal_error_stops_poll : Prop :=
  forall env fuel self resource_file w ready w' added,
    monitor_with_memory_updates env fuel self resource_file w = Some (ready, w') ->
    follows w w' added ->
    existsb (surfaces_error env) added = true ->
    ready = false
    /\ clock w' - clock w < expected_time (Py.replace ".yaml" "" resource_file).

(** C4, as stated, fails for the deployment poller: every status query
    reports "Error: provisioning failed, quota exceeded", and the poller
    still makes all 20 passes of the extension budget and returns only when
    the 600 seconds have elapsed. *)
Lemma terminal_error_does_not_stop_poll :
  ~ terminal_error_stops_poll
  /\ match monitor_with_memory_updates broken 61 new_deployer "extension.yaml"
             fresh with
     | Some (ready, w') =>
         ready = false
         /\ List.length (filter (surfaces_error broken) (history w')) = 20%nat
         /\ clock w' = 600
     | None => False
     end.
Proof.
  split; [|vm_compute; repeat split].
  intros Hclaim.
  destruct (monitor_with_memory_updates broken 61 new_deployer "extension.yaml" fresh)
    as [[ready w']|] eqn:E; [|vm_compute in E; discriminate].
  destruct (Hclaim broken 61%nat new_deployer "extension.yaml" fresh ready w'
              (history w') E) as [_ Hearly].
  - reflexivity.
  - vm_compute in E. injection E as _ <-. vm_compute. reflexivity.
  - vm_compute in E. injection E as _ <-. vm_compute in Hearly. discriminate.
Qed.

Definition flux : ResourceDetail :=
  {| rd_type := "extension"; rd_name := "flux"; rd_namespace := "azure-system" |}.

(** The world in which the polling loop of the extension file ends when
    every status query reports an error. *)
Definition broken_exit_world : World :=
  Eval vm_compute in
    match monitor_loop broken 21 "extension" 600 0 [flux] "" fresh with
    | Some (_, w) => w
    | None => fresh
    end.

Lemma broken_exit :
  monitor_loop broken 21 "extension" 600 0 [flux] "" fresh
  = Some ((false, "flux: Error: provisioning failed, quota exceeded"),
          broken_exit_world).
Proof. vm_compute. reflexivity. Qed.

End DeployerProps.

(** * Properties of the cert-manager validator *)

Module CertManagerProps.

Import CertManager.

(** The world in which a run starts. *)
Definition fresh : World := {| clock := 0; history := []; output := [] |}.

Definition readiness_query (test_name : string) : list string :=
  ["kubectl"; "get"; "certificate"; test_name;
   "-o"; "jsonpath={.status.conditions[?(@.type=='Ready')].status}"].

Definition describe_query (test_name : string) : list string :=
  ["kubectl"; "describe"; "certificate"; test_name].

(** The readiness query found the certificate ready. *)
Definition reports_ready (result : CompletedProcess) : bool :=
  (returncode result =? 0) && String.eqb (Py.strip (stdout result)) "True".

(** The describe command went through and its output mentions an error. *)
Definition reports_error (result : CompletedProcess) : bool :=
  (returncode result =? 0) && Py.contains "Error" (stdout result).

Section Waiting.

Variable env : Environment.

Lemma run_kubectl_spec args check w :
  let cmd := "kubectl" :: args in
  let result := command env (List.length (history w)) cmd in
  exists w',
    run_kubectl env args check w
    = (if check && negb (returncode result =? 0) then None else Some result, w')
    /\ history w' = (history w ++ [(cmd, result)])%list
    /\ clock w'
       = clock w + Z.of_nat (command_seconds env (List.length (history w))).
Proof.
  intros cmd result. unfold run_kubectl, run_command. cbv zeta.
  fold cmd. fold result.
  destruct (check && negb (returncode result =? 0));
    eexists; (split; [reflexivity|]); split; reflexivity.
Qed.

(** A pass of the waiting loop that finds the certificate not ready and
    an error in its description leaves the loop at once: two commands,
    no sleep. *)
Lemma wait_for_certificate_leaves_on_error
    fuel self test_name timeout_seconds start_time w :
  let n := List.length (history w) in
  let r1 := command env n (readiness_query test_name) in
  let r2 := command env (S n) (describe_query test_name) in
  clock w - start_time < timeout_seconds ->
  reports_ready r1 = false ->
  reports_error r2 = true ->
  exists w',
    wait_for_certificate env (S fuel) self test_name timeout_seconds start_time w
    = Some (LeftLoop w')
    /\ history w'
       = (history w
          ++ [(readiness_query test_name, r1); (describe_query test_name, r2)])%list
    /\ clock w'
       = clock w + Z.of_nat (command_seconds env n)
         + Z.of_nat (command_seconds env (S n)).
Proof.
  intros n r1 r2 Hbudget Hnot Herr.
  apply Z.ltb_lt in Hbudget.
  cbn [wait_for_certificate]. rewrite Hbudget.
  unfold reports_ready in Hnot. unfold reports_error in Herr.
  apply andb_true_iff in Herr as [Hrc2 Herr].
  destruct (run_kubectl_spec
              ["get"; "certificate"; test_name; "-o";
               "jsonpath={.status.conditions[?(@.type=='Ready')].status}"]
              true w) as (w1 & -> & Hh1 & Hc1).
  fold (readiness_query test_name) in *. fold n in Hh1, Hc1 |- *.
  fold r1 in Hh1 |- *.
  assert (Hready :
            match (if true && negb (returncode r1 =? 0) then None else Some r1) with
            | Some result => String.eqb (Py.strip (stdout result)) "True"
            | None => false
            end = false).
  { destruct (returncode r1 =? 0); cbn in *; [exact Hnot | reflexivity]. }
  rewrite Hready.
  destruct (run_kubectl_spec ["describe"; "certificate"; test_name] true w1)
    as (w2 & -> & Hh2 & Hc2).
  fold (describe_query test_name) in *.
  assert (Hlen : List.length (history w1) = S n).
  { rewrite Hh1, length_app. cbn. lia. }
  rewrite Hlen in *. fold r2 in Hh2 |- *.
  rewrite Hrc2. cbn [andb negb]. rewrite Herr.
  eexists. split; [reflexivity|].
  cbn [print history clock]. split.
  - rewrite Hh2, Hh1, <- app_assoc. reflexivity.
  - rewrite Hc2, Hc1. reflexivity.
Qed.

End Waiting.

(** ** Concrete runs *)

Definition completed (out : string) : CompletedProcess :=
  {| returncode := 0; stdout := out; stderr := "" |}.

Definition failed (err : string) : CompletedProcess :=
  {| returncode := 1; stdout := ""; stderr := err |}.

Definition running (name : string) : Pod :=
  {| pod_name := name; pod_phase := "Running" |}.

Definition ready_issuer (name : string) : Issuer :=
  {| issuer_name := name; issuer_conditions := [("Ready", "True")] |}.

(** A cluster in which cert-manager is installed and running, with its
    two issuers ready and the DNS zone readable; [account] is the service
    account of cert-manager. *)
Definition installed (account : ServiceAccount) : Environment :=
  {| command := fun _ cmd =>
       match cmd with
       | _ :: _ :: what :: _ =>
           if String.eqb what "crd"
           then completed (String.concat " " required_crds)
           else completed what
       | _ => completed ""
       end;
     command_seconds := fun _ => 1%nat;
     decode_pods := fun _ =>
       Parsed [running "cert-manager-5d7f97b46d-abcde";
               running "cert-manager-webhook-7f9f8b6c5-fghij";
               running "cert-manager-cainjector-6c8b9d7f4-klmno"];
     decode_issuers := fun _ =>
       Parsed [ready_issuer "letsencrypt-staging-dns01";
               ready_issuer "letsencrypt-production-dns01"];
     decode_service_account := fun _ => Parsed account;
     decode_records := fun _ => Parsed [] |}.

(** The service account carries the client id of another identity. *)
Definition mismatched_identity : Environment :=
  installed {| sa_client_id := Some "00000000-0000-0000-0000-000000000000";
               sa_use := Some "true" |}.

(** No command gets through: kubectl and az exit with status 1. *)
Definition offline : Environment :=
  {| command := fun _ _ => failed "connection refused";
     command_seconds := fun _ => 1%nat;
     decode_pods := fun _ => JSONDecodeError;
     decode_issuers := fun _ => JSONDecodeError;
     decode_service_account := fun _ => JSONDecodeError;
     decode_records := fun _ => JSONDecodeError |}.

(** The test certificate is created, is not ready, and its description
    shows a failed order. *)
Definition failing_issuance : Environment :=
  {| command := fun _ cmd =>
       match cmd with
       | _ :: verb :: _ =>
           if String.eqb verb "get" then completed "False"
           else if String.eqb verb "describe"
           then completed "Status: Error: order failed"
           else completed ""
       | _ => completed ""
       end;
     command_seconds := fun _ => 1%nat;
     decode_pods := fun _ => JSONDecodeError;
     decode_issuers := fun _ => JSONDecodeError;
     decode_service_account := fun _ => JSONDecodeError;
     decode_records := fun _ => JSONDecodeError |}.

(** The validator a run leaves. *)
Definition validator_after (env : Environment) (w : World) : Validator :=
  snd (fst (run_all_validations env new_validator w)).

(** ** The claims about the validator *)

(** C8 fails.  The service account of cert-manager carries another client
    id, everything else is in order.  [check_workload_identity] reports
    the failure ([return False]) without recording it in [self.results];
    the summary counts 4 of 4 checks passed and the exit status is 0. *)
Theorem failed_check_exits_zero :
  check_reports mismatched_identity fresh
  = [("CRDs Installation", Returned true);
     ("Pod Status", Returned true);
     ("Workload Identity", Returned false);
     ("ClusterIssuers", Returned true);
     ("Azure DNS Permissions", Returned true)]
  /\ results (validator_after mismatched_identity fresh)
     = [("CRDs Installed", true);
        ("Cert-Manager Pods", true);
        ("ClusterIssuers Ready", true);
        ("Azure DNS Permissions", true)]
  /\ fst (main mismatched_identity fresh) = 0.
Proof. vm_compute. repeat split. Qed.

(** C5 fails for the validator.  [generate_summary] on no results
    compares 0 with 0 and returns [True]; with
    kubectl and az failing every check returns [False] without recording
    anything, so this is what a run does, and it exits with status 0.  The
    report of the Istio suite does give FAIL when no test was recorded. *)
Theorem empty_summary_passes :
  (forall w, fst (generate_summary new_validator w) = true)
  /\ (forall findings,
        Istio.overall_status
          (Istio.generate_report
             {| Istio.test_results := []; Istio.security_findings := findings |})
        = "FAIL")
  /\ map snd (check_reports offline fresh)
     = [Returned false; Returned false; Returned false; Returned false;
        Returned false]
  /\ results (validator_after offline fresh) = []
  /\ fst (main offline fresh) = 0.
Proof.
  split; [intros w; reflexivity|].
  split; [intros findings; reflexivity|].
  vm_compute. repeat split.
Qed.

(** The whole method on that certificate: apply, one readiness query, one
    describe, the clean-up; the failure is recorded and [False] returned,
    4 seconds into a budget of 300. *)
Example certificate_poll_stops_on_error :
  match test_certificate_issuance failing_issuance 31 300 new_validator fresh with
  | Some (report, self, w') =>
      report = Returned false
      /\ results self = [("Certificate Issuance Test", false)]
      /\ map (fun c => nth 1 (fst c) "") (history w')
         = ["apply"; "get"; "describe"; "delete"]
      /\ clock w' = 4
  | None => False
  end.
Proof. vm_compute. repeat split. Qed.

End CertManagerProps.

(** * Properties of the Istio report *)

Module IstioProps.

Import Istio.










Definition outcome (name : string) (ok : bool) : TestResult :=
  {| test := name; passed := ok |}.





(** ** The claim about the report *)




(** Five outcomes, four passed. *)
Definition four_of_five : list TestResult :=
  [outcome "control_plane_health" true;
   outcome "gateway_routing" true;
   outcome "canary_routing" false;
   outcome "mtls_configuration" true;
   outcome "observability" true].

Definition critical_finding : Finding :=
  {| severity := "CRITICAL";
     finding_type := "missing_authorization_policy";
     description := "No authorization policy in namespace";
     remediation := "Add a deny-by-default policy" |}.

(** Four of five passed, and one finding is critical. *)
Definition vetoed : Suite :=
  {| test_results := four_of_five; security_findings := [critical_finding] |}.


(** The scenarios of section 8: four of five passed with no critical
    finding gives PASS, the same counts with one critical finding FAIL. *)
Example four_of_five_passes :
  overall_status
    (generate_report {| test_results := four_of_five; security_findings := [] |})
  = "PASS"
  /\ overall_status (generate_report vetoed) = "FAIL".
Proof. split; reflexivity. Qed.

End IstioProps.

(** * More on the deployer: status reading, resource files, polling bounds *)

Module DeployerBehaviour.

Import Deployer DeployerProps.

(** A condition of type Ready. *)
Definition is_ready_type (c : Condition) : bool :=
  Py.get_eqb (cond_type c) "Ready".

Section Reading.

Variable env : Environment.

Lemma ready_condition_skips pre rest :
  forallb (fun c => negb (is_ready_type c)) pre = true ->
  ready_condition (pre ++ rest) = ready_condition rest.
Proof.
  induction pre as [|c pre IH]; intros H; [reflexivity|].
  cbn [forallb] in H. apply andb_true_iff in H as [Hc Hpre].
  cbn [app ready_condition]. unfold is_ready_type in Hc.
  apply negb_true_iff in Hc. rewrite Hc. exact (IH Hpre).
Qed.

Lemma ready_condition_sound conditions :
  fst (ready_condition conditions) = true ->
  exists c,
    In c conditions
    /\ cond_type c = Some "Ready"
    /\ cond_status c = Some "True".
Proof.
  induction conditions as [|c rest IH]; [discriminate|].
  cbn [ready_condition].
  destruct (Py.get_eqb (cond_type c) "Ready") eqn:Htype.
  - cbn [fst]. intros Hstatus. exists c. split; [now left|].
    unfold Py.get_eqb in *.
    destruct (cond_type c) as [t|]; [|discriminate].
    destruct (cond_status c) as [s|]; [|discriminate].
    apply String.eqb_eq in Htype, Hstatus. subst. auto.
  - intros H. destruct (IH H) as (c' & Hin & Ht & Hs).
    exists c'. split; [now right | auto].
Qed.

End Reading.

(** X1.  [check_resource_status] goes by the first condition of type Ready
    and by nothing else: when the command succeeds and the conditions
    decode to [pre ++ c :: post] with no Ready condition in [pre] and [c] of
    type Ready, the answer is whether the status of [c] is "True", with the
    message of [c] (empty when it has none), whatever [post] holds. *)
Theorem first_ready_condition_decides env resource_type resource_name namespace
    w pre c post :
  let result :=
    kubectl env (List.length (history w))
      (status_args resource_type resource_name namespace) in
  returncode result = 0 ->
  yaml_safe_load env (stdout result) = inr (pre ++ c :: post)%list ->
  forallb (fun x => negb (is_ready_type x)) pre = true ->
  is_ready_type c = true ->
  fst (check_resource_status env resource_type resource_name namespace w)
  = (Py.get_eqb (cond_status c) "True", Py.get_default (cond_message c) "").
Proof.
  intros result Hrc Hload Hpre Hc.
  unfold check_resource_status, run_kubectl_command. cbv zeta. cbn [fst].
  fold result. unfold read_status. rewrite Hrc, Hload. cbn [Z.eqb].
  rewrite (ready_condition_skips pre (c :: post) Hpre).
  cbn [ready_condition]. unfold is_ready_type in Hc. rewrite Hc. reflexivity.
Qed.

(** X2.  [check_resource_status] reports ready only on evidence: the
    command exited with status 0, its output decoded, and the conditions
    hold one of type Ready with status "True".  A failed command, an
    exception while decoding and a missing Ready condition all give not
    ready. *)
Theorem ready_only_on_evidence env resource_type resource_name namespace w :
  let result :=
    kubectl env (List.length (history w))
      (status_args resource_type resource_name namespace) in
  fst (fst (check_resource_status env resource_type resource_name namespace w))
  = true ->
  returncode result = 0
  /\ exists conditions c,
       yaml_safe_load env (stdout result) = inr conditions
       /\ In c conditions
       /\ cond_type c = Some "Ready"
       /\ cond_status c = Some "True".
Proof.
  intros result.
  unfold check_resource_status, run_kubectl_command. cbv zeta. cbn [fst].
  fold result. unfold read_status.
  destruct (returncode result =? 0) eqn:Hrc; [|discriminate].
  apply Z.eqb_eq in Hrc.
  destruct (yaml_safe_load env (stdout result)) as [e | conditions] eqn:Hload;
    [discriminate|].
  intros H. split; [exact Hrc|].
  destruct (ready_condition_sound conditions H) as (c & Hin & Ht & Hs).
  exists conditions, c. auto.
Qed.

Section PollingBounds.

Variable env : Environment.

(** A pass that ends with the ready branch ends on a status query that
    answered ready. *)
Lemma monitor_sweep_found_ready resource_type monitor_start :
  forall resource_details last_status w last_status' w',
  monitor_sweep env resource_type monitor_start resource_details last_status w
  = FoundReady last_status' w' ->
  exists before c,
    follows w w' (before ++ [c])
    /\ is_status_query c = true
    /\ fst (read_status env (snd c)) = true.
Proof.
  induction resource_details as [|rd rest IH];
    intros last_status w last_status' w' H; [discriminate|].
  rewrite monitor_sweep_cons in H. cbv zeta in H.
  destruct (fst (answer_at env (List.length (history w)) rd)) eqn:Hready.
  - injection H as _ <-.
    assert (Hable : queryable rd = true).
    { destruct (queryable rd) eqn:E; [reflexivity|].
      rewrite (answer_at_not_queryable env _ rd E) in Hready. discriminate. }
    rewrite (answer_at_queryable env _ rd Hable) in Hready.
    exists [], (status_query rd, query_result env rd w).
    split; [|split; [reflexivity | exact Hready]].
    unfold follows. cbn [app store_success_pattern print history].
    rewrite after_query_history. unfold query_calls. rewrite Hable. reflexivity.
  - assert (Hnext : exists ls1 w1,
               monitor_sweep env resource_type monitor_start rest ls1 w1
               = FoundReady last_status' w'
               /\ history w1 = history (after_query env rd w)).
    { destruct (negb _); eauto. }
    destruct Hnext as (ls1 & w1 & Hsweep & Hh1).
    destruct (IH _ _ _ _ Hsweep) as (before & c & Hf & Hq & Hr).
    exists (query_calls env rd w ++ before)%list, c.
    split; [|auto].
    unfold follows in *. rewrite Hf, Hh1, after_query_history, <- !app_assoc.
    reflexivity.
Qed.

(** The polling loop returns [True] only from a pass that ended on a
    status query that answered ready. *)
Lemma monitor_loop_true_on_ready resource_type expected monitor_start
    resource_details :
  forall fuel last_status w last_status' w',
  monitor_loop env fuel resource_type expected monitor_start resource_details
    last_status w
  = Some ((true, last_status'), w') ->
  exists before c,
    follows w w' (before ++ [c])
    /\ is_status_query c = true
    /\ fst (read_status env (snd c)) = true.
Proof.
  induction fuel as [|fuel IH]; intros last_status w last_status' w' H;
    [discriminate|].
  rewrite monitor_loop_unfold in H.
  destruct (clock w - monitor_start <? expected); [|discriminate].
  destruct (monitor_sweep_follows env resource_type monitor_start
              resource_details last_status w)
    as (added1 & Hf1 & _).
  destruct (monitor_sweep env resource_type monitor_start resource_details
              last_status w) as [ls1 w1 | ls1 w1] eqn:Hsweep.
  - injection H as _ <-.
    exact (monitor_sweep_found_ready _ _ _ _ _ _ _ Hsweep).
  - cbn [sweep_world] in Hf1. cbv zeta in H.
    destruct (IH _ _ _ _ H) as (before & c & Hf & Hq & Hr).
    exists (added1 ++ before)%list, c. split; [|auto].
    assert (Hh2 : forall still elapsed,
               history (sleep 30 (if still : bool
                                  then print (StillProvisioning elapsed) w1
                                  else w1)) = history w1)
      by (intros [] ?; reflexivity).
    unfold follows in *. rewrite Hf, Hh2, Hf1, !app_assoc. reflexivity.
Qed.

(** Whatever the cluster answers and however long the commands take, the
    polling loop makes no more status queries than the passes the remaining
    budget allows, one query a sub-resource in each. *)
Lemma monitor_loop_query_bound resource_type expected monitor_start
    resource_details :
  forall fuel last_status w result w',
  monitor_loop env fuel resource_type expected monitor_start resource_details
    last_status w
  = Some (result, w') ->
  exists added,
    follows w w' added
    /\ forallb is_status_query added = true
    /\ (List.length added
        <= ticks (expected - (clock w - monitor_start))
           * List.length resource_details)%nat.
Proof.
  induction fuel as [|fuel IH]; intros last_status w result w' H;
    [discriminate|].
  rewrite monitor_loop_unfold in H.
  destruct (clock w - monitor_start <? expected) eqn:Hcond.
  - apply Z.ltb_lt in Hcond.
    pose proof (ticks_positive (expected - (clock w - monitor_start))
                  ltac:(lia)) as Hticks.
    destruct (monitor_sweep_follows env resource_type monitor_start
                resource_details last_status w)
      as (added1 & Hf1 & Hs1 & Hl1 & Hc1).
    destruct (monitor_sweep env resource_type monitor_start resource_details
                last_status w) as [ls1 w1 | ls1 w1]; cbn [sweep_world] in *.
    + injection H as _ <-. exists added1.
      split; [exact Hf1|]. split; [exact Hs1|]. rewrite Hticks. cbn. lia.
    + cbv zeta in H. set (w2 := sleep 30 _) in H.
      assert (Hh2 : history w2 = history w1)
        by (unfold w2; destruct (_ && _); reflexivity).
      assert (Hc2 : clock w2 = clock w1 + 30)
        by (unfold w2; destruct (_ && _); cbn; lia).
      destruct (IH _ _ _ _ H) as (added2 & Hf2 & Hs2 & Hl2).
      pose proof (ticks_mono (expected - (clock w2 - monitor_start))
                    (expected - (clock w - monitor_start) - 30) ltac:(lia)) as Hm.
      exists (added1 ++ added2)%list.
      split; [|split].
      * unfold follows in *. rewrite Hf2, Hh2, Hf1, app_assoc. reflexivity.
      * rewrite forallb_app, Hs1, Hs2. reflexivity.
      * rewrite length_app, Hticks. cbn [Nat.mul].
        assert (ticks (expected - (clock w2 - monitor_start))
                * List.length resource_details
                <= ticks (expected - (clock w - monitor_start) - 30)
                   * List.length resource_details)%nat
          by (apply Nat.mul_le_mono_r; exact Hm).
        lia.
  - injection H as _ <-. exists []. split; [|split; [reflexivity | cbn; lia]].
    unfold follows. cbn. now rewrite app_nil_r.
Qed.

End PollingBounds.

(** X3.  [monitor_with_memory_updates] returns [True] for a file with
    sub-resources only when it has seen one ready: the last command of the
    poll is then a status query whose answer was ready. *)
Theorem poll_success_means_ready_seen env fuel self resource_file w w' :
  sub_resources env self resource_file <> [] ->
  monitor_with_memory_updates env fuel self resource_file w = Some (true, w') ->
  exists before c,
    follows w w' (before ++ [c])
    /\ is_status_query c = true
    /\ fst (read_status env (snd c)) = true.
Proof.
  intros Hsome H.
  rewrite monitor_with_memory_updates_unfold in H. cbv zeta in H.
  destruct (sub_resources env self resource_file) as [|rd rds] eqn:E;
    [congruence|].
  destruct (monitor_loop env fuel _ _ _ _ _ _) as [[[ready ls] w1]|] eqn:Hloop;
    [|discriminate].
  injection H as -> ->.
  destruct (monitor_loop_true_on_ready env _ _ _ _ _ _ _ _ _ Hloop)
    as (before & c & Hf & Hq & Hr).
  exists before, c. split; [|auto].
  destruct (monitor_entry_world env self resource_file w) as [Hh _].
  unfold follows in *. now rewrite Hf, Hh.
Qed.

(** X4.  Whatever the cluster answers and however long its commands take,
    one poll makes at most [ticks T] status queries for each sub-resource
    of the file, [T] being the budget of the file: never more than 60 a
    sub-resource, and nothing but status queries. *)
Theorem poll_query_bound env fuel self resource_file w ready w' :
  monitor_with_memory_updates env fuel self resource_file w = Some (ready, w') ->
  exists added,
    follows w w' added
    /\ forallb is_status_query added = true
    /\ (List.length added
        <= ticks (expected_time (Py.replace ".yaml" "" resource_file))
           * List.length (sub_resources env self resource_file))%nat
    /\ (List.length added
        <= 60 * List.length (sub_resources env self resource_file))%nat.
Proof.
  intros H.
  rewrite monitor_with_memory_updates_unfold in H. cbv zeta in H.
  destruct (monitor_entry_world env self resource_file w) as [Hh Hc].
  destruct (sub_resources env self resource_file) as [|rd rds] eqn:E.
  - injection H as _ <-. exists [].
    split; [|split; [reflexivity | split; cbn; lia]].
    unfold follows. cbn. now rewrite Hh, app_nil_r.
  - destruct (monitor_loop env fuel _ _ _ _ _ _) as [[[r ls] w1]|] eqn:Hloop;
      [|discriminate].
    injection H as _ <-.
    destruct (monitor_loop_query_bound env _ _ _ _ _ _ _ _ _ Hloop)
      as (added & Hf & Hs & Hl).
    rewrite Hc in Hl.
    replace (expected_time (Py.replace ".yaml" "" resource_file)
             - (clock w - clock w))
      with (expected_time (Py.replace ".yaml" "" resource_file)) in Hl by lia.
    exists added. split; [unfold follows in *; now rewrite Hf, Hh|].
    split; [exact Hs|]. split; [exact Hl|].
    pose proof (expected_time_ticks (Py.replace ".yaml" "" resource_file)) as Ht.
    assert (ticks (expected_time (Py.replace ".yaml" "" resource_file))
            * List.length (rd :: rds)
            <= 60 * List.length (rd :: rds))%nat
      by (apply Nat.mul_le_mono_r; exact Ht).
    lia.
Qed.

(** The documents of a resource file that name a kind. *)
Definition kinded (docs : list (option Document)) : list Document :=
  flat_map
    (fun doc =>
       match doc with
       | Some d =>
           match doc_kind d with
           | Some kind => if String.eqb kind "" then [] else [d]
           | None => []
           end
       | None => []
       end)
    docs.

(** The sub-resource a document stands for. *)
Definition detail_of (d : Document) : ResourceDetail :=
  {| rd_type := Py.lower (Py.get_default (doc_kind d) "");
     rd_name := Py.get_default (doc_name d) "";
     rd_namespace :=
       match doc_namespace d with
       | Some value => value
       | None => Str "default"
       end |}.

Lemma collect_details_kinded docs :
  collect_details docs
  = if forallb (fun d => match doc_name d with Some _ => true | None => false end)
         (kinded docs)
    then Some (map detail_of (kinded docs))
    else None.
Proof.
  induction docs as [|doc docs IH]; [reflexivity|].
  cbn [collect_details kinded flat_map].
  destruct doc as [d|]; [|exact IH].
  destruct (doc_kind d) as [kind|] eqn:Hkind; [|exact IH].
  destruct (String.eqb kind ""); [exact IH|].
  cbn [app forallb map]. fold (kinded docs).
  destruct (doc_name d) as [name|] eqn:Hname; [|reflexivity].
  rewrite IH. cbn [andb].
  destruct (forallb _ (kinded docs)); [|reflexivity].
  unfold detail_of. rewrite Hkind, Hname. reflexivity.
Qed.

(** X5.  [get_resource_details] on a readable file whose documents with a
    kind all carry a name: one sub-resource for each such document, in the
    order of the file, with the kind in lower case and, as its namespace,
    the value the document gives for it, whatever that is (a null value
    stays [None]), and "default" only when the document has no namespace
    key; documents that are empty or have no kind are passed over. *)
Theorem resource_details_of_named_documents env self resource_file w docs :
  yaml_safe_load_all env (stack_dir self ++ "/" ++ resource_file) = inr docs ->
  (forall d, In d (kinded docs) -> doc_name d <> None) ->
  get_resource_details env self resource_file w
  = (map detail_of (kinded docs), w).
Proof.
  intros Hload Hnamed. unfold get_resource_details. cbv zeta.
  rewrite Hload, collect_details_kinded.
  replace (forallb _ (kinded docs)) with true; [reflexivity|].
  symmetry. apply forallb_forall. intros d Hd.
  specialize (Hnamed d Hd). destruct (doc_name d); congruence.
Qed.

(** X6.  One document with a kind and without [metadata.name] spoils the
    whole file: [get_resource_details] gives no sub-resource at all, and
    the poller then returns [True] at once without a single status query,
    whatever state the other resources of the file are in. *)
Theorem nameless_document_skips_polling env fuel self resource_file w docs d :
  yaml_safe_load_all env (stack_dir self ++ "/" ++ resource_file) = inr docs ->
  In d (kinded docs) ->
  doc_name d = None ->
  fst (get_resource_details env self resource_file w) = []
  /\ exists w',
       monitor_with_memory_updates env fuel self resource_file w = Some (true, w')
       /\ history w' = history w
       /\ clock w' = clock w.
Proof.
  intros Hload Hin Hname.
  assert (Hnone : sub_resources env self resource_file = []).
  { unfold sub_resources, get_resource_details. cbv zeta.
    rewrite Hload, collect_details_kinded.
    replace (forallb _ (kinded docs)) with false; [reflexivity|].
    symmetry. apply not_true_is_false. intros Hall.
    rewrite forallb_forall in Hall. specialize (Hall d Hin).
    rewrite Hname in Hall. discriminate. }
  split; [now rewrite get_resource_details_fst|].
  destruct (monitor_without_details env fuel self resource_file w Hnone)
    as (w' & Heq & Hh & Hc & _).
  exists w'. auto.
Qed.

Lemma mem_two file a b :
  Py.mem file [a; b] = true -> file = a \/ file = b.
Proof.
  unfold Py.mem. cbn [existsb]. rewrite orb_false_r.
  intros H. apply orb_true_iff in H as [H | H]; apply String.eqb_eq in H; auto.
Qed.

(** X7.  A phase of the run starts with the apply of its file and is
    followed by status queries only; it polls only after a successful apply
    and only for [cluster.yaml] and [extension.yaml]: for every other file,
    and after a failed apply, the apply is the one command of the phase. *)
Theorem polling_only_after_successful_apply env fuel self resource_file w
    self' w' :
  deploy_phase env fuel self resource_file w = Some (self', w') ->
  exists call queries,
    follows w w' (call :: queries)
    /\ fst call = apply_command self resource_file
    /\ forallb is_status_query queries = true
    /\ (queries <> [] ->
        apply_succeeded call = true
        /\ (resource_file = "cluster.yaml" \/ resource_file = "extension.yaml")).
Proof.
  unfold deploy_phase. cbv zeta.
  destruct (deploy_resource_with_memory_spec env self resource_file
              (print (Phase resource_file) w))
    as (call & w1 & -> & Hf1 & Hcall).
  destruct (apply_succeeded call) eqn:Hok.
  - destruct (Py.mem resource_file ["cluster.yaml"; "extension.yaml"]) eqn:Hmem.
    + destruct (monitor_with_memory_updates env fuel self resource_file w1)
        as [[ready w2]|] eqn:Hmon; [|discriminate].
      intros H. injection H as _ <-.
      destruct (poll_query_bound env fuel self resource_file w1 ready w2 Hmon)
        as (queries & Hf2 & Hs2 & _).
      exists call, queries. split; [|split; [exact Hcall | split; [exact Hs2|]]].
      * unfold follows in *. rewrite Hf2, Hf1. cbn. now rewrite <- app_assoc.
      * intros _. split; [exact Hok | exact (mem_two _ _ _ Hmem)].
    + intros H. injection H as _ <-. exists call, [].
      split; [exact Hf1|]. split; [exact Hcall|]. split; [reflexivity|].
      congruence.
  - intros H. injection H as _ <-. exists call, [].
    split; [exact Hf1|]. split; [exact Hcall|]. split; [reflexivity|].
    congruence.
Qed.

Lemma filter_map_length {A} (f : A -> bool) (l : list A) :
  List.length (filter (fun b => b) (map f l)) = List.length (filter f l).
Proof.
  induction l as [|x l IH]; [reflexivity|].
  cbn [map filter]. destruct (f x); cbn [List.length]; now rewrite IH.
Qed.

(** The applies of the run that succeeded. *)
Definition succeeded_applies (added : list Call) : nat :=
  List.length (filter apply_succeeded (applies added)).

(** X8.  The verdict of [run_memory_guided_deployment] counts every
    deployed entry of [self.deployment_results], those of earlier runs of
    the same deployer included, against the number of files of this run:
    it is [True] exactly when the deployed entries already there plus the
    applies that succeeded now add up to the number of files. *)
Theorem run_verdict_counts_earlier_results env fuel self w :
  (60 < fuel)%nat ->
  exists success self' w' added,
    run_memory_guided_deployment env fuel self w = Some (success, self', w')
    /\ follows w w' added
    /\ (success = true
        <-> (success_count (deployment_results self) + succeeded_applies added
             = List.length (resource_order self))%nat).
Proof.
  intros Hfuel.
  destruct (run_memory_guided_deployment_spec env fuel self w Hfuel)
    as (success & self' & w' & added & new & Heq & Hf & Hdr & Hres & Hap & Hde
        & Hall & Hsucc).
  exists success, self', w', added.
  split; [exact Heq|]. split; [exact Hf|].
  assert (Hcount : success_count (deployment_results self ++ new)
                   = (success_count (deployment_results self)
                      + succeeded_applies added)%nat).
  { unfold success_count, succeeded_applies.
    rewrite filter_app, length_app. f_equal.
    rewrite <- (filter_map_length deployed new), Hde.
    apply filter_map_length. }
  rewrite Hsucc, Hcount. apply Nat.eqb_eq.
Qed.

(** X9.  [main] exits with status 0 when every apply of the run succeeded
    and with status 1 otherwise; no other status. *)
Theorem main_exit_status env fuel w :
  (60 < fuel)%nat ->
  exists code w' added,
    main env fuel w = Some (code, w')
    /\ follows w w' added
    /\ (code = 0 <-> forallb apply_succeeded (applies added) = true)
    /\ (code = 0 \/ code = 1).
Proof.
  intros Hfuel. unfold main.
  destruct (run_memory_guided_deployment_spec env fuel new_deployer w Hfuel)
    as (success & self' & w' & added & new & -> & Hf & Hdr & Hres & Hap & Hde
        & Hall & Hsucc).
  cbn [deployment_results new_deployer app] in Hsucc.
  change (resource_order new_deployer)
    with (resource_order new_deployer) in Hres.
  rewrite <- Hres, length_map in Hsucc. unfold success_count in Hsucc.
  rewrite filter_all_length, <- forallb_of_map, Hde, forallb_of_map in Hsucc.
  destruct success.
  - eexists 0, _, added. split; [reflexivity|]. split; [exact Hf|].
    split; [|auto]. split; [intros _; now symmetry | reflexivity].
  - eexists 1, _, added. split; [reflexivity|]. split; [exact Hf|].
    split; [|auto]. split; [discriminate|].
    intros H. rewrite H in Hsucc. discriminate.
Qed.

Lemma monitor_entry_status_lines env self resource_file w :
  status_lines (output (monitor_entry env self resource_file w))
  = status_lines (output w).
Proof.
  unfold monitor_entry, get_resource_details. cbv zeta.
  destruct (yaml_safe_load_all env _) as [e | docs];
    [|destruct (collect_details docs)];
    cbn [snd print output]; rewrite !status_lines_snoc, !app_nil_r; reflexivity.
Qed.

(** X10.  For a file with one sub-resource whose status checks are never
    ready and always carry the same message, a whole poll prints at most
    one status line, the one of that message, however many passes it makes. *)
Theorem one_status_line_for_one_sub_resource env fuel self resource_file w
    rd message ready w' :
  (forall n, answer_at env n rd = (false, message)) ->
  sub_resources env self resource_file = [rd] ->
  monitor_with_memory_updates env fuel self resource_file w = Some (ready, w') ->
  exists extra,
    status_lines (output w') = (status_lines (output w) ++ extra)%list
    /\ (extra = [] \/ extra = [rd_name rd ++ ": " ++ message]).
Proof.
  intros Hanswer Hone H.
  rewrite monitor_with_memory_updates_unfold in H. cbv zeta in H.
  rewrite Hone in H.
  destruct (monitor_loop env fuel _ _ _ _ _ _) as [[[r ls] w1]|] eqn:Hloop;
    [|discriminate].
  injection H as _ <-.
  destruct (debounce_one_sub_resource env _ _ _ rd message Hanswer
              _ _ _ _ _ Hloop) as (extra & Hout & Hcases & _).
  exists extra. rewrite Hout, monitor_entry_status_lines. auto.
Qed.

Lemma concat_repeat_nil {A} (p : nat) : List.concat (repeat (@nil A) p) = [].
Proof. induction p as [|p IH]; [reflexivity | exact IH]. Qed.

(** X30.  A sub-resource whose namespace is not a string (a null value in
    the resource file gives [None]) is never queried: its status check
    fails before any command is run and counts as not ready.  A file with
    such sub-resources only is polled without a single command: the poller
    sleeps through the whole budget, [ticks T] passes of 30 seconds, and
    returns [False], whatever state the cluster is in. *)
Theorem null_namespace_is_never_queried env fuel self resource_file w :
  let budget := expected_time (Py.replace ".yaml" "" resource_file) in
  sub_resources env self resource_file <> [] ->
  queried (sub_resources env self resource_file) = [] ->
  (ticks budget < fuel)%nat ->
  exists w',
    monitor_with_memory_updates env fuel self resource_file w = Some (false, w')
    /\ history w' = history w
    /\ clock w' = clock w + 30 * Z.of_nat (ticks budget).
Proof.
  intros budget Hsome Hnone Hfuel.
  destruct (monitor_entry_world env self resource_file w) as [Hh Hc].
  assert (Hnever : never_ready_from env
                     (List.length (history (monitor_entry env self resource_file w)))
                     (sub_resources env self resource_file)).
  { intros m rd _ Hin. apply answer_at_not_queryable.
    destruct (queryable rd) eqn:E; [exfalso | reflexivity].
    assert (Hq : In rd (queried (sub_resources env self resource_file)))
      by (apply filter_In; split; assumption).
    rewrite Hnone in Hq. destruct Hq. }
  destruct (monitor_loop_never_ready env (Py.replace ".yaml" "" resource_file)
              budget (clock w) (sub_resources env self resource_file) fuel ""
              (monitor_entry env self resource_file w) Hnever)
    as (ls & w' & added & p & Heq & Hf & Hm & Hclk & _ & Hlow & Hup & _).
  { rewrite Hc. replace (budget - (clock w - clock w)) with budget by lia.
    exact Hfuel. }
  rewrite Hc in *.
  replace (budget - (clock w - clock w)) with budget in Hlow, Hup by lia.
  rewrite Hnone in Hm. cbn [map] in Hm. rewrite concat_repeat_nil in Hm.
  apply map_eq_nil in Hm. subst added.
  cbn [List.length seconds] in Hclk, Hup.
  assert (Hbudget : 0 < budget).
  { unfold budget, expected_time.
    destruct (String.eqb _ "cluster"); [|destruct (String.eqb _ "extension")]; lia. }
  destruct (Hlow Hbudget) as [_ Hlow'].
  pose proof (ticks_ceiling budget Hbudget) as Hceil.
  assert (Hp : p = ticks budget) by lia.
  exists w'. split; [|split].
  - rewrite monitor_with_memory_updates_unfold. cbv zeta.
    fold budget.
    destruct (sub_resources env self resource_file) as [|rd rds] eqn:E;
      [congruence|].
    rewrite Heq. reflexivity.
  - unfold follows in Hf. rewrite Hf, Hh. now rewrite app_nil_r.
  - rewrite Hclk, Hp. lia.
Qed.

(** ** Concrete clusters *)

(** Every command succeeds; every resource shows a condition that is not
    of type Ready, then Ready = False ("Creating"), then a stale
    Ready = True. *)
Definition layered : Environment :=
  {| kubectl := fun _ _ => {| returncode := 0; stdout := "status"; stderr := "" |};
     kubectl_seconds := fun _ => 2%nat;
     yaml_safe_load := fun _ =>
       inr [{| cond_type := Some "Synced"; cond_status := Some "True";
               cond_message := None |};
            {| cond_type := Some "Ready"; cond_status := Some "False";
               cond_message := Some "Creating" |};
            {| cond_type := Some "Ready"; cond_status := Some "True";
               cond_message := Some "stale" |}];
     yaml_safe_load_all := stack_files |}.

Lemma first_ready_condition_decides_witness :
  returncode
    (kubectl layered (List.length (history fresh))
       (status_args "managedcluster" "aks" "azure-system")) = 0
  /\ yaml_safe_load layered
       (stdout (kubectl layered (List.length (history fresh))
                  (status_args "managedcluster" "aks" "azure-system")))
     = inr ([{| cond_type := Some "Synced"; cond_status := Some "True";
                cond_message := None |}]
            ++ {| cond_type := Some "Ready"; cond_status := Some "False";
                  cond_message := Some "Creating" |}
            :: [{| cond_type := Some "Ready"; cond_status := Some "True";
                   cond_message := Some "stale" |}])%list
  /\ fst (check_resource_status layered "managedcluster" "aks" "azure-system" fresh)
     = (false, "Creating").
Proof.
  assert (H1 : returncode
                 (kubectl layered (List.length (history fresh))
                    (status_args "managedcluster" "aks" "azure-system")) = 0)
    by reflexivity.
  assert (H2 : yaml_safe_load layered
                 (stdout (kubectl layered (List.length (history fresh))
                            (status_args "managedcluster" "aks" "azure-system")))
               = inr ([{| cond_type := Some "Synced"; cond_status := Some "True";
                          cond_message := None |}]
                      ++ {| cond_type := Some "Ready"; cond_status := Some "False";
                            cond_message := Some "Creating" |}
                      :: [{| cond_type := Some "Ready"; cond_status := Some "True";
                             cond_message := Some "stale" |}])%list)
    by reflexivity.
  split; [exact H1|]. split; [exact H2|].
  exact (first_ready_condition_decides layered "managedcluster" "aks" "azure-system"
           fresh _ _ _ H1 H2 eq_refl eq_refl).
Defined.

Lemma ready_only_on_evidence_witness :
  fst (fst (check_resource_status healthy "managedcluster" "aks" "azure-system" fresh))
  = true
  /\ returncode
       (kubectl healthy (List.length (history fresh))
          (status_args "managedcluster" "aks" "azure-system")) = 0
  /\ exists conditions c,
       yaml_safe_load healthy
         (stdout (kubectl healthy (List.length (history fresh))
                    (status_args "managedcluster" "aks" "azure-system")))
       = inr conditions
       /\ In c conditions
       /\ cond_type c = Some "Ready"
       /\ cond_status c = Some "True".
Proof.
  assert (H : fst (fst (check_resource_status healthy "managedcluster" "aks"
                          "azure-system" fresh)) = true)
    by (vm_compute; reflexivity).
  split; [exact H|].
  exact (ready_only_on_evidence healthy "managedcluster" "aks" "azure-system" fresh H).
Defined.

(** The world a poll of the cluster file leaves when everything is ready
    at once. *)
Definition polled_healthy : World :=
  Eval vm_compute in
    match monitor_with_memory_updates healthy 61 new_deployer "cluster.yaml" fresh with
    | Some (_, w) => w
    | None => fresh
    end.

Lemma polled_healthy_eq :
  monitor_with_memory_updates healthy 61 new_deployer "cluster.yaml" fresh
  = Some (true, polled_healthy).
Proof. vm_compute. reflexivity. Qed.

Lemma poll_success_means_ready_seen_witness :
  sub_resources healthy new_deployer "cluster.yaml" <> []
  /\ monitor_with_memory_updates healthy 61 new_deployer "cluster.yaml" fresh
     = Some (true, polled_healthy)
  /\ exists before c,
       follows fresh polled_healthy (before ++ [c])
       /\ is_status_query c = true
       /\ fst (read_status healthy (snd c)) = true.
Proof.
  assert (H1 : sub_resources healthy new_deployer "cluster.yaml" <> [])
    by (vm_compute; discriminate).
  split; [exact H1|]. split; [exact polled_healthy_eq|].
  exact (poll_success_means_ready_seen healthy 61 new_deployer "cluster.yaml" fresh
           polled_healthy H1 polled_healthy_eq).
Defined.

Lemma poll_query_bound_witness :
  monitor_with_memory_updates healthy 61 new_deployer "cluster.yaml" fresh
  = Some (true, polled_healthy)
  /\ exists added,
       follows fresh polled_healthy added
       /\ forallb is_status_query added = true
       /\ (List.length added
           <= ticks (expected_time (Py.replace ".yaml" "" "cluster.yaml"))
              * List.length (sub_resources healthy new_deployer "cluster.yaml"))%nat
       /\ (List.length added
           <= 60 * List.length (sub_resources healthy new_deployer "cluster.yaml"))%nat.
Proof.
  split; [exact polled_healthy_eq|].
  exact (poll_query_bound healthy 61 new_deployer "cluster.yaml" fresh true
           polled_healthy polled_healthy_eq).
Defined.

(** The cluster file holds a cluster and an agent pool, an empty document
    and a comment-only document without kind; the agent pool names no
    namespace. *)
Definition mixed_documents : list (option Document) :=
  [document "ManagedCluster" "aks";
   None;
   Some {| doc_kind := None; doc_name := Some "notes"; doc_namespace := None |};
   Some {| doc_kind := Some "ManagedClustersAgentPool"; doc_name := Some "pool";
           doc_namespace := None |};
   Some {| doc_kind := Some "Extension"; doc_name := Some "flux";
           doc_namespace := Some (NotStr "NoneType") |}].

Definition mixed_stack : Environment :=
  cluster (fun _ => false) (fun _ => "Provisioning")
    (fun path =>
       if String.eqb path "./aso-stack/cluster.yaml" then inr mixed_documents
       else inl "No such file").

Lemma resource_details_of_named_documents_witness :
  yaml_safe_load_all mixed_stack (stack_dir new_deployer ++ "/" ++ "cluster.yaml")
  = inr mixed_documents
  /\ (forall d, In d (kinded mixed_documents) -> doc_name d <> None)
  /\ get_resource_details mixed_stack new_deployer "cluster.yaml" fresh
     = ([{| rd_type := "managedcluster"; rd_name := "aks";
            rd_namespace := Str "azure-system" |};
         {| rd_type := "managedclustersagentpool"; rd_name := "pool";
            rd_namespace := Str "default" |};
         {| rd_type := "extension"; rd_name := "flux";
            rd_namespace := NotStr "NoneType" |}], fresh).
Proof.
  assert (H1 : yaml_safe_load_all mixed_stack
                 (stack_dir new_deployer ++ "/" ++ "cluster.yaml")
               = inr mixed_documents) by reflexivity.
  assert (H2 : forall d, In d (kinded mixed_documents) -> doc_name d <> None).
  { intros d [<- | [<- | [<- | []]]]; discriminate. }
  split; [exact H1|]. split; [exact H2|].
  exact (resource_details_of_named_documents mixed_stack new_deployer
           "cluster.yaml" fresh mixed_documents H1 H2).
Defined.

(** The cluster file names its cluster with a null namespace
    ([namespace:] with nothing after it); the cluster would report ready. *)
Definition null_namespace : Environment :=
  cluster (fun _ => false) (fun _ => "ready")
    (fun path =>
       if String.eqb path "./aso-stack/cluster.yaml"
       then inr [Some {| doc_kind := Some "ManagedCluster";
                         doc_name := Some "aks";
                         doc_namespace := Some (NotStr "NoneType") |}]
       else inl "No such file").

Lemma null_namespace_is_never_queried_witness :
  sub_resources null_namespace new_deployer "cluster.yaml" <> []
  /\ queried (sub_resources null_namespace new_deployer "cluster.yaml") = []
  /\ (ticks (expected_time (Py.replace ".yaml" "" "cluster.yaml")) < 61)%nat
  /\ exists w',
       monitor_with_memory_updates null_namespace 61 new_deployer "cluster.yaml"
         fresh
       = Some (false, w')
       /\ history w' = history fresh
       /\ clock w'
          = clock fresh
            + 30 * Z.of_nat (ticks (expected_time
                                      (Py.replace ".yaml" "" "cluster.yaml"))).
Proof.
  assert (H1 : sub_resources null_namespace new_deployer "cluster.yaml" <> [])
    by (vm_compute; discriminate).
  assert (H2 : queried (sub_resources null_namespace new_deployer "cluster.yaml")
               = []) by (vm_compute; reflexivity).
  assert (H3 : (ticks (expected_time (Py.replace ".yaml" "" "cluster.yaml"))
                < 61)%nat) by (vm_compute; lia).
  split; [exact H1|]. split; [exact H2|]. split; [exact H3|].
  exact (null_namespace_is_never_queried null_namespace 61 new_deployer
           "cluster.yaml" fresh H1 H2 H3).
Defined.

(** On that file the poll prints the status line of the failed check
    once and gives up after 1800 seconds. *)
Example null_namespace_poll :
  match monitor_with_memory_updates null_namespace 61 new_deployer "cluster.yaml"
          fresh with
  | Some (ready, w') =>
      ready = false
      /\ history w' = []
      /\ clock w' = 1800
      /\ status_lines (output w')
         = ["aks: Error checking status: expected str, bytes or os.PathLike object, not NoneType"]
  | None => False
  end.
Proof. vm_compute. repeat split. Qed.

(** The cluster file holds a cluster that never becomes ready and an agent
    pool whose document lacks [metadata.name]. *)
Definition nameless_pool : Document :=
  {| doc_kind := Some "ManagedClustersAgentPool"; doc_name := None;
     doc_namespace := None |}.

Definition spoiled_stack : Environment :=
  cluster (fun _ => false) (fun _ => "Provisioning")
    (fun path =>
       if String.eqb path "./aso-stack/cluster.yaml"
       then inr [document "ManagedCluster" "aks"; Some nameless_pool]
       else inl "No such file").

Lemma nameless_document_skips_polling_witness :
  yaml_safe_load_all spoiled_stack (stack_dir new_deployer ++ "/" ++ "cluster.yaml")
  = inr [document "ManagedCluster" "aks"; Some nameless_pool]
  /\ In nameless_pool (kinded [document "ManagedCluster" "aks"; Some nameless_pool])
  /\ doc_name nameless_pool = None
  /\ fst (get_resource_details spoiled_stack new_deployer "cluster.yaml" fresh) = []
  /\ exists w',
       monitor_with_memory_updates spoiled_stack 61 new_deployer "cluster.yaml" fresh
       = Some (true, w')
       /\ history w' = history fresh
       /\ clock w' = clock fresh.
Proof.
  assert (H1 : yaml_safe_load_all spoiled_stack
                 (stack_dir new_deployer ++ "/" ++ "cluster.yaml")
               = inr [document "ManagedCluster" "aks"; Some nameless_pool])
    by reflexivity.
  assert (H2 : In nameless_pool
                 (kinded [document "ManagedCluster" "aks"; Some nameless_pool]))
    by (right; left; reflexivity).
  assert (H3 : doc_name nameless_pool = None) by reflexivity.
  split; [exact H1|]. split; [exact H2|]. split; [exact H3|].
  exact (nameless_document_skips_polling spoiled_stack 61 new_deployer
           "cluster.yaml" fresh _ nameless_pool H1 H2 H3).
Defined.

(** The deployer and the world the phase of the cluster file leaves when
    everything is ready at once. *)
Definition phase_healthy : Deployer * World :=
  Eval vm_compute in
    match deploy_phase healthy 61 new_deployer "cluster.yaml" fresh with
    | Some r => r
    | None => (new_deployer, fresh)
    end.

Lemma phase_healthy_eq :
  deploy_phase healthy 61 new_deployer "cluster.yaml" fresh
  = Some (fst phase_healthy, snd phase_healthy).
Proof. vm_compute. reflexivity. Qed.

Lemma polling_only_after_successful_apply_witness :
  deploy_phase healthy 61 new_deployer "cluster.yaml" fresh
  = Some (fst phase_healthy, snd phase_healthy)
  /\ exists call queries,
       follows fresh (snd phase_healthy) (call :: queries)
       /\ fst call = apply_command new_deployer "cluster.yaml"
       /\ forallb is_status_query queries = true
       /\ (queries <> [] ->
           apply_succeeded call = true
           /\ ("cluster.yaml" = "cluster.yaml" \/ "cluster.yaml" = "extension.yaml")).
Proof.
  split; [exact phase_healthy_eq|].
  exact (polling_only_after_successful_apply healthy 61 new_deployer "cluster.yaml"
           fresh _ _ phase_healthy_eq).
Defined.

(** A deployer that has one deployed entry left from an earlier run. *)
Definition used_deployer : Deployer :=
  append_result new_deployer
    {| resource := "resourcegroup.yaml"; deployed := true; monitored := true |}.

Lemma run_verdict_counts_earlier_results_witness :
  (60 < 61)%nat
  /\ exists success self' w' added,
       run_memory_guided_deployment healthy 61 used_deployer fresh
       = Some (success, self', w')
       /\ follows fresh w' added
       /\ (success = true
           <-> (success_count (deployment_results used_deployer)
                + succeeded_applies added
                = List.length (resource_order used_deployer))%nat).
Proof.
  split; [lia|].
  apply (run_verdict_counts_earlier_results healthy 61 used_deployer fresh). lia.
Defined.

(** Run twice on the same deployer with every apply succeeding and
    everything ready: the first run returns [True], the second [False],
    its 7 new deployed entries being counted with the 7 of the first. *)
Example second_run_on_same_deployer_fails :
  match run_memory_guided_deployment healthy 61 new_deployer fresh with
  | Some (first, self, w) =>
      first = true
      /\ match run_memory_guided_deployment healthy 61 self w with
         | Some (second, self', _) =>
             second = false
             /\ List.length (deployment_results self') = 14%nat
             /\ forallb deployed (deployment_results self') = true
         | None => False
         end
  | None => False
  end.
Proof. vm_compute. repeat split. Qed.

Lemma main_exit_status_witness :
  (60 < 61)%nat
  /\ exists code w' added,
       main fifth_rejected 61 fresh = Some (code, w')
       /\ follows fresh w' added
       /\ (code = 0 <-> forallb apply_succeeded (applies added) = true)
       /\ (code = 0 \/ code = 1).
Proof.
  split; [lia|].
  apply (main_exit_status fifth_rejected 61 fresh). lia.
Defined.

(** Every command answers with exit status 0 and the message
    "Provisioning", never ready. *)
Definition provisioning : Environment :=
  {| kubectl := fun _ _ =>
       {| returncode := 0; stdout := "Provisioning"; stderr := "" |};
     kubectl_seconds := fun _ => 0%nat;
     yaml_safe_load := fun out =>
       inr [{| cond_type := Some "Ready"; cond_status := Some "False";
               cond_message := Some out |}];
     yaml_safe_load_all := stack_files |}.

Definition polled_provisioning : World :=
  Eval vm_compute in
    match monitor_with_memory_updates provisioning 21 new_deployer
            "extension.yaml" fresh with
    | Some (_, w) => w
    | None => fresh
    end.

Lemma polled_provisioning_eq :
  monitor_with_memory_updates provisioning 21 new_deployer "extension.yaml" fresh
  = Some (false, polled_provisioning).
Proof. vm_compute. reflexivity. Qed.

Lemma one_status_line_for_one_sub_resource_witness :
  (forall n, answer_at provisioning n flux = (false, "Provisioning"))
  /\ sub_resources provisioning new_deployer "extension.yaml" = [flux]
  /\ monitor_with_memory_updates provisioning 21 new_deployer "extension.yaml" fresh
     = Some (false, polled_provisioning)
  /\ exists extra,
       status_lines (output polled_provisioning)
       = (status_lines (output fresh) ++ extra)%list
       /\ (extra = [] \/ extra = [rd_name flux ++ ": " ++ "Provisioning"]).
Proof.
  assert (H1 : forall n, answer_at provisioning n flux = (false, "Provisioning"))
    by (intros n; reflexivity).
  assert (H3 : sub_resources provisioning new_deployer "extension.yaml" = [flux])
    by (vm_compute; reflexivity).
  split; [exact H1|]. split; [exact H3|].
  split; [exact polled_provisioning_eq|].
  exact (one_status_line_for_one_sub_resource provisioning 21 new_deployer
           "extension.yaml" fresh flux "Provisioning" false polled_provisioning
           H1 H3 polled_provisioning_eq).
Defined.

End DeployerBehaviour.

(** * More on the validator: what each check records, what a run does *)

Module ValidatorBehaviour.

Import CertManager CertManagerProps.

(** The command line of each check. *)
Definition crds_command : list string := ["kubectl"; "get"; "crd"].

Definition pods_command (self : Validator) : list string :=
  ["kubectl"; "get"; "pods"; "-n"; namespace self; "-o"; "json"].

Definition identity_command (self : Validator) : list string :=
  ["kubectl"; "get"; "serviceaccount"; "cert-manager"; "-n"; namespace self;
   "-o"; "json"].

Definition issuers_command : list string :=
  ["kubectl"; "get"; "clusterissuer"; "-o"; "json"].

Definition dns_command (self : Validator) : list string :=
  ["az"; "network"; "dns"; "record-set"; "txt"; "list";
   "--zone-name"; dns_zone self;
   "--resource-group"; "dns";
   "--query"; "[?contains(name, 'acme-challenge')].name";
   "-o"; "json"].

(** The names of [expected_pods] that occur in the name of a running pod,
    counted with their repetitions over all pods. *)
Definition pod_matches (pod : Pod) : nat :=
  if String.eqb (pod_phase pod) "Running"
  then List.length (filter (fun expected => Py.contains expected (pod_name pod))
                      expected_pods)
  else 0%nat.

Definition running_matches (pods : list Pod) : nat :=
  list_sum (map pod_matches pods).

(** The validator keeps its settings: only [results] changes. *)
Definition same_settings (self self' : Validator) : Prop :=
  namespace self' = namespace self
  /\ dns_zone self' = dns_zone self
  /\ cluster self' = cluster self
  /\ client_id self' = client_id self.

Lemma same_settings_refl self : same_settings self self.
Proof. repeat split. Qed.

Lemma same_settings_record self entry :
  same_settings self (record_result self entry).
Proof. repeat split. Qed.

Section Checks.

Variable env : Environment.

Lemma run_az_spec args check w :
  let cmd := "az" :: args in
  let result := command env (List.length (history w)) cmd in
  exists w',
    run_az env args check w
    = (if check && negb (returncode result =? 0) then None else Some result, w')
    /\ history w' = (history w ++ [(cmd, result)])%list
    /\ clock w'
       = clock w + Z.of_nat (command_seconds env (List.length (history w))).
Proof.
  intros cmd result. unfold run_az, run_command. cbv zeta.
  fold cmd. fold result.
  destruct (check && negb (returncode result =? 0));
    eexists; (split; [reflexivity|]); split; reflexivity.
Qed.

Lemma run_kubectl_printed l args check w :
  let cmd := "kubectl" :: args in
  let result := command env (List.length (history w)) cmd in
  exists w',
    run_kubectl env args check (print l w)
    = (if check && negb (returncode result =? 0) then None else Some result, w')
    /\ history w' = (history w ++ [(cmd, result)])%list.
Proof.
  intros cmd result.
  destruct (run_kubectl_spec env args check (print l w)) as (w' & H & Hh & _).
  exists w'. split; [exact H | exact Hh].
Qed.

Lemma run_az_printed l args check w :
  let cmd := "az" :: args in
  let result := command env (List.length (history w)) cmd in
  exists w',
    run_az env args check (print l w)
    = (if check && negb (returncode result =? 0) then None else Some result, w')
    /\ history w' = (history w ++ [(cmd, result)])%list.
Proof.
  intros cmd result.
  destruct (run_az_spec args check (print l w)) as (w' & H & Hh & _).
  exists w'. split; [exact H | exact Hh].
Qed.

Lemma absent_none {A} (f : A -> bool) (l : list A) :
  match filter (fun x => negb (f x)) l with [] => true | _ => false end
  = forallb f l.
Proof.
  induction l as [|x l IH]; [reflexivity|].
  cbn [filter forallb]. destruct (f x); cbn [negb andb]; [exact IH | reflexivity].
Qed.

(** [check_crds_installed], when its command goes through. *)
Lemma check_crds_installed_effect self w :
  let result := command env (List.length (history w)) crds_command in
  exists report self' w',
    check_crds_installed env self w = (report, self', w')
    /\ history w' = (history w ++ [(crds_command, result)])%list
    /\ (returncode result <> 0 ->
        report = Returned false /\ self' = self)
    /\ (returncode result = 0 ->
        let success :=
          forallb (fun crd => Py.contains crd (stdout result)) required_crds in
        report = Returned success
        /\ self' = record_result self ("CRDs Installed", success)).
Proof.
  intros result. unfold check_crds_installed. cbv zeta.
  destruct (run_kubectl_printed (Plain "Checking cert-manager CRDs...")
              ["get"; "crd"] true w) as (w1 & -> & Hh1).
  fold crds_command in Hh1 |- *. fold result in Hh1 |- *.
  destruct (returncode result =? 0) eqn:Hrc; cbn [andb negb].
  - apply Z.eqb_eq in Hrc.
    pose proof (absent_none (fun crd => Py.contains crd (stdout result))
                  required_crds) as Habs.
    destruct (filter _ required_crds) as [|m ms] eqn:Hmissing.
    + eexists _, _, _. split; [reflexivity|]. split; [exact Hh1|].
      split; [congruence|]. intros _. cbv zeta. rewrite <- Habs. auto.
    + eexists _, _, _. split; [reflexivity|]. split; [exact Hh1|].
      split; [congruence|]. intros _. cbv zeta. rewrite <- Habs. auto.
  - apply Z.eqb_neq in Hrc.
    eexists _, _, _. split; [reflexivity|]. split; [exact Hh1|].
    split; [auto | congruence].
Qed.

Lemma match_pod_length pod running_pods w :
  List.length (fst (match_pod pod (running_pods, w)))
  = (List.length running_pods + pod_matches pod)%nat.
Proof.
  unfold match_pod, pod_matches, expected_pods. cbn [fold_left filter].
  destruct (String.eqb (pod_phase pod) "Running");
    destruct (Py.contains "cert-manager" (pod_name pod));
    destruct (Py.contains "cert-manager-webhook" (pod_name pod));
    destruct (Py.contains "cert-manager-cainjector" (pod_name pod));
    cbn [fst List.length]; rewrite ?length_app; cbn [List.length]; lia.
Qed.

Lemma match_pods_length pods :
  forall state,
  List.length (fst (fold_left (fun state pod => match_pod pod state) pods state))
  = (List.length (fst state) + running_matches pods)%nat.
Proof.
  induction pods as [|pod pods IH]; intros [running_pods w].
  - cbn. lia.
  - cbn [fold_left]. rewrite IH.
    destruct (match_pod pod (running_pods, w)) as [running_pods' w'] eqn:E.
    pose proof (match_pod_length pod running_pods w) as Hl. rewrite E in Hl.
    cbn [fst] in *. unfold running_matches. cbn [map].
    change (list_sum (pod_matches pod :: map pod_matches pods))
      with (pod_matches pod + list_sum (map pod_matches pods))%nat.
    lia.
Qed.

Lemma match_pod_history pod state :
  history (snd (match_pod pod state)) = history (snd state).
Proof.
  destruct state as [running_pods w].
  unfold match_pod, expected_pods. cbn [fold_left].
  destruct (String.eqb (pod_phase pod) "Running");
    destruct (Py.contains "cert-manager" (pod_name pod));
    destruct (Py.contains "cert-manager-webhook" (pod_name pod));
    destruct (Py.contains "cert-manager-cainjector" (pod_name pod));
    reflexivity.
Qed.

Lemma match_pods_history pods :
  forall state,
  history (snd (fold_left (fun state pod => match_pod pod state) pods state))
  = history (snd state).
Proof.
  induction pods as [|pod pods IH]; intros state; [reflexivity|].
  cbn [fold_left]. rewrite IH. apply match_pod_history.
Qed.

(** [check_cert_manager_pods]. *)
Lemma check_cert_manager_pods_effect self w :
  let result := command env (List.length (history w)) (pods_command self) in
  exists report self' w',
    check_cert_manager_pods env self w = (report, self', w')
    /\ history w' = (history w ++ [(pods_command self, result)])%list
    /\ (returncode result <> 0 -> report = Returned false /\ self' = self)
    /\ (returncode result = 0 ->
        match decode_pods env (stdout result) with
        | Parsed pods =>
            let success := Nat.leb 3 (running_matches pods) in
            report = Returned success
            /\ self' = record_result self ("Cert-Manager Pods", success)
        | JSONDecodeError => report = Returned false /\ self' = self
        | OtherError e => report = Raised e /\ self' = self
        end).
Proof.
  intros result. unfold check_cert_manager_pods. cbv zeta.
  destruct (run_kubectl_printed (Plain "Checking cert-manager pods...")
              ["get"; "pods"; "-n"; namespace self; "-o"; "json"] true w)
    as (w1 & -> & Hh1).
  fold (pods_command self) in Hh1 |- *. fold result in Hh1 |- *.
  destruct (returncode result =? 0) eqn:Hrc; cbn [andb negb].
  - apply Z.eqb_eq in Hrc.
    destruct (decode_pods env (stdout result)) as [pods | | e] eqn:Hdecode.
    + pose proof (match_pods_length pods ([], w1)) as Hlen.
      destruct (fold_left _ pods ([], w1)) as [running_pods w2] eqn:Hfold.
      cbn [fst List.length Nat.add] in Hlen.
      pose proof (match_pods_history pods ([], w1)) as Hh2.
      rewrite Hfold in Hh2. cbn [snd] in Hh2.
      eexists _, _, _. split; [reflexivity|]. split; [now rewrite Hh2|].
      split; [congruence|]. intros _. cbv zeta. rewrite Hlen. auto.
    + eexists _, _, _. split; [reflexivity|]. split; [exact Hh1|].
      split; [congruence | auto].
    + eexists _, _, _. split; [reflexivity|]. split; [exact Hh1|].
      split; [congruence | auto].
  - apply Z.eqb_neq in Hrc.
    eexists _, _, _. split; [reflexivity|]. split; [exact Hh1|].
    split; [auto | congruence].
Qed.

(** The issuers that show a condition Ready = True. *)
Definition ready_issuers (issuers : list Issuer) : list Issuer :=
  filter (fun issuer => issuer_ready (issuer_conditions issuer)) issuers.

Lemma scan_issuers issuers :
  forall (acc : list string) (w : World),
  let state :=
    fold_left
      (fun '((ready, w) : list string * World) issuer =>
         let name := issuer_name issuer in
         if issuer_ready (issuer_conditions issuer)
         then ((ready ++ [name])%list,
               print (Good ("ClusterIssuer " ++ name ++ " is ready")) w)
         else (ready,
               print (Bad ("ClusterIssuer " ++ name ++ " is not ready")) w))
      issuers (acc, w) in
  List.length (fst state)
  = (List.length acc + List.length (ready_issuers issuers))%nat
  /\ history (snd state) = history w.
Proof.
  induction issuers as [|issuer issuers IH]; intros acc w.
  - cbn. split; [lia | reflexivity].
  - cbn [fold_left]. unfold ready_issuers. cbn [filter].
    fold (ready_issuers issuers).
    destruct (issuer_ready (issuer_conditions issuer)).
    + destruct (IH (acc ++ [issuer_name issuer])%list
                  (print (Good ("ClusterIssuer " ++ issuer_name issuer
                                ++ " is ready")) w)) as [Hl Hh].
      cbv zeta in Hl, Hh. split; [|exact Hh].
      rewrite Hl, length_app. cbn [List.length]. lia.
    + destruct (IH acc
                  (print (Bad ("ClusterIssuer " ++ issuer_name issuer
                               ++ " is not ready")) w)) as [Hl Hh].
      cbv zeta in Hl, Hh. split; [exact Hl | exact Hh].
Qed.

(** [check_clusterissuers]. *)
Lemma check_clusterissuers_effect self w :
  let result := command env (List.length (history w)) issuers_command in
  exists report self' w',
    check_clusterissuers env self w = (report, self', w')
    /\ history w' = (history w ++ [(issuers_command, result)])%list
    /\ (returncode result <> 0 -> report = Returned false /\ self' = self)
    /\ (returncode result = 0 ->
        match decode_issuers env (stdout result) with
        | Parsed issuers =>
            let success := Nat.leb 2 (List.length (ready_issuers issuers)) in
            report = Returned success
            /\ self' = record_result self ("ClusterIssuers Ready", success)
        | JSONDecodeError => report = Returned false /\ self' = self
        | OtherError e => report = Raised e /\ self' = self
        end).
Proof.
  intros result. unfold check_clusterissuers. cbv zeta.
  destruct (run_kubectl_printed (Plain "Checking ClusterIssuers...")
              ["get"; "clusterissuer"; "-o"; "json"] true w)
    as (w1 & -> & Hh1).
  fold issuers_command in Hh1 |- *. fold result in Hh1 |- *.
  destruct (returncode result =? 0) eqn:Hrc; cbn [andb negb].
  - apply Z.eqb_eq in Hrc.
    destruct (decode_issuers env (stdout result)) as [issuers | | e].
    + destruct (scan_issuers issuers [] w1) as [Hl Hh]. cbv zeta in Hl, Hh.
      destruct (fold_left _ issuers ([], w1)) as [ready w2].
      cbn [fst snd List.length Nat.add] in Hl, Hh.
      eexists _, _, _. split; [reflexivity|]. split; [now rewrite Hh|].
      split; [congruence|]. intros _. cbv zeta. rewrite Hl. auto.
    + eexists _, _, _. split; [reflexivity|]. split; [exact Hh1|].
      split; [congruence | auto].
    + eexists _, _, _. split; [reflexivity|]. split; [exact Hh1|].
      split; [congruence | auto].
  - apply Z.eqb_neq in Hrc.
    eexists _, _, _. split; [reflexivity|]. split; [exact Hh1|].
    split; [auto | congruence].
Qed.

(** [check_workload_identity]. *)
Lemma check_workload_identity_effect self w :
  let result := command env (List.length (history w)) (identity_command self) in
  exists report self' w',
    check_workload_identity env self w = (report, self', w')
    /\ history w' = (history w ++ [(identity_command self, result)])%list
    /\ (returncode result <> 0 -> report = Returned false /\ self' = self)
    /\ (returncode result = 0 ->
        match decode_service_account env (stdout result) with
        | Parsed account =>
            if Py.get_eqb (sa_client_id account) (client_id self)
               && Py.get_eqb (sa_use account) "true"
            then report = Returned true
                 /\ self' = record_result self ("Workload Identity Config", true)
            else report = Returned false /\ self' = self
        | JSONDecodeError => report = Returned false /\ self' = self
        | OtherError e => report = Raised e /\ self' = self
        end).
Proof.
  intros result. unfold check_workload_identity. cbv zeta.
  destruct (run_kubectl_printed
              (Plain "Checking Azure Workload Identity configuration...")
              ["get"; "serviceaccount"; "cert-manager"; "-n"; namespace self;
               "-o"; "json"] true w)
    as (w1 & -> & Hh1).
  fold (identity_command self) in Hh1 |- *. fold result in Hh1 |- *.
  destruct (returncode result =? 0) eqn:Hrc; cbn [andb negb].
  - apply Z.eqb_eq in Hrc.
    destruct (decode_service_account env (stdout result)) as [account | | e].
    + destruct (Py.get_eqb (sa_client_id account) (client_id self));
        [destruct (Py.get_eqb (sa_use account) "true")|]; cbn [andb];
        (eexists _, _, _; split; [reflexivity|]; split; [exact Hh1|];
         split; [congruence | auto]).
    + eexists _, _, _. split; [reflexivity|]. split; [exact Hh1|].
      split; [congruence | auto].
    + eexists _, _, _. split; [reflexivity|]. split; [exact Hh1|].
      split; [congruence | auto].
  - apply Z.eqb_neq in Hrc.
    eexists _, _, _. split; [reflexivity|]. split; [exact Hh1|].
    split; [auto | congruence].
Qed.

(** [check_azure_permissions]. *)
Lemma check_azure_permissions_effect self w :
  let result := command env (List.length (history w)) (dns_command self) in
  exists report self' w',
    check_azure_permissions env self w = (report, self', w')
    /\ history w' = (history w ++ [(dns_command self, result)])%list
    /\ (returncode result <> 0 -> report = Returned false /\ self' = self)
    /\ (returncode result = 0 ->
        match decode_records env (stdout result) with
        | Parsed _ =>
            report = Returned true
            /\ self' = record_result self ("Azure DNS Permissions", true)
        | JSONDecodeError => report = Returned false /\ self' = self
        | OtherError e => report = Raised e /\ self' = self
        end).
Proof.
  intros result. unfold check_azure_permissions. cbv zeta.
  destruct (run_az_printed (Plain "Checking Azure DNS permissions...")
              ["network"; "dns"; "record-set"; "txt"; "list";
               "--zone-name"; dns_zone self;
               "--resource-group"; "dns";
               "--query"; "[?contains(name, 'acme-challenge')].name";
               "-o"; "json"] true w)
    as (w1 & -> & Hh1).
  fold (dns_command self) in Hh1 |- *. fold result in Hh1 |- *.
  destruct (returncode result =? 0) eqn:Hrc; cbn [andb negb].
  - apply Z.eqb_eq in Hrc. rewrite Hrc. cbn [Z.eqb].
    destruct (decode_records env (stdout result)) as [records | | e].
    + destruct records;
        (eexists _, _, _; split; [reflexivity|]; split; [exact Hh1|];
         split; [congruence | auto]).
    + eexists _, _, _. split; [reflexivity|]. split; [exact Hh1|].
      split; [congruence | auto].
    + eexists _, _, _. split; [reflexivity|]. split; [exact Hh1|].
      split; [congruence | auto].
  - apply Z.eqb_neq in Hrc.
    eexists _, _, _. split; [reflexivity|]. split; [exact Hh1|].
    split; [auto | congruence].
Qed.

(** The command of the check listed under [name] in [run_all_validations]. *)
Definition check_command (self : Validator) (name : string) : list string :=
  if String.eqb name "CRDs Installation" then crds_command
  else if String.eqb name "Pod Status" then pods_command self
  else if String.eqb name "Workload Identity" then identity_command self
  else if String.eqb name "ClusterIssuers" then issuers_command
  else dns_command self.

(** What every check of the list does: one command; the settings kept;
    at most one entry appended to the results, and then with the value the
    check returns; after a failed command [False] returned and nothing
    recorded. *)
Definition check_contract (name : string)
    (check_func : Validator -> World -> Report * Validator * World) : Prop :=
  forall self w,
    let result := command env (List.length (history w)) (check_command self name) in
    exists report self' w',
      check_func self w = (report, self', w')
      /\ history w' = (history w ++ [(check_command self name, result)])%list
      /\ same_settings self self'
      /\ (exists tail,
            results self' = (results self ++ tail)%list
            /\ (tail = [] \/ exists recorded b,
                               tail = [(recorded, b)] /\ report = Returned b))
      /\ (returncode result <> 0 -> report = Returned false /\ self' = self).

Ltac settle_contract :=
  match goal with
  | |- same_settings ?s ?s /\ _ =>
      split; [apply same_settings_refl|];
      split; [exists []; split; [now rewrite app_nil_r | now left]|]
  | |- same_settings ?s (record_result ?s (?n, ?b)) /\ _ =>
      split; [apply same_settings_record|];
      split; [exists [(n, b)]; split; [reflexivity | right; eauto]|]
  end.

Lemma checks_contract name check_func :
  In (name, check_func) (checks env) -> check_contract name check_func.
Proof.
  unfold checks. cbn [In].
  intros [H | [H | [H | [H | [H | []]]]]]; injection H as <- <-;
    intros self w; unfold check_command; cbn [String.eqb Ascii.eqb Bool.eqb];
    cbv zeta.
  - destruct (check_crds_installed_effect self w)
      as (report & self' & w' & Heq & Hh & Hfail & Hok). cbv zeta in Hok.
    exists report, self', w'. split; [exact Heq|]. split; [exact Hh|].
    destruct (Z.eq_dec (returncode (command env (List.length (history w))
                                      crds_command)) 0) as [Hrc | Hrc].
    + destruct (Hok Hrc) as [-> ->]. settle_contract. congruence.
    + destruct (Hfail Hrc) as [-> ->]. settle_contract. auto.
  - destruct (check_cert_manager_pods_effect self w)
      as (report & self' & w' & Heq & Hh & Hfail & Hok). cbv zeta in Hok.
    exists report, self', w'. split; [exact Heq|]. split; [exact Hh|].
    destruct (Z.eq_dec (returncode (command env (List.length (history w))
                                      (pods_command self))) 0) as [Hrc | Hrc].
    + specialize (Hok Hrc).
      destruct (decode_pods env _) as [pods | | e]; destruct Hok as [-> ->];
        settle_contract; congruence.
    + destruct (Hfail Hrc) as [-> ->]. settle_contract. auto.
  - destruct (check_workload_identity_effect self w)
      as (report & self' & w' & Heq & Hh & Hfail & Hok). cbv zeta in Hok.
    exists report, self', w'. split; [exact Heq|]. split; [exact Hh|].
    destruct (Z.eq_dec (returncode (command env (List.length (history w))
                                      (identity_command self))) 0) as [Hrc | Hrc].
    + specialize (Hok Hrc).
      destruct (decode_service_account env _) as [account | | e];
        [destruct (_ && _)| |]; destruct Hok as [-> ->];
        settle_contract; congruence.
    + destruct (Hfail Hrc) as [-> ->]. settle_contract. auto.
  - destruct (check_clusterissuers_effect self w)
      as (report & self' & w' & Heq & Hh & Hfail & Hok). cbv zeta in Hok.
    exists report, self', w'. split; [exact Heq|]. split; [exact Hh|].
    destruct (Z.eq_dec (returncode (command env (List.length (history w))
                                      issuers_command)) 0) as [Hrc | Hrc].
    + specialize (Hok Hrc).
      destruct (decode_issuers env _) as [issuers | | e]; destruct Hok as [-> ->];
        settle_contract; congruence.
    + destruct (Hfail Hrc) as [-> ->]. settle_contract. auto.
  - destruct (check_azure_permissions_effect self w)
      as (report & self' & w' & Heq & Hh & Hfail & Hok). cbv zeta in Hok.
    exists report, self', w'. split; [exact Heq|]. split; [exact Hh|].
    destruct (Z.eq_dec (returncode (command env (List.length (history w))
                                      (dns_command self))) 0) as [Hrc | Hrc].
    + specialize (Hok Hrc).
      destruct (decode_records env _) as [records | | e]; destruct Hok as [-> ->];
        settle_contract; congruence.
    + destruct (Hfail Hrc) as [-> ->]. settle_contract. auto.
Qed.

Lemma check_command_same self self' name :
  same_settings self self' -> check_command self' name = check_command self name.
Proof.
  intros (Hn & Hd & _ & _).
  unfold check_command, pods_command, identity_command, dns_command.
  now rewrite Hn, Hd.
Qed.

Lemma same_settings_trans a b c :
  same_settings a b -> same_settings b c -> same_settings a c.
Proof.
  intros (H1 & H2 & H3 & H4) (H1' & H2' & H3' & H4').
  repeat split; congruence.
Qed.

(** A report that is not a success. *)
Definition failure (r : Report) : bool :=
  match r with
  | Returned true => false
  | _ => true
  end.

(** The loop over the checks: every check is called, in order, each makes
    its one command; the results grow by at most one entry a check; a check
    that raised has an entry [False] under its name in the list; an entry
    [False] comes from a check that failed. *)
Lemma run_checks_spec todo :
  (forall name check_func,
     In (name, check_func) todo -> check_contract name check_func) ->
  forall self w,
  exists reports self' w' calls tail,
    run_checks todo self w = (reports, self', w')
    /\ history w' = (history w ++ calls)%list
    /\ map fst calls = map (fun entry => check_command self (fst entry)) todo
    /\ same_settings self self'
    /\ results self' = (results self ++ tail)%list
    /\ (List.length tail <= List.length todo)%nat
    /\ map fst reports = map fst todo
    /\ (forall name e, In (name, Raised e) reports -> In (name, false) tail)
    /\ (forall recorded, In (recorded, false) tail ->
        exists name r, In (name, r) reports /\ failure r = true).
Proof.
  induction todo as [|[name check_func] todo IH]; intros Hall self w.
  - exists [], self, w, [], []. cbn [run_checks map List.length].
    split; [reflexivity|]. split; [now rewrite app_nil_r|].
    split; [reflexivity|]. split; [apply same_settings_refl|].
    split; [now rewrite app_nil_r|]. split; [lia|]. split; [reflexivity|].
    split; intros; contradiction.
  - cbn [run_checks].
    destruct (Hall name check_func ltac:(now left)
                self (print (Plain ("Running: " ++ name)) w))
      as (report & self1 & w1 & -> & Hh1 & Hs1 & (tail1 & Hr1 & Htail1) & _).
    cbn [print history] in Hh1.
    set (after :=
           match report with
           | Returned _ => (self1, w1)
           | Raised e =>
               (record_result self1 (name, false),
                print (Bad ("Check failed with exception: " ++ e)) w1)
           end).
    assert (Hafter : exists tail2,
               history (snd after) = history w1
               /\ same_settings self (fst after)
               /\ results (fst after) = (results self ++ tail2)%list
               /\ (List.length tail2 <= 1)%nat
               /\ (forall e, report = Raised e -> In (name, false) tail2)
               /\ (forall recorded, In (recorded, false) tail2 ->
                   failure report = true)).
    { unfold after. destruct Htail1 as [-> | (recorded & b & -> & ->)].
      - rewrite app_nil_r in Hr1. destruct report as [b | e].
        + exists []. cbn [fst snd].
          split; [reflexivity|]. split; [exact Hs1|].
          split; [now rewrite app_nil_r|]. split; [cbn; lia|].
          split; [discriminate | contradiction].
        + exists [(name, false)]. cbn [fst snd print history record_result results].
          split; [reflexivity|].
          split; [exact (same_settings_trans _ _ _ Hs1 (same_settings_record _ _))|].
          split; [now rewrite Hr1|]. split; [cbn; lia|].
          split; [intros; now left | reflexivity].
      - exists [(recorded, b)]. cbn [fst snd].
        split; [reflexivity|]. split; [exact Hs1|]. split; [exact Hr1|].
        split; [cbn; lia|]. split; [discriminate|].
        intros r [H | []]. injection H as _ ->. reflexivity. }
    destruct Hafter as (tail2 & Hh2 & Hs2 & Hr2 & Hl2 & Hraise2 & Hfalse2).
    destruct after as [self2 w2]. cbn [fst snd] in *.
    destruct (IH (fun n f Hin => Hall n f (or_intror Hin)) self2 w2)
      as (reports & self' & w' & calls & tail & -> & Hh & Hc & Hs & Hr & Hl & Hn
          & Hraise & Hfalse).
    eexists _, self', w', (_ :: calls), (tail2 ++ tail)%list.
    split; [reflexivity|]. split; [|split; [|split; [|split; [|split; [|split; [|split]]]]]].
    + rewrite Hh, Hh2, Hh1, <- app_assoc. reflexivity.
    + cbn [map fst]. f_equal. rewrite Hc. apply map_ext.
      intros entry. apply check_command_same. exact Hs2.
    + exact (same_settings_trans _ _ _ Hs2 Hs).
    + rewrite Hr, Hr2, app_assoc. reflexivity.
    + rewrite length_app. cbn [List.length]. lia.
    + cbn [map fst]. now rewrite Hn.
    + intros n e [H | H].
      * injection H as <- ->. apply in_or_app. left. exact (Hraise2 e eq_refl).
      * apply in_or_app. right. exact (Hraise n e H).
    + intros recorded Hin. apply in_app_or in Hin as [Hin | Hin].
      * exists name, report. split; [now left | exact (Hfalse2 _ Hin)].
      * destruct (Hfalse _ Hin) as (n & r & Hin' & Hf).
        exists n, r. split; [now right | exact Hf].
Qed.

End Checks.

(** [generate_summary] returns whether every recorded result is [True];
    it makes no command. *)
Lemma generate_summary_effect self w :
  fst (generate_summary self w) = forallb snd (results self)
  /\ history (snd (generate_summary self w)) = history w.
Proof.
  unfold generate_summary. cbv zeta.
  assert (Hfold : forall entries w0,
             history
               (fold_left
                  (fun w1 '((check_name, success) : string * bool) =>
                     print (if success then Good check_name else Bad check_name) w1)
                  entries w0) = history w0).
  { induction entries as [|[n b] entries IH]; intros w0; [reflexivity|].
    cbn [fold_left]. now rewrite IH. }
  unfold count_passed.
  rewrite <- (DeployerProps.filter_all_length snd (results self)).
  destruct (Nat.eqb _ _); cbn [fst snd print history]; now rewrite Hfold.
Qed.

(** The world in which the checks of a run start, and what they report. *)
Definition started (w : World) : World :=
  print (Plain "Starting Cert-Manager validation") w.

Definition reports_of_run (env : Environment) (self : Validator) (w : World)
  : list (string * Report) :=
  fst (fst (run_checks (checks env) self (started w))).

Lemma run_all_validations_spec env self w :
  exists self' w' calls tail,
    run_all_validations env self w = (forallb snd (results self'), self', w')
    /\ history w' = (history w ++ calls)%list
    /\ map fst calls
       = [crds_command; pods_command self; identity_command self;
          issuers_command; dns_command self]
    /\ results self' = (results self ++ tail)%list
    /\ (List.length tail <= 5)%nat
    /\ (forall name e,
          In (name, Raised e) (reports_of_run env self w) -> In (name, false) tail)
    /\ (forall recorded, In (recorded, false) tail ->
        exists name r,
          In (name, r) (reports_of_run env self w) /\ failure r = true).
Proof.
  unfold run_all_validations, reports_of_run. fold (started w).
  destruct (run_checks_spec env (checks env) (checks_contract env) self (started w))
    as (reports & self' & w' & calls & tail & Heq & Hh & Hc & Hs & Hr & Hl & Hn
        & Hraise & Hfalse).
  rewrite Heq. cbn [fst].
  destruct (generate_summary_effect self' w') as [Hsum Hhist].
  destruct (generate_summary self' w') as [success w''].
  cbn [fst snd] in Hsum, Hhist. subst success.
  exists self', w'', calls, tail.
  split; [reflexivity|]. split; [now rewrite Hhist, Hh|].
  split; [exact Hc|]. split; [exact Hr|]. split; [exact Hl|]. auto.
Qed.

(** X11.  [run_all_validations] calls all five checks whatever the earlier
    ones did: every run makes exactly five commands, in the same order,
    one for each check. *)
Theorem every_check_runs env self w :
  exists calls,
    history (snd (run_all_validations env self w)) = (history w ++ calls)%list
    /\ map fst calls
       = [crds_command; pods_command self; identity_command self;
          issuers_command; dns_command self].
Proof.
  destruct (run_all_validations_spec env self w)
    as (self' & w' & calls & tail & -> & Hh & Hc & _).
  exists calls. auto.
Qed.

(** X12.  The exit status of the validator is 0 exactly when no recorded
    result is [False] (none recorded included) and 1 otherwise; a run adds
    at most five results to those of the validator. *)
Theorem exit_status_by_recorded_results env w :
  let self' := validator_after env w in
  (fst (main env w) = 0 <-> forallb snd (results self') = true)
  /\ (fst (main env w) = 0 \/ fst (main env w) = 1)
  /\ (List.length (results self') <= 5)%nat.
Proof.
  unfold validator_after, main.
  destruct (run_all_validations_spec env new_validator w)
    as (self' & w' & calls & tail & -> & Hh & Hc & Hr & Hl & _).
  cbn [fst snd]. cbn [results new_validator app] in Hr. rewrite Hr.
  destruct (forallb snd tail); cbn [fst].
  - split; [split; reflexivity | auto].
  - split; [split; discriminate | auto].
Qed.

(** X13.  A check that lets an exception escape is recorded as failed
    under its name in the list of checks, and the validator exits with
    status 1. *)
Theorem raised_check_exits_one env w name e :
  In (name, Raised e) (reports_of_run env new_validator w) ->
  In (name, false) (results (validator_after env w))
  /\ fst (main env w) = 1.
Proof.
  intros Hraised. unfold validator_after, main.
  destruct (run_all_validations_spec env new_validator w)
    as (self' & w' & calls & tail & -> & Hh & Hc & Hr & Hl & Hraise & _).
  cbn [fst snd]. cbn [results new_validator app] in Hr.
  pose proof (Hraise name e Hraised) as Hin. rewrite Hr.
  split; [exact Hin|].
  replace (forallb snd tail) with false; [reflexivity|].
  symmetry. apply not_true_is_false. intros Hall.
  rewrite forallb_forall in Hall. specialize (Hall _ Hin). discriminate.
Qed.

(** X14.  The validator exits with status 1 only for a cause: some check
    of the run returned [False] or raised. *)
Theorem exit_one_has_a_cause env w :
  fst (main env w) = 1 ->
  exists name r,
    In (name, r) (reports_of_run env new_validator w) /\ failure r = true.
Proof.
  unfold main.
  destruct (run_all_validations_spec env new_validator w)
    as (self' & w' & calls & tail & -> & Hh & Hc & Hr & Hl & _ & Hfalse).
  cbn [fst snd]. cbn [results new_validator app] in Hr. rewrite Hr.
  destruct (forallb snd tail) eqn:Hall; [discriminate|]. intros _.
  assert (Hex : exists recorded, In (recorded, false) tail).
  { clear - Hall. induction tail as [|[n b] tail IH]; [discriminate|].
    cbn [forallb snd] in Hall. destruct b.
    - destruct (IH Hall) as (r & Hin). exists r. now right.
    - exists n. now left. }
  destruct Hex as (recorded & Hin). exact (Hfalse recorded Hin).
Qed.

(** X15.  When the command of a check fails (kubectl or az exits with a
    status other than 0) the check returns [False] and leaves the validator
    as it was: nothing is recorded for it.  This holds for each of the five
    checks. *)
Theorem failed_command_is_not_recorded env name check_func self w :
  In (name, check_func) (checks env) ->
  returncode (command env (List.length (history w)) (check_command self name)) <> 0 ->
  fst (check_func self w) = (Returned false, self).
Proof.
  intros Hin Hrc.
  destruct (checks_contract env name check_func Hin self w)
    as (report & self' & w' & -> & _ & _ & _ & Hfail).
  destruct (Hfail Hrc) as [-> ->]. reflexivity.
Qed.

(** ** Substrings *)

Lemma prefix_spec p s :
  String.prefix p s = true <-> exists rest, s = p ++ rest.
Proof.
  revert s. induction p as [|c p IH]; intros s.
  - split; [intros _; now exists s | intros _; destruct s; reflexivity].
  - destruct s as [|d s]; cbn [String.prefix].
    + split; [discriminate | intros [rest H]; discriminate].
    + destruct (Ascii.ascii_dec c d) as [-> | Hne].
      * rewrite IH. split; intros [rest H]; exists rest.
        -- cbn. now rewrite H.
        -- cbn in H. now injection H.
      * split; [discriminate|]. intros [rest H]. cbn in H. congruence.
Qed.

Lemma contains_spec needle hay :
  Py.contains needle hay = true
  <-> exists before after, hay = before ++ needle ++ after.
Proof.
  induction hay as [|c hay IH]; cbn [Py.contains].
  - rewrite orb_false_r, prefix_spec. split.
    + intros [rest H]. exists "", rest. exact H.
    + intros (before & after & H). destruct before; [now exists after|].
      discriminate.
  - rewrite orb_true_iff, prefix_spec, IH. split.
    + intros [[rest H] | (before & after & H)].
      * exists "", rest. exact H.
      * exists (String c before), after. cbn. now rewrite H.
    + intros (before & after & H). destruct before as [|d before].
      * left. now exists after.
      * right. cbn in H. injection H as _ H. now exists before, after.
Qed.

Lemma append_assoc (a b c : string) : (a ++ b) ++ c = a ++ (b ++ c).
Proof. induction a as [|x a IH]; cbn; [reflexivity | now rewrite IH]. Qed.

Lemma contains_trans a b c :
  Py.contains a b = true -> Py.contains b c = true -> Py.contains a c = true.
Proof.
  rewrite !contains_spec. intros (p & q & ->) (p' & q' & ->).
  exists (p' ++ p), (q ++ q'). now rewrite !append_assoc.
Qed.

(** ** What the single checks go by *)

(** X16.  [check_cert_manager_pods] passes when the names of the running
    pods contain expected names at least three times over, every pod
    counting once for each expected name its name contains; the result is
    recorded either way.  Since "cert-manager" is part of the other two
    names and replicas count again, three such matches need not come from
    the three components. *)
Theorem pods_check_counts_matches env self w pods :
  let result := command env (List.length (history w)) (pods_command self) in
  returncode result = 0 ->
  decode_pods env (stdout result) = Parsed pods ->
  fst (check_cert_manager_pods env self w)
  = (Returned (Nat.leb 3 (running_matches pods)),
     record_result self ("Cert-Manager Pods", Nat.leb 3 (running_matches pods))).
Proof.
  intros result Hrc Hdecode.
  destruct (check_cert_manager_pods_effect env self w)
    as (report & self' & w' & -> & _ & _ & Hok).
  specialize (Hok Hrc). fold result in Hok. rewrite Hdecode in Hok.
  destruct Hok as [-> ->]. reflexivity.
Qed.


(** X18.  [check_crds_installed] looks for each required name as a piece
    of the output of [kubectl get crd].  "issuers.cert-manager.io" is a
    piece of "clusterissuers.cert-manager.io": when the other five names
    are in the output the check passes and records [True], whether or not
    the issuers CRD is installed. *)
Theorem crds_check_misses_issuers env self w :
  let result := command env (List.length (history w)) crds_command in
  returncode result = 0 ->
  (forall crd, In crd required_crds -> crd <> "issuers.cert-manager.io" ->
     Py.contains crd (stdout result) = true) ->
  fst (check_crds_installed env self w)
  = (Returned true, record_result self ("CRDs Installed", true)).
Proof.
  intros result Hrc Hfive.
  destruct (check_crds_installed_effect env self w)
    as (report & self' & w' & -> & _ & _ & Hok).
  specialize (Hok Hrc). cbv zeta in Hok. fold result in Hok.
  replace (forallb _ required_crds) with true in Hok.
  - destruct Hok as [-> ->]. reflexivity.
  - symmetry. apply forallb_forall. intros crd Hin.
    destruct (String.eqb crd "issuers.cert-manager.io") eqn:E.
    + apply String.eqb_eq in E. subst crd.
      apply (contains_trans _ "clusterissuers.cert-manager.io").
      * reflexivity.
      * apply Hfive; [|discriminate]. cbn. tauto.
    + apply Hfive; [exact Hin|]. now apply String.eqb_neq.
Qed.

(** X19.  [check_workload_identity], when its command goes through and
    the service account decodes: it returns [True] exactly when the client
    id annotation equals the client id of the validator and the label
    [azure.workload.identity/use] is "true", and only then records
    anything; a mismatch is returned as [False] and not recorded. *)
Theorem identity_check_records_success_only env self w account :
  let result := command env (List.length (history w)) (identity_command self) in
  let matches :=
    Py.get_eqb (sa_client_id account) (client_id self)
    && Py.get_eqb (sa_use account) "true" in
  returncode result = 0 ->
  decode_service_account env (stdout result) = Parsed account ->
  fst (check_workload_identity env self w)
  = (Returned matches,
     if matches then record_result self ("Workload Identity Config", true)
     else self).
Proof.
  intros result matches Hrc Hdecode.
  destruct (check_workload_identity_effect env self w)
    as (report & self' & w' & -> & _ & _ & Hok).
  specialize (Hok Hrc). fold result in Hok. rewrite Hdecode in Hok.
  fold matches in Hok. destruct matches; destruct Hok as [-> ->]; reflexivity.
Qed.

(** ** Concrete runs *)

(** cert-manager installed as in [installed], but the pod list lacks the
    field a check reads: decoding raises. *)
Definition malformed_pods : Environment :=
  {| command := command (installed {| sa_client_id := None; sa_use := None |});
     command_seconds := fun _ => 1%nat;
     decode_pods := fun _ => OtherError "KeyError: 'phase'";
     decode_issuers := decode_issuers (installed {| sa_client_id := None; sa_use := None |});
     decode_service_account := fun _ =>
       Parsed {| sa_client_id := Some (client_id new_validator);
                 sa_use := Some "true" |};
     decode_records := fun _ => Parsed [] |}.

Lemma raised_check_exits_one_witness :
  In ("Pod Status", Raised "KeyError: 'phase'")
    (reports_of_run malformed_pods new_validator fresh)
  /\ In ("Pod Status", false) (results (validator_after malformed_pods fresh))
  /\ fst (main malformed_pods fresh) = 1.
Proof.
  assert (H : In ("Pod Status", Raised "KeyError: 'phase'")
                (reports_of_run malformed_pods new_validator fresh))
    by (vm_compute; right; left; reflexivity).
  split; [exact H|].
  exact (raised_check_exits_one malformed_pods fresh "Pod Status"
           "KeyError: 'phase'" H).
Defined.

Lemma exit_one_has_a_cause_witness :
  fst (main malformed_pods fresh) = 1
  /\ exists name r,
       In (name, r) (reports_of_run malformed_pods new_validator fresh)
       /\ failure r = true.
Proof.
  assert (H : fst (main malformed_pods fresh) = 1) by (vm_compute; reflexivity).
  split; [exact H|].
  exact (exit_one_has_a_cause malformed_pods fresh H).
Defined.

Lemma failed_command_is_not_recorded_witness :
  In ("Workload Identity", check_workload_identity offline) (checks offline)
  /\ returncode (command offline (List.length (history fresh))
                   (check_command new_validator "Workload Identity")) <> 0
  /\ fst (check_workload_identity offline new_validator fresh)
     = (Returned false, new_validator).
Proof.
  assert (H1 : In ("Workload Identity", check_workload_identity offline)
                 (checks offline))
    by (right; right; left; reflexivity).
  assert (H2 : returncode (command offline (List.length (history fresh))
                             (check_command new_validator "Workload Identity"))
               <> 0)
    by (vm_compute; discriminate).
  split; [exact H1|]. split; [exact H2|].
  exact (failed_command_is_not_recorded offline "Workload Identity"
           (check_workload_identity offline) new_validator fresh H1 H2).
Defined.

(** Only the webhook and the cainjector are running: the controller pod
    of cert-manager is missing. *)
Definition without_controller : list Pod :=
  [running "cert-manager-webhook-7f9f8b6c5-fghij";
   running "cert-manager-cainjector-6c8b9d7f4-klmno"].

Definition no_controller : Environment :=
  {| command := command (installed {| sa_client_id := None; sa_use := None |});
     command_seconds := fun _ => 1%nat;
     decode_pods := fun _ => Parsed without_controller;
     decode_issuers := fun _ => Parsed [];
     decode_service_account := fun _ => JSONDecodeError;
     decode_records := fun _ => Parsed [] |}.

Lemma pods_check_counts_matches_witness :
  returncode (command no_controller (List.length (history fresh))
                (pods_command new_validator)) = 0
  /\ decode_pods no_controller
       (stdout (command no_controller (List.length (history fresh))
                  (pods_command new_validator)))
     = Parsed without_controller
  /\ fst (check_cert_manager_pods no_controller new_validator fresh)
     = (Returned (Nat.leb 3 (running_matches without_controller)),
        record_result new_validator
          ("Cert-Manager Pods", Nat.leb 3 (running_matches without_controller))).
Proof.
  assert (H1 : returncode (command no_controller (List.length (history fresh))
                             (pods_command new_validator)) = 0) by reflexivity.
  assert (H2 : decode_pods no_controller
                 (stdout (command no_controller (List.length (history fresh))
                            (pods_command new_validator)))
               = Parsed without_controller) by reflexivity.
  split; [exact H1|]. split; [exact H2|].
  exact (pods_check_counts_matches no_controller new_validator fresh
           without_controller H1 H2).
Defined.

(** Without the controller pod the check passes: the two pods match four
    expected names. *)
Example pods_check_passes_without_controller :
  running_matches without_controller = 4%nat
  /\ fst (fst (check_cert_manager_pods no_controller new_validator fresh))
     = Returned true.
Proof. vm_compute. split; reflexivity. Qed.


(** The cluster lists five of the six CRDs: the issuers CRD is missing. *)
Definition five_crds : string :=
  "certificates.cert-manager.io certificaterequests.cert-manager.io clusterissuers.cert-manager.io challenges.acme.cert-manager.io orders.acme.cert-manager.io".

Definition no_issuers_crd : Environment :=
  {| command := fun _ _ => completed five_crds;
     command_seconds := fun _ => 1%nat;
     decode_pods := fun _ => JSONDecodeError;
     decode_issuers := fun _ => JSONDecodeError;
     decode_service_account := fun _ => JSONDecodeError;
     decode_records := fun _ => JSONDecodeError |}.

Lemma crds_check_misses_issuers_witness :
  returncode (command no_issuers_crd (List.length (history fresh)) crds_command) = 0
  /\ (forall crd, In crd required_crds -> crd <> "issuers.cert-manager.io" ->
        Py.contains crd
          (stdout (command no_issuers_crd (List.length (history fresh))
                     crds_command)) = true)
  /\ fst (check_crds_installed no_issuers_crd new_validator fresh)
     = (Returned true, record_result new_validator ("CRDs Installed", true)).
Proof.
  assert (H1 : returncode (command no_issuers_crd (List.length (history fresh))
                             crds_command) = 0) by reflexivity.
  assert (H2 : forall crd, In crd required_crds ->
             crd <> "issuers.cert-manager.io" ->
             Py.contains crd
               (stdout (command no_issuers_crd (List.length (history fresh))
                          crds_command)) = true).
  { intros crd Hin Hne. unfold required_crds in Hin. cbn [In] in Hin.
    destruct Hin as [<- | [<- | [<- | [<- | [<- | [<- | []]]]]]];
      vm_compute; reflexivity. }
  split; [exact H1|]. split; [exact H2|].
  exact (crds_check_misses_issuers no_issuers_crd new_validator fresh H1 H2).
Defined.

Lemma identity_check_records_success_only_witness :
  returncode (command mismatched_identity (List.length (history fresh))
                (identity_command new_validator)) = 0
  /\ decode_service_account mismatched_identity
       (stdout (command mismatched_identity (List.length (history fresh))
                  (identity_command new_validator)))
     = Parsed {| sa_client_id := Some "00000000-0000-0000-0000-000000000000";
                 sa_use := Some "true" |}
  /\ fst (check_workload_identity mismatched_identity new_validator fresh)
     = (Returned false, new_validator).
Proof.
  assert (H1 : returncode (command mismatched_identity
                             (List.length (history fresh))
                             (identity_command new_validator)) = 0)
    by reflexivity.
  assert (H2 : decode_service_account mismatched_identity
                 (stdout (command mismatched_identity
                            (List.length (history fresh))
                            (identity_command new_validator)))
               = Parsed {| sa_client_id := Some "00000000-0000-0000-0000-000000000000";
                           sa_use := Some "true" |})
    by reflexivity.
  split; [exact H1|]. split; [exact H2|].
  exact (identity_check_records_success_only mismatched_identity new_validator
           fresh _ H1 H2).
Defined.

End ValidatorBehaviour.

(** * The certificate issuance test of the validator *)

Module IssuanceBehaviour.

Import CertManager CertManagerProps.

Definition apply_command (test_name : string) : list string :=
  ["kubectl"; "apply"; "-f"; "/tmp/" ++ test_name ++ ".yaml"].

Definition delete_command (test_name : string) : list string :=
  ["kubectl"; "delete"; "certificate"; test_name].

(** The name of the test certificate: [f"test-cert-{int(time.time())}"]. *)
Definition name_at (w : World) : string := "test-cert-" ++ decimal (clock w).

(** The call is a readiness query of the test certificate that found it
    ready. *)
Definition ready_answer (test_name : string) (call : Call) : bool :=
  if list_eq_dec string_dec (fst call) (readiness_query test_name)
  then reports_ready (snd call)
  else false.

(** The passes a budget of [timeout_seconds] allows when only
    [time.sleep(10)] moves the clock. *)
Definition passes (timeout_seconds : Z) : nat :=
  Z.to_nat ((timeout_seconds + 9) / 10).

(** The passes left at a clock reading. *)
Definition passes_left (timeout_seconds start_time : Z) (w : World) : nat :=
  passes (timeout_seconds - (clock w - start_time)).

(** The call is a describe of the test certificate. *)
Definition is_describe (test_name : string) (call : Call) : bool :=
  if list_eq_dec string_dec (fst call) (describe_query test_name)
  then true
  else false.

(** The call is a describe of the test certificate that went through and
    shows an error. *)
Definition error_answer (test_name : string) (call : Call) : bool :=
  is_describe test_name call && reports_error (snd call).

(** The describes of the test certificate among some calls. *)
Definition describes (test_name : string) (calls : list Call) : nat :=
  List.length (filter (is_describe test_name) calls).

(** The describes among some calls that were followed by the sleep of the
    waiting loop: those that show no error. *)
Definition sleeps (test_name : string) (calls : list Call) : nat :=
  List.length
    (filter (fun call => is_describe test_name call
                         && negb (reports_error (snd call))) calls).

(** The time the [n] commands from the [start]-th command of the run on
    take. *)
Fixpoint seconds (env : Environment) (start n : nat) : Z :=
  match n with
  | O => 0
  | S n => Z.of_nat (command_seconds env start) + seconds env (S start) n
  end.

Lemma seconds_of_commands_app env a : forall start b,
  seconds env start (a + b) = seconds env start a + seconds env (start + a) b.
Proof.
  induction a as [|a IH]; intros start b; cbn [seconds Nat.add].
  - now rewrite Nat.add_0_r.
  - rewrite IH. replace (S start + a)%nat with (start + S a)%nat by lia. lia.
Qed.

Lemma existsb_removelast {A} (p : A -> bool) (l : list A) :
  existsb p l = false -> existsb p (removelast l) = false.
Proof.
  induction l as [|x l IH]; [reflexivity|].
  cbn [existsb]. intros H. apply orb_false_iff in H as [Hx Hl].
  destruct l as [|y l]; [reflexivity|].
  change (removelast (x :: y :: l)) with (x :: removelast (y :: l)).
  cbn [existsb]. now rewrite Hx, (IH Hl).
Qed.

(** When one element of a list passes a test the elements around it
    fail, it is found at one place only. *)
Lemma split_unique {A} (p : A -> bool) (x y : A) (post after : list A) :
  forall pre before,
  existsb p pre = false ->
  existsb p post = false ->
  p x = true ->
  (pre ++ y :: post)%list = (before ++ x :: after)%list ->
  before = pre /\ x = y /\ after = post.
Proof.
  induction pre as [|a pre IH]; intros before Hpre Hpost Hx Heq.
  - destruct before as [|b before]; cbn [app] in Heq.
    + injection Heq as -> ->. auto.
    + injection Heq as -> ->.
      rewrite existsb_app in Hpost. cbn [existsb] in Hpost.
      rewrite Hx, orb_true_r in Hpost. discriminate.
  - cbn [existsb] in Hpre. apply orb_false_iff in Hpre as [Ha Hpre].
    destruct before as [|b before]; cbn [app] in Heq.
    + injection Heq as -> _. congruence.
    + injection Heq as -> Heq.
      destruct (IH before Hpre Hpost Hx Heq) as (-> & -> & ->). auto.
Qed.

Lemma is_describe_describe test_name r :
  is_describe test_name (describe_query test_name, r) = true.
Proof.
  unfold is_describe. cbn [fst].
  destruct (list_eq_dec string_dec _ _); [reflexivity | congruence].
Qed.

Lemma is_describe_other test_name cmd r :
  cmd <> describe_query test_name -> is_describe test_name (cmd, r) = false.
Proof.
  intros H. unfold is_describe. cbn [fst].
  destruct (list_eq_dec string_dec _ _); [congruence | reflexivity].
Qed.

Lemma sleeps_cons test_name (c : Call) (calls : list Call) :
  sleeps test_name (c :: calls)
  = ((if is_describe test_name c && negb (reports_error (snd c))
      then 1 else 0)
     + sleeps test_name calls)%nat.
Proof.
  unfold sleeps. cbn [filter].
  destruct (is_describe test_name c && negb (reports_error (snd c)));
    reflexivity.
Qed.

Lemma describes_cons test_name (c : Call) (calls : list Call) :
  describes test_name (c :: calls)
  = ((if is_describe test_name c then 1 else 0) + describes test_name calls)%nat.
Proof.
  unfold describes. cbn [filter]. destruct (is_describe test_name c); reflexivity.
Qed.

Lemma sleeps_app test_name (a b : list Call) :
  sleeps test_name (a ++ b) = (sleeps test_name a + sleeps test_name b)%nat.
Proof. unfold sleeps. now rewrite filter_app, length_app. Qed.

Lemma sleeps_without_errors test_name (calls : list Call) :
  existsb (error_answer test_name) calls = false ->
  sleeps test_name calls = describes test_name calls.
Proof.
  unfold sleeps, describes, error_answer.
  induction calls as [|c calls IH]; [reflexivity|].
  cbn [existsb filter]. intros H. apply orb_false_iff in H as [Hc Hrest].
  specialize (IH Hrest).
  destruct (is_describe test_name c); cbn [andb] in *.
  - rewrite Hc. cbn [negb List.length]. now rewrite IH.
  - exact IH.
Qed.

Section Issuance.

Variable env : Environment.

(** One pass of the waiting loop within the budget. *)
Lemma wait_for_certificate_pass fuel self test_name timeout_seconds start_time w :
  clock w - start_time < timeout_seconds ->
  let n := List.length (history w) in
  let r1 := command env n (readiness_query test_name) in
  let r2 := command env (S n) (describe_query test_name) in
  let r3 := command env (S n) (delete_command test_name) in
  let seconds := Z.of_nat (command_seconds env n)
                 + Z.of_nat (command_seconds env (S n)) in
  if reports_ready r1 then
    exists w',
      wait_for_certificate env (S fuel) self test_name timeout_seconds start_time w
      = Some (Issued (record_result self ("Certificate Issuance Test", true)) w')
      /\ history w'
         = (history w
            ++ [(readiness_query test_name, r1); (delete_command test_name, r3)])%list
      /\ clock w' = clock w + seconds
  else
    exists w',
      history w'
      = (history w
         ++ [(readiness_query test_name, r1); (describe_query test_name, r2)])%list
      /\ clock w' = clock w + seconds
      /\ wait_for_certificate env (S fuel) self test_name timeout_seconds start_time w
         = if reports_error r2 then Some (LeftLoop w')
           else wait_for_certificate env fuel self test_name timeout_seconds
                  start_time (sleep 10 w').
Proof.
  intros Hbudget n r1 r2 r3 seconds.
  apply Z.ltb_lt in Hbudget.
  cbn [wait_for_certificate]. rewrite Hbudget.
  destruct (run_kubectl_spec env
              ["get"; "certificate"; test_name; "-o";
               "jsonpath={.status.conditions[?(@.type=='Ready')].status}"]
              true w) as (w1 & -> & Hh1 & Hc1).
  fold (readiness_query test_name) in *. fold n in Hh1, Hc1 |- *.
  fold r1 in Hh1 |- *.
  assert (Hlen : List.length (history w1) = S n).
  { rewrite Hh1, length_app. cbn. lia. }
  assert (Hready :
            match (if true && negb (returncode r1 =? 0) then None else Some r1) with
            | Some result => String.eqb (Py.strip (stdout result)) "True"
            | None => false
            end = reports_ready r1).
  { unfold reports_ready. destruct (returncode r1 =? 0); reflexivity. }
  rewrite Hready. destruct (reports_ready r1).
  - destruct (run_kubectl_spec env ["delete"; "certificate"; test_name] false
                (print (Good ("Certificate issued successfully in "
                              ++ decimal (clock w1 - start_time) ++ " seconds")) w1))
      as (w2 & -> & Hh2 & Hc2).
    cbn [print history clock] in Hh2, Hc2.
    fold (delete_command test_name) in *.
    rewrite Hlen in Hh2, Hc2. fold r3 in Hh2.
    exists w2. split; [reflexivity|]. split.
    + rewrite Hh2, Hh1, <- app_assoc. reflexivity.
    + rewrite Hc2, Hc1. unfold seconds. lia.
  - destruct (run_kubectl_spec env ["describe"; "certificate"; test_name] true w1)
      as (w2 & -> & Hh2 & Hc2).
    fold (describe_query test_name) in *.
    rewrite Hlen in Hh2, Hc2 |- *. fold r2 in Hh2 |- *.
    assert (Hfailed :
              match (if true && negb (returncode r2 =? 0) then None else Some r2) with
              | Some cert_status => Py.contains "Error" (stdout cert_status)
              | None => false
              end = reports_error r2).
    { unfold reports_error. destruct (returncode r2 =? 0); reflexivity. }
    rewrite Hfailed. destruct (reports_error r2).
    + eexists. split; [|split; [|reflexivity]]; cbn [print history clock].
      * rewrite Hh2, Hh1, <- app_assoc. reflexivity.
      * rewrite Hc2, Hc1. unfold seconds. lia.
    + exists w2. split; [|split; [|reflexivity]].
      * rewrite Hh2, Hh1, <- app_assoc. reflexivity.
      * rewrite Hc2, Hc1. unfold seconds. lia.
Qed.

(** Past the budget the loop is left at once. *)
Lemma wait_for_certificate_over fuel self test_name timeout_seconds start_time w :
  timeout_seconds <= clock w - start_time ->
  wait_for_certificate env (S fuel) self test_name timeout_seconds start_time w
  = Some (LeftLoop w).
Proof.
  intros H. cbn [wait_for_certificate].
  destruct (Z.ltb_spec (clock w - start_time) timeout_seconds); [lia | reflexivity].
Qed.

Lemma passes_left_sleep timeout_seconds start_time w w' :
  clock w - start_time < timeout_seconds ->
  clock w <= clock w' ->
  (S (passes_left timeout_seconds start_time (sleep 10 w'))
   <= passes_left timeout_seconds start_time w)%nat.
Proof.
  intros Hlt Hle. unfold passes_left, passes. cbn [sleep clock].
  set (x := timeout_seconds - (clock w - start_time)).
  assert (Hx : 1 <= x) by (unfold x; lia).
  assert (H1 : (timeout_seconds - (clock w' + 10 - start_time) + 9) / 10
               <= (x + 9 - 10) / 10).
  { apply Z.div_le_mono; unfold x; lia. }
  assert (H2 : (x + 9 - 10) / 10 = (x + 9) / 10 - 1).
  { replace (x + 9 - 10) with (x + 9 + (-1) * 10) by lia.
    rewrite Z.div_add by lia. lia. }
  assert (H3 : 1 <= (x + 9) / 10).
  { apply Z.div_le_lower_bound; lia. }
  lia.
Qed.

(** The waiting loop ends: every pass that goes on sleeps ten seconds. *)
Lemma wait_for_certificate_returns self test_name timeout_seconds start_time :
  forall fuel w,
    (passes_left timeout_seconds start_time w < fuel)%nat ->
    exists outcome,
      wait_for_certificate env fuel self test_name timeout_seconds start_time w
      = Some outcome.
Proof.
  induction fuel as [|fuel IH]; intros w Hfuel; [lia|].
  destruct (Z.lt_ge_cases (clock w - start_time) timeout_seconds) as [Hlt | Hge].
  - pose proof (wait_for_certificate_pass fuel self test_name timeout_seconds
                  start_time w Hlt) as Hpass.
    cbv zeta in Hpass.
    destruct (reports_ready _).
    + destruct Hpass as (w' & -> & _). eexists; reflexivity.
    + destruct Hpass as (w' & _ & Hc & ->).
      destruct (reports_error _); [eexists; reflexivity|].
      apply IH.
      pose proof (passes_left_sleep timeout_seconds start_time w w' Hlt) as Hs.
      assert (clock w <= clock w') by lia.
      specialize (Hs H). lia.
  - rewrite wait_for_certificate_over by exact Hge. eexists; reflexivity.
Qed.

Lemma ready_answer_readiness test_name r :
  ready_answer test_name (readiness_query test_name, r) = reports_ready r.
Proof.
  unfold ready_answer. cbn [fst snd].
  destruct (list_eq_dec string_dec _ _); [reflexivity | congruence].
Qed.

Lemma ready_answer_other test_name cmd r :
  cmd <> readiness_query test_name ->
  ready_answer test_name (cmd, r) = false.
Proof.
  intros H. unfold ready_answer. cbn [fst snd].
  destruct (list_eq_dec string_dec _ _); [congruence | reflexivity].
Qed.

Lemma describe_is_no_readiness_query test_name :
  describe_query test_name <> readiness_query test_name.
Proof. unfold describe_query, readiness_query. discriminate. Qed.

Lemma delete_is_no_readiness_query test_name :
  delete_command test_name <> readiness_query test_name.
Proof. unfold delete_command, readiness_query. discriminate. Qed.

Lemma apply_is_no_readiness_query test_name test_name' :
  apply_command test_name <> readiness_query test_name'.
Proof. unfold apply_command, readiness_query. discriminate. Qed.

(** What the loop has done when it ends: it reports the certificate
    issued exactly on the first readiness query that found it ready, and
    then deletes it. *)
Lemma wait_for_certificate_outcome self test_name timeout_seconds start_time :
  forall fuel w,
    match wait_for_certificate env fuel self test_name timeout_seconds start_time w with
    | None => True
    | Some (Issued self' w') =>
        self' = record_result self ("Certificate Issuance Test", true)
        /\ exists (calls : list Call) r1 r2,
             history w'
             = (history w ++ calls
                ++ [(readiness_query test_name, r1); (delete_command test_name, r2)])%list
             /\ reports_ready r1 = true
             /\ existsb (ready_answer test_name) calls = false
    | Some (LeftLoop w') =>
        exists calls,
          history w' = (history w ++ calls)%list
          /\ existsb (ready_answer test_name) calls = false
    end.
Proof.
  induction fuel as [|fuel IH]; intros w; [exact I|].
  destruct (Z.lt_ge_cases (clock w - start_time) timeout_seconds) as [Hlt | Hge].
  - pose proof (wait_for_certificate_pass fuel self test_name timeout_seconds
                  start_time w Hlt) as Hpass.
    cbv zeta in Hpass.
    destruct (reports_ready _) eqn:Hready.
    + destruct Hpass as (w' & -> & Hh & _).
      split; [reflexivity|].
      exists []. do 2 eexists. split; [exact Hh|]. split; [exact Hready | reflexivity].
    + destruct Hpass as (w' & Hh & _ & ->).
      set (pass := [(readiness_query test_name,
                     command env (List.length (history w)) (readiness_query test_name));
                    (describe_query test_name,
                     command env (S (List.length (history w)))
                       (describe_query test_name))]) in *.
      assert (Hpair : existsb (ready_answer test_name) pass = false).
      { unfold pass. cbn [existsb]. rewrite ready_answer_readiness, Hready.
        rewrite ready_answer_other by apply describe_is_no_readiness_query.
        reflexivity. }
      destruct (reports_error _).
      * exists pass. split; [exact Hh | exact Hpair].
      * specialize (IH (sleep 10 w')).
        destruct (wait_for_certificate env fuel self test_name timeout_seconds
                    start_time (sleep 10 w')) as [[self' w'' | w'']|];
          [| |exact I]; cbn [sleep history] in IH.
        -- destruct IH as (-> & calls & q1 & q2 & Hh' & Hq & Hnone).
           split; [reflexivity|].
           exists (pass ++ calls)%list, q1, q2.
           split; [|split; [exact Hq|]].
           ++ rewrite Hh', Hh, <- app_assoc, <- app_assoc. reflexivity.
           ++ rewrite existsb_app. apply orb_false_iff. split; assumption.
        -- destruct IH as (calls & Hh' & Hnone).
           exists (pass ++ calls)%list. split.
           ++ rewrite Hh', Hh, <- app_assoc. reflexivity.
           ++ rewrite existsb_app. apply orb_false_iff. split; assumption.
  - rewrite wait_for_certificate_over by exact Hge.
    exists []. split; [now rewrite app_nil_r | reflexivity].
Qed.

Lemma passes_left_sleep_exact timeout_seconds start_time w w' :
  clock w - start_time < timeout_seconds ->
  clock w' = clock w ->
  S (passes_left timeout_seconds start_time (sleep 10 w'))
  = passes_left timeout_seconds start_time w.
Proof.
  intros Hlt Heq. unfold passes_left, passes. cbn [sleep clock]. rewrite Heq.
  set (x := timeout_seconds - (clock w - start_time)).
  assert (Hx : 1 <= x) by (unfold x; lia).
  replace (timeout_seconds - (clock w + 10 - start_time) + 9)
    with (x + 9 + (-1) * 10) by (unfold x; lia).
  rewrite Z.div_add by lia.
  assert (H3 : 1 <= (x + 9) / 10) by (apply Z.div_le_lower_bound; lia).
  lia.
Qed.

Lemma passes_left_over timeout_seconds start_time w :
  timeout_seconds <= clock w - start_time ->
  passes_left timeout_seconds start_time w = 0%nat.
Proof.
  intros H. unfold passes_left, passes.
  assert ((timeout_seconds - (clock w - start_time) + 9) / 10 <= 0).
  { apply Z.lt_succ_r. apply Z.div_lt_upper_bound; lia. }
  lia.
Qed.

(** With a certificate that never gets ready and never shows an error,
    on a clock that only moves in [time.sleep(10)], the loop makes all
    the passes that are left, two commands each. *)
Lemma wait_for_certificate_times_out self test_name timeout_seconds start_time :
  (forall n, reports_ready (command env n (readiness_query test_name)) = false) ->
  (forall n, reports_error (command env n (describe_query test_name)) = false) ->
  (forall n, command_seconds env n = 0%nat) ->
  forall fuel w,
    (passes_left timeout_seconds start_time w < fuel)%nat ->
    exists w',
      wait_for_certificate env fuel self test_name timeout_seconds start_time w
      = Some (LeftLoop w')
      /\ List.length (history w')
         = (List.length (history w)
            + 2 * passes_left timeout_seconds start_time w)%nat
      /\ clock w'
         = clock w + 10 * Z.of_nat (passes_left timeout_seconds start_time w).
Proof.
  intros Hnever Hclean Hquick.
  induction fuel as [|fuel IH]; intros w Hfuel; [lia|].
  destruct (Z.lt_ge_cases (clock w - start_time) timeout_seconds) as [Hlt | Hge].
  - pose proof (wait_for_certificate_pass fuel self test_name timeout_seconds
                  start_time w Hlt) as Hpass.
    cbv zeta in Hpass. rewrite Hnever, Hclean, !Hquick in Hpass.
    destruct Hpass as (w1 & Hh & Hc & ->).
    assert (Hc' : clock w1 = clock w) by (rewrite Hc; cbn; lia).
    pose proof (passes_left_sleep_exact timeout_seconds start_time w w1 Hlt Hc')
      as Hleft.
    destruct (IH (sleep 10 w1)) as (w' & -> & Hlen & Hclock); [lia|].
    exists w'. split; [reflexivity|].
    cbn [sleep history clock] in Hlen, Hclock. split.
    + rewrite Hlen, Hh, length_app. cbn [List.length]. lia.
    + rewrite Hclock, Hc'. lia.
  - rewrite wait_for_certificate_over by exact Hge.
    rewrite passes_left_over by exact Hge.
    exists w. split; [reflexivity|]. split; lia.
Qed.

(** [test_certificate_issuance] from its first command to its last. *)
Lemma test_certificate_issuance_spec fuel timeout_seconds self w :
  let test_name := name_at w in
  let applied := command env (List.length (history w)) (apply_command test_name) in
  exists w1,
    history w1 = (history w ++ [(apply_command test_name, applied)])%list
    /\ clock w1
       = clock w + Z.of_nat (command_seconds env (List.length (history w)))
    /\ if returncode applied =? 0
       then
         test_certificate_issuance env fuel timeout_seconds self w
         = match wait_for_certificate env fuel self test_name timeout_seconds
                   (clock w1) w1 with
           | Some (Issued self' w') => Some (Returned true, self', w')
           | Some (LeftLoop w') =>
               let w' :=
                 print (Bad ("Certificate issuance timed out after "
                             ++ decimal timeout_seconds ++ " seconds")) w' in
               Some (Returned false,
                     record_result self ("Certificate Issuance Test", false),
                     snd (run_kubectl env ["delete"; "certificate"; test_name]
                            false w'))
           | None => None
           end
       else
         exists w',
           test_certificate_issuance env fuel timeout_seconds self w
           = Some (Returned false, self, w')
           /\ history w' = history w1.
Proof.
  intros test_name applied. unfold test_certificate_issuance. cbv zeta.
  destruct (run_kubectl_spec env
              ["apply"; "-f";
               "/tmp/"
               ++ ("test-cert-"
                   ++ decimal (clock (print (Plain "Testing certificate issuance...") w)))
               ++ ".yaml"] true
              (print (Plain "Testing certificate issuance...") w))
    as (w1 & -> & Hh1 & Hc1).
  cbn [print history clock] in Hh1, Hc1 |- *.
  fold (name_at w) in Hh1 |- *. fold test_name in Hh1 |- *.
  fold (apply_command test_name) in Hh1 |- *. fold applied in Hh1 |- *.
  destruct (returncode applied =? 0); cbn [andb negb].
  - exists (print (Good ("Created test certificate: " ++ test_name)) w1).
    cbn [print history clock].
    split; [exact Hh1|]. split; [exact Hc1|].
    destruct (wait_for_certificate env fuel self test_name timeout_seconds
                (clock w1) _) as [[self' w' | w']|]; reflexivity.
  - exists w1. split; [exact Hh1|]. split; [exact Hc1|].
    exists w1. split; reflexivity.
Qed.

Lemma error_answer_describe test_name r :
  error_answer test_name (describe_query test_name, r) = reports_error r.
Proof.
  unfold error_answer, is_describe. cbn [fst snd].
  destruct (list_eq_dec string_dec _ _); [reflexivity | congruence].
Qed.

Lemma error_answer_other test_name cmd r :
  cmd <> describe_query test_name ->
  error_answer test_name (cmd, r) = false.
Proof.
  intros H. unfold error_answer, is_describe. cbn [fst snd].
  destruct (list_eq_dec string_dec _ _); [congruence | reflexivity].
Qed.

Lemma readiness_is_no_describe test_name :
  readiness_query test_name <> describe_query test_name.
Proof. unfold describe_query, readiness_query. discriminate. Qed.

Lemma delete_is_no_describe test_name :
  delete_command test_name <> describe_query test_name.
Proof. unfold delete_command, describe_query. discriminate. Qed.

Lemma apply_is_no_describe test_name test_name' :
  apply_command test_name <> describe_query test_name'.
Proof. unfold apply_command, describe_query. discriminate. Qed.

(** The account of the waiting loop: a describe that shows an error is
    the last command of the loop, and the loop has slept ten seconds
    after every describe that showed none. *)
Lemma wait_for_certificate_account self test_name timeout_seconds start_time :
  forall fuel w,
    match wait_for_certificate env fuel self test_name timeout_seconds start_time w with
    | None => True
    | Some (Issued _ w') =>
        exists (calls : list Call) r1 r2,
          history w'
          = (history w ++ calls
             ++ [(readiness_query test_name, r1); (delete_command test_name, r2)])%list
          /\ existsb (error_answer test_name) calls = false
    | Some (LeftLoop w') =>
        exists (calls : list Call),
          history w' = (history w ++ calls)%list
          /\ existsb (error_answer test_name) (removelast calls) = false
          /\ clock w'
             = clock w + seconds env (List.length (history w)) (List.length calls)
               + 10 * Z.of_nat (sleeps test_name calls)
    end.
Proof.
  induction fuel as [|fuel IH]; intros w; [exact I|].
  destruct (Z.lt_ge_cases (clock w - start_time) timeout_seconds) as [Hlt | Hge].
  - pose proof (wait_for_certificate_pass fuel self test_name timeout_seconds
                  start_time w Hlt) as Hpass.
    cbv zeta in Hpass.
    destruct (reports_ready _) eqn:Hready.
    + destruct Hpass as (w' & -> & Hh & _).
      exists []. do 2 eexists. split; [exact Hh | reflexivity].
    + destruct Hpass as (w' & Hh & Hc & ->).
      set (n := List.length (history w)) in *.
      set (r1 := command env n (readiness_query test_name)) in *.
      set (r2 := command env (S n) (describe_query test_name)) in *.
      change (list (list string * CompletedProcess)) with (list Call) in *.
      set (pass := [(readiness_query test_name, r1);
                    (describe_query test_name, r2)] : list Call) in *.
      assert (Hsec : seconds env n 2
                     = Z.of_nat (command_seconds env n)
                       + Z.of_nat (command_seconds env (S n)))
        by (cbn [seconds]; lia).
      destruct (reports_error r2) eqn:Herr.
      * exists pass. split; [exact Hh|]. split.
        -- unfold pass. cbn [removelast existsb].
           rewrite error_answer_other by apply readiness_is_no_describe.
           reflexivity.
        -- unfold pass. cbn [List.length]. rewrite Hsec, Hc, !sleeps_cons.
           rewrite is_describe_other by apply readiness_is_no_describe.
           rewrite is_describe_describe. cbn [snd andb].
           rewrite Herr. cbn. lia.
      * assert (Hquiet : existsb (error_answer test_name) pass = false).
        { unfold pass. cbn [existsb].
          rewrite error_answer_other by apply readiness_is_no_describe.
          rewrite error_answer_describe, Herr. reflexivity. }
        assert (Hslept : forall calls : list Call,
                   sleeps test_name (pass ++ calls) = S (sleeps test_name calls)).
        { intros calls. unfold pass. cbn [app]. rewrite !sleeps_cons.
          rewrite is_describe_other by apply readiness_is_no_describe.
          rewrite is_describe_describe. cbn [snd andb].
          rewrite Herr. reflexivity. }
        assert (Hlen : List.length (history w') = (n + 2)%nat).
        { rewrite Hh, length_app. reflexivity. }
        specialize (IH (sleep 10 w')).
        destruct (wait_for_certificate env fuel self test_name timeout_seconds
                    start_time (sleep 10 w')) as [[self' w'' | w'']|];
          [| |exact I]; cbn [sleep history clock] in IH.
        -- destruct IH as (calls & q1 & q2 & Hh' & Hnone).
           exists (pass ++ calls)%list, q1, q2. split.
           ++ rewrite Hh', Hh, <- app_assoc. reflexivity.
           ++ rewrite existsb_app. apply orb_false_iff. split; assumption.
        -- destruct IH as (calls & Hh' & Hnone & Hclock).
           exists (pass ++ calls)%list. split; [|split].
           ++ rewrite Hh', Hh, <- app_assoc. reflexivity.
           ++ destruct calls as [|c calls].
              ** rewrite app_nil_r. now apply existsb_removelast.
              ** rewrite removelast_app by discriminate.
                 rewrite existsb_app. apply orb_false_iff. split; assumption.
           ++ rewrite Hclock, Hlen, Hslept, length_app, seconds_of_commands_app, Hc.
              change (@List.length (list string * CompletedProcess))
                with (@List.length Call).
              replace (List.length pass) with 2%nat by reflexivity.
              rewrite Hsec. lia.
  - rewrite wait_for_certificate_over by exact Hge.
    exists []. split; [now rewrite app_nil_r|]. split; [reflexivity|].
    cbn. lia.
Qed.

End Issuance.

(** X20.  [test_certificate_issuance] returns for every behaviour of the
    cluster, with a loop bound of one pass per ten seconds of the budget,
    and never raises.  When the apply of the test certificate fails it
    returns False after that one command and records nothing; when the
    apply succeeds the last command of the test is the deletion of the
    test certificate, and the returned value is recorded once as
    "Certificate Issuance Test". *)
Theorem certificate_test_returns_and_cleans_up env fuel timeout_seconds self w :
  (passes timeout_seconds < fuel)%nat ->
  let test_name := name_at w in
  let applied := command env (List.length (history w)) (apply_command test_name) in
  exists success self' w',
    test_certificate_issuance env fuel timeout_seconds self w
    = Some (Returned success, self', w')
    /\ if returncode applied =? 0
       then self' = record_result self ("Certificate Issuance Test", success)
            /\ exists calls r,
                 history w'
                 = (history w ++ (apply_command test_name, applied) :: calls
                    ++ [(delete_command test_name, r)])%list
       else success = false /\ self' = self
            /\ history w'
               = (history w ++ [(apply_command test_name, applied)])%list.
Proof.
  intros Hfuel test_name applied.
  destruct (test_certificate_issuance_spec env fuel timeout_seconds self w)
    as (w1 & Hh1 & _ & Hrun).
  fold test_name in Hh1, Hrun. fold applied in Hh1, Hrun.
  destruct (returncode applied =? 0).
  - destruct (wait_for_certificate_returns env self test_name timeout_seconds
                (clock w1) fuel w1) as (outcome & Hout).
    { unfold passes_left. replace (timeout_seconds - (clock w1 - clock w1))
        with timeout_seconds by lia. exact Hfuel. }
    pose proof (wait_for_certificate_outcome env self test_name timeout_seconds
                  (clock w1) fuel w1) as Hspec.
    rewrite Hout in Hrun, Hspec. destruct outcome as [self' w' | w'].
    + destruct Hspec as (-> & calls & r1 & r2 & Hh & _ & _).
      exists true. do 2 eexists. split; [exact Hrun|]. split; [reflexivity|].
      exists (calls ++ [(readiness_query test_name, r1)])%list, r2.
      rewrite Hh, Hh1, <- !app_assoc. reflexivity.
    + destruct Hspec as (calls & Hh & _).
      cbv zeta in Hrun.
      destruct (run_kubectl_spec env ["delete"; "certificate"; test_name] false
                  (print (Bad ("Certificate issuance timed out after "
                               ++ decimal timeout_seconds ++ " seconds")) w'))
        as (w2 & Hdel & Hh2 & _).
      rewrite Hdel in Hrun. cbn [snd] in Hrun.
      exists false. do 2 eexists. split; [exact Hrun|]. split; [reflexivity|].
      exists calls. eexists. cbn [print history] in Hh2.
      fold (delete_command test_name) in Hh2.
      rewrite Hh2, Hh, Hh1, <- !app_assoc. reflexivity.
  - destruct Hrun as (w' & Hrun & Hh).
    exists false, self, w'. split; [exact Hrun|].
    split; [reflexivity|]. split; [reflexivity|]. now rewrite Hh.
Qed.

(** X21.  [test_certificate_issuance] returns True exactly when one of
    the readiness queries it made for its test certificate came back with
    status 0 and the output "True"; nothing else it runs (the apply, the
    describe, the delete) can make the test pass. *)
Theorem certificate_test_passes_on_ready_answer_only
    env fuel timeout_seconds self w report self' w' calls :
  test_certificate_issuance env fuel timeout_seconds self w
  = Some (report, self', w') ->
  history w' = (history w ++ calls)%list ->
  report = Returned (existsb (ready_answer (name_at w)) calls).
Proof.
  intros Hrun Hcalls.
  destruct (test_certificate_issuance_spec env fuel timeout_seconds self w)
    as (w1 & Hh1 & _ & Hspec).
  set (test_name := name_at w) in *.
  set (applied := command env (List.length (history w)) (apply_command test_name)) in *.
  assert (Happly : ready_answer test_name (apply_command test_name, applied) = false)
    by (apply ready_answer_other, apply_is_no_readiness_query).
  destruct (returncode applied =? 0).
  - pose proof (wait_for_certificate_outcome env self test_name timeout_seconds
                  (clock w1) fuel w1) as Hout.
    rewrite Hspec in Hrun.
    destruct (wait_for_certificate env fuel self test_name timeout_seconds
                (clock w1) w1) as [[self'' w'' | w'']|]; [| |discriminate].
    + destruct Hout as (_ & calls' & r1 & r2 & Hh & Hready & Hnone).
      injection Hrun as <- _ <-.
      rewrite Hh, Hh1, <- app_assoc in Hcalls.
      apply app_inv_head in Hcalls. subst calls.
      cbn [app existsb]. rewrite Happly, existsb_app. cbn [existsb orb].
      rewrite ready_answer_readiness, Hready, Hnone. reflexivity.
    + destruct Hout as (calls' & Hh & Hnone).
      cbv zeta in Hrun.
      destruct (run_kubectl_spec env ["delete"; "certificate"; test_name] false
                  (print (Bad ("Certificate issuance timed out after "
                               ++ decimal timeout_seconds ++ " seconds")) w''))
        as (w2 & Hdel & Hh2 & _).
      rewrite Hdel in Hrun. cbn [snd] in Hrun.
      injection Hrun as <- _ <-.
      cbn [print history] in Hh2. fold (delete_command test_name) in Hh2.
      rewrite Hh2, Hh, Hh1, <- !app_assoc in Hcalls.
      apply app_inv_head in Hcalls. subst calls.
      cbn [app existsb]. rewrite Happly, existsb_app. cbn [existsb orb].
      rewrite ready_answer_other by apply delete_is_no_readiness_query.
      rewrite Hnone. reflexivity.
  - destruct Hspec as (w2 & Hrun' & Hh).
    rewrite Hrun' in Hrun. injection Hrun as <- _ <-.
    rewrite Hh, Hh1 in Hcalls. apply app_inv_head in Hcalls. subst calls.
    cbn [existsb]. rewrite Happly. reflexivity.
Qed.

(** X22.  When the test certificate never gets ready and its description
    never shows an error, on a clock that only moves in [time.sleep(10)],
    the test gives up after ceil(T/10) passes of two commands each: it
    returns False, records the failure, has run 2 + 2*ceil(T/10) commands
    (the apply and the delete included) and has waited 10*ceil(T/10)
    seconds. *)
Theorem certificate_test_times_out env fuel timeout_seconds self w :
  let test_name := name_at w in
  (forall n, reports_ready (command env n (readiness_query test_name)) = false) ->
  (forall n, reports_error (command env n (describe_query test_name)) = false) ->
  (forall n, command_seconds env n = 0%nat) ->
  returncode (command env (List.length (history w)) (apply_command test_name)) = 0 ->
  (passes timeout_seconds < fuel)%nat ->
  exists w',
    test_certificate_issuance env fuel timeout_seconds self w
    = Some (Returned false,
            record_result self ("Certificate Issuance Test", false), w')
    /\ List.length (history w')
       = (List.length (history w) + 2 + 2 * passes timeout_seconds)%nat
    /\ clock w' = clock w + 10 * Z.of_nat (passes timeout_seconds).
Proof.
  intros test_name Hnever Hclean Hquick Happly Hfuel.
  destruct (test_certificate_issuance_spec env fuel timeout_seconds self w)
    as (w1 & Hh1 & Hc1 & Hspec).
  fold test_name in Hh1, Hspec. rewrite Happly in Hspec. cbn [Z.eqb] in Hspec.
  rewrite Hquick in Hc1.
  assert (Hleft : passes_left timeout_seconds (clock w1) w1 = passes timeout_seconds).
  { unfold passes_left. f_equal. lia. }
  destruct (wait_for_certificate_times_out env self test_name timeout_seconds
              (clock w1) Hnever Hclean Hquick fuel w1) as (w2 & Hwait & Hlen & Hclock).
  { rewrite Hleft. exact Hfuel. }
  rewrite Hleft in Hlen, Hclock.
  rewrite Hwait in Hspec. cbv zeta in Hspec.
  destruct (run_kubectl_spec env ["delete"; "certificate"; test_name] false
              (print (Bad ("Certificate issuance timed out after "
                           ++ decimal timeout_seconds ++ " seconds")) w2))
    as (w3 & Hdel & Hh3 & Hc3).
  rewrite Hdel in Hspec. cbn [snd] in Hspec.
  exists w3. split; [exact Hspec|].
  cbn [print history clock] in Hh3, Hc3. rewrite Hquick in Hc3. split.
  - rewrite Hh3, length_app, Hlen, Hh1, length_app. cbn [List.length]. lia.
  - rewrite Hc3, Hclock, Hc1. cbn. lia.
Qed.

(** C4, amended.  In [test_certificate_issuance], a describe of the test
    certificate that goes through and shows "Error" ends the test: the
    only command run after it is the deletion of the test certificate,
    nothing is slept after it (the time of the run is that of its commands
    and ten seconds for each describe made before), the failure is
    recorded and the method returns [False].  The test returns for every
    behaviour of the cluster.  Nothing bounds the time by the budget: the
    error is acted on when it is seen, however long the commands before it
    took.  The polling loop of the deployer has no such exit: when it
    returns [False] the whole budget has elapsed. *)
Theorem terminal_error_ends_certificate_test
    (env : Environment) fuel timeout_seconds self w
    (cluster : Deployer.Environment) cluster_fuel resource_type expected
    monitor_start resource_details last_status cw last_status' cw' :
  (passes timeout_seconds < fuel)%nat ->
  Deployer.monitor_loop cluster cluster_fuel resource_type expected monitor_start
    resource_details last_status cw
  = Some ((false, last_status'), cw') ->
  (exists report self' w' (added : list Call),
     test_certificate_issuance env fuel timeout_seconds self w
     = Some (report, self', w')
     /\ history w' = (history w ++ added)%list
     /\ forall before r after,
          added = (before ++ (describe_query (name_at w), r) :: after)%list ->
          reports_error r = true ->
          report = Returned false
          /\ self' = record_result self ("Certificate Issuance Test", false)
          /\ (exists r', after = [(delete_command (name_at w), r')])
          /\ clock w'
             = clock w
               + seconds env (List.length (history w)) (List.length added)
               + 10 * Z.of_nat (describes (name_at w) before))
  /\ expected <= Deployer.clock cw' - monitor_start.
Proof.
  intros Hfuel Hloop. split;
    [|exact (DeployerProps.monitor_loop_false_after_budget cluster resource_type
               expected monitor_start resource_details cluster_fuel last_status cw
               last_status' cw' Hloop)].
  destruct (test_certificate_issuance_spec env fuel timeout_seconds self w)
    as (w1 & Hh1 & Hc1 & Hspec).
  set (test_name := name_at w) in *.
  set (n := List.length (history w)) in *.
  set (applied := command env n (apply_command test_name)) in *.
  assert (Happly : error_answer test_name (apply_command test_name, applied)
                   = false)
    by (apply error_answer_other, apply_is_no_describe).
  assert (Hfound : forall (l before after : list Call) r,
             l = (before ++ (describe_query test_name, r) :: after)%list ->
             reports_error r = true ->
             existsb (error_answer test_name) l = true).
  { intros l before after r -> Herr. rewrite existsb_app. cbn [existsb].
    rewrite error_answer_describe, Herr. now rewrite orb_true_r. }
  destruct (returncode applied =? 0).
  - destruct (wait_for_certificate_returns env self test_name timeout_seconds
                (clock w1) fuel w1) as (outcome & Hout).
    { unfold passes_left. replace (timeout_seconds - (clock w1 - clock w1))
        with timeout_seconds by lia. exact Hfuel. }
    pose proof (wait_for_certificate_account env self test_name timeout_seconds
                  (clock w1) fuel w1) as Hacc.
    rewrite Hout in Hspec, Hacc. destruct outcome as [self' w' | w'].
    + destruct Hacc as (calls & r1 & r2 & Hh & Hnone).
      exists (Returned true), self', w',
        ((apply_command test_name, applied)
         :: calls ++ [(readiness_query test_name, r1);
                      (delete_command test_name, r2)])%list.
      split; [exact Hspec|]. split.
      * rewrite Hh, Hh1, <- app_assoc. reflexivity.
      * intros before r after Hsplit Herr. exfalso.
        pose proof (Hfound _ _ _ _ Hsplit Herr) as Hyes.
        cbn [existsb] in Hyes. rewrite Happly, existsb_app, Hnone in Hyes.
        cbn [existsb orb] in Hyes.
        rewrite error_answer_other in Hyes by apply readiness_is_no_describe.
        rewrite error_answer_other in Hyes by apply delete_is_no_describe.
        discriminate.
    + destruct Hacc as (calls & Hh & Hnone & Hclock).
      cbv zeta in Hspec.
      destruct (run_kubectl_spec env ["delete"; "certificate"; test_name] false
                  (print (Bad ("Certificate issuance timed out after "
                               ++ decimal timeout_seconds ++ " seconds")) w'))
        as (w2 & Hdel & Hh2 & Hc2).
      rewrite Hdel in Hspec. cbn [snd] in Hspec.
      cbn [print history clock] in Hh2, Hc2.
      fold (delete_command test_name) in Hh2.
      set (r' := command env (List.length (history w'))
                   (delete_command test_name)) in *.
      exists (Returned false),
        (record_result self ("Certificate Issuance Test", false)), w2,
        ((apply_command test_name, applied)
         :: calls ++ [(delete_command test_name, r')])%list.
      split; [exact Hspec|]. split.
      * rewrite Hh2, Hh, Hh1, <- !app_assoc. reflexivity.
      * intros before r after Hsplit Herr.
        pose proof (Hfound _ _ _ _ Hsplit Herr) as Hyes.
        destruct (exists_last (l := calls)) as (prev & c & Hcalls).
        { intros ->. cbn [app existsb] in Hyes. rewrite Happly in Hyes.
          rewrite error_answer_other in Hyes by apply delete_is_no_describe.
          discriminate. }
        subst calls. rewrite removelast_last in Hnone.
        destruct (split_unique (error_answer test_name)
                    (describe_query test_name, r) c
                    [(delete_command test_name, r')] after
                    ((apply_command test_name, applied) :: prev) before)
          as (-> & <- & ->).
        { cbn [existsb]. now rewrite Happly, Hnone. }
        { cbn [existsb].
          rewrite error_answer_other by apply delete_is_no_describe.
          reflexivity. }
        { now rewrite error_answer_describe. }
        { etransitivity; [|exact Hsplit]. cbn [app]. now rewrite <- app_assoc. }
        split; [reflexivity|]. split; [reflexivity|]. split; [now exists r'|].
        assert (Hlen1 : List.length (history w1) = S n).
        { rewrite Hh1, length_app. cbn [List.length]. unfold n. lia. }
        assert (Hlen' : List.length (history w')
                        = (S n + List.length (prev ++ [(describe_query test_name, r)]))%nat).
        { rewrite Hh, length_app, Hlen1. reflexivity. }
        rewrite Hc2, Hclock, Hc1, Hlen1, Hlen'.
        rewrite sleeps_app, sleeps_cons, is_describe_describe. cbn [snd andb].
        rewrite Herr. cbn [negb sleeps filter List.length].
        rewrite (sleeps_without_errors test_name prev Hnone).
        rewrite describes_cons.
        rewrite is_describe_other by apply apply_is_no_describe.
        cbn [List.length].
        rewrite !length_app. cbn [List.length].
        change (@List.length (list string * CompletedProcess))
          with (@List.length Call).
        generalize (List.length prev). intros m.
        cbn [seconds]. rewrite !seconds_of_commands_app. cbn [seconds]. lia.
  - destruct Hspec as (w' & Hrun & Hh).
    exists (Returned false), self, w', [(apply_command test_name, applied)].
    split; [exact Hrun|]. split; [now rewrite Hh, Hh1|].
    intros before r after Hsplit Herr. exfalso.
    pose proof (Hfound _ _ _ _ Hsplit Herr) as Hyes.
    cbn [existsb] in Hyes. rewrite Happly in Hyes. discriminate.
Qed.

(** ** Concrete runs *)

(** A cluster that issues the test certificate at once. *)
Definition issuing : Environment :=
  {| command := fun _ cmd =>
       match cmd with
       | _ :: verb :: _ =>
           if String.eqb verb "get" then completed "True" else completed ""
       | _ => completed ""
       end;
     command_seconds := fun _ => 1%nat;
     decode_pods := fun _ => JSONDecodeError;
     decode_issuers := fun _ => JSONDecodeError;
     decode_service_account := fun _ => JSONDecodeError;
     decode_records := fun _ => JSONDecodeError |}.

(** A cluster on which the test certificate stays pending, with commands
    that take no time. *)
Definition pending : Environment :=
  {| command := fun _ cmd =>
       match cmd with
       | _ :: verb :: _ =>
           if String.eqb verb "get" then completed "False"
           else completed "Status: Issuing"
       | _ => completed ""
       end;
     command_seconds := fun _ => 0%nat;
     decode_pods := fun _ => JSONDecodeError;
     decode_issuers := fun _ => JSONDecodeError;
     decode_service_account := fun _ => JSONDecodeError;
     decode_records := fun _ => JSONDecodeError |}.

Lemma terminal_error_ends_certificate_test_witness :
  (passes 300 < 31)%nat
  /\ Deployer.monitor_loop DeployerProps.broken 21 "extension" 600 0
       [DeployerProps.flux] "" DeployerProps.fresh
     = Some ((false, "flux: Error: provisioning failed, quota exceeded"),
             DeployerProps.broken_exit_world)
  /\ (exists report self' w' (added : list Call),
        test_certificate_issuance failing_issuance 31 300 new_validator fresh
        = Some (report, self', w')
        /\ history w' = (history fresh ++ added)%list
        /\ forall before r after,
             added = (before ++ (describe_query (name_at fresh), r) :: after)%list ->
             reports_error r = true ->
             report = Returned false
             /\ self' = record_result new_validator
                          ("Certificate Issuance Test", false)
             /\ (exists r', after = [(delete_command (name_at fresh), r')])
             /\ clock w'
                = clock fresh
                  + seconds failing_issuance (List.length (history fresh))
                      (List.length added)
                  + 10 * Z.of_nat (describes (name_at fresh) before))
  /\ 600 <= Deployer.clock DeployerProps.broken_exit_world - 0.
Proof.
  assert (H1 : (passes 300 < 31)%nat) by (vm_compute; lia).
  pose proof DeployerProps.broken_exit as H2.
  split; [exact H1|]. split; [exact H2|].
  exact (terminal_error_ends_certificate_test failing_issuance 31 300
           new_validator fresh DeployerProps.broken 21 "extension" 600 0
           [DeployerProps.flux] "" DeployerProps.fresh
           "flux: Error: provisioning failed, quota exceeded"
           DeployerProps.broken_exit_world H1 H2).
Defined.

(** On that cluster the describe of the first pass shows the error: it is
    the third command of the test, after the apply and the readiness
    query, and the delete is the only command after it. *)
Example error_on_first_pass :
  match test_certificate_issuance failing_issuance 31 300 new_validator fresh with
  | Some (report, _, w') =>
      report = Returned false
      /\ map fst (history w')
         = [apply_command (name_at fresh); readiness_query (name_at fresh);
            describe_query (name_at fresh); delete_command (name_at fresh)]
      /\ option_map (fun c => reports_error (snd c)) (nth_error (history w') 2)
         = Some true
  | None => False
  end.
Proof. vm_compute. repeat split. Qed.

(** The same certificate on a cluster whose readiness query takes 400
    seconds: the error is seen and the test returns [False] 403 seconds
    into a budget of 300. *)
Definition slow_failing_issuance : Environment :=
  {| command := command failing_issuance;
     command_seconds := fun n => if Nat.eqb n 1 then 400%nat else 1%nat;
     decode_pods := decode_pods failing_issuance;
     decode_issuers := decode_issuers failing_issuance;
     decode_service_account := decode_service_account failing_issuance;
     decode_records := decode_records failing_issuance |}.

Example error_seen_after_the_budget :
  match test_certificate_issuance slow_failing_issuance 31 300 new_validator
          fresh with
  | Some (report, self, w') =>
      report = Returned false
      /\ results self = [("Certificate Issuance Test", false)]
      /\ map (fun c => nth 1 (fst c) "") (history w')
         = ["apply"; "get"; "describe"; "delete"]
      /\ clock w' = 403
  | None => False
  end.
Proof. vm_compute. repeat split. Qed.

Lemma certificate_test_returns_and_cleans_up_witness :
  (passes 300 < 31)%nat
  /\ let test_name := name_at fresh in
     let applied :=
       command failing_issuance (List.length (history fresh))
         (apply_command test_name) in
     exists success self' w',
       test_certificate_issuance failing_issuance 31 300 new_validator fresh
       = Some (Returned success, self', w')
       /\ if returncode applied =? 0
          then self' = record_result new_validator
                         ("Certificate Issuance Test", success)
               /\ exists calls r,
                    history w'
                    = (history fresh ++ (apply_command test_name, applied) :: calls
                       ++ [(delete_command test_name, r)])%list
          else success = false /\ self' = new_validator
               /\ history w'
                  = (history fresh ++ [(apply_command test_name, applied)])%list.
Proof.
  assert (H : (passes 300 < 31)%nat) by (vm_compute; lia).
  split; [exact H|].
  exact (certificate_test_returns_and_cleans_up failing_issuance 31 300
           new_validator fresh H).
Defined.

Definition issued : World :=
  Eval vm_compute in
    match test_certificate_issuance issuing 31 300 new_validator fresh with
    | Some (_, _, w) => w
    | None => fresh
    end.

Lemma issued_eq :
  test_certificate_issuance issuing 31 300 new_validator fresh
  = Some (Returned true,
          record_result new_validator ("Certificate Issuance Test", true),
          issued).
Proof. vm_compute. reflexivity. Qed.

Lemma certificate_test_passes_on_ready_answer_only_witness :
  test_certificate_issuance issuing 31 300 new_validator fresh
  = Some (Returned true,
          record_result new_validator ("Certificate Issuance Test", true),
          issued)
  /\ history issued = (history fresh ++ history issued)%list
  /\ Returned true
     = Returned (existsb (ready_answer (name_at fresh)) (history issued)).
Proof.
  assert (H : history issued = (history fresh ++ history issued)%list)
    by reflexivity.
  split; [exact issued_eq|]. split; [exact H|].
  exact (certificate_test_passes_on_ready_answer_only issuing 31 300
           new_validator fresh _ _ issued (history issued) issued_eq H).
Defined.

(** On the issuing cluster the test runs three commands: the apply, one
    readiness query and the delete. *)
Example issued_at_first_query :
  map fst (history issued)
  = [apply_command "test-cert-0"; readiness_query "test-cert-0";
     delete_command "test-cert-0"].
Proof. vm_compute. reflexivity. Qed.

Lemma certificate_test_times_out_witness :
  (forall n,
     reports_ready (command pending n (readiness_query (name_at fresh))) = false)
  /\ (forall n,
        reports_error (command pending n (describe_query (name_at fresh))) = false)
  /\ (forall n, command_seconds pending n = 0%nat)
  /\ returncode (command pending (List.length (history fresh))
                   (apply_command (name_at fresh))) = 0
  /\ (passes 300 < 31)%nat
  /\ exists w',
       test_certificate_issuance pending 31 300 new_validator fresh
       = Some (Returned false,
               record_result new_validator ("Certificate Issuance Test", false),
               w')
       /\ List.length (history w')
          = (List.length (history fresh) + 2 + 2 * passes 300)%nat
       /\ clock w' = clock fresh + 10 * Z.of_nat (passes 300).
Proof.
  assert (H1 : forall n,
             reports_ready (command pending n (readiness_query (name_at fresh)))
             = false) by (intros n; vm_compute; reflexivity).
  assert (H2 : forall n,
             reports_error (command pending n (describe_query (name_at fresh)))
             = false) by (intros n; vm_compute; reflexivity).
  assert (H3 : forall n, command_seconds pending n = 0%nat)
    by (intros n; reflexivity).
  assert (H4 : returncode (command pending (List.length (history fresh))
                             (apply_command (name_at fresh))) = 0)
    by (vm_compute; reflexivity).
  assert (H5 : (passes 300 < 31)%nat) by (vm_compute; lia).
  split; [exact H1|]. split; [exact H2|]. split; [exact H3|].
  split; [exact H4|]. split; [exact H5|].
  exact (certificate_test_times_out pending 31 300 new_validator fresh
           H1 H2 H3 H4 H5).
Defined.

(** With the default budget of 300 seconds that is 30 passes and 62
    commands. *)
Example default_budget_is_thirty_passes :
  passes 300 = 30%nat
  /\ option_map (fun r => List.length (history (snd r)))
       (test_certificate_issuance pending 31 300 new_validator fresh)
     = Some 62%nat.
Proof. vm_compute. split; reflexivity. Qed.

End IssuanceBehaviour.

(** * The report sections of the Istio test suite *)

Module IstioReport.

Import Istio.

(** The dictionary returned by [categorize_results]. *)
Record Categories := mkCategories {
  control_plane : list TestResult;
  traffic_management : list TestResult;
  security : list TestResult;
  observability : list TestResult;
  performance : list TestResult;
  external_services : list TestResult
}.

Definition no_categories : Categories :=
  {| control_plane := []; traffic_management := []; security := [];
     observability := []; performance := []; external_services := [] |}.

(** The body of the [for test in self.test_results] loop of
    [categorize_results]. *)
Definition categorize (categories : Categories) (t : TestResult) : Categories :=
  let test_name := test t in
  if Py.contains "control_plane" test_name || Py.contains "sidecar" test_name then
    {| control_plane := control_plane categories ++ [t];
       traffic_management := traffic_management categories;
       security := security categories;
       observability := observability categories;
       performance := performance categories;
       external_services := external_services categories |}
  else if Py.contains "gateway" test_name || Py.contains "canary" test_name
          || Py.contains "destination_rule" test_name then
    {| control_plane := control_plane categories;
       traffic_management := traffic_management categories ++ [t];
       security := security categories;
       observability := observability categories;
       performance := performance categories;
       external_services := external_services categories |}
  else if Py.contains "isolation" test_name || Py.contains "mtls" test_name then
    {| control_plane := control_plane categories;
       traffic_management := traffic_management categories;
       security := security categories ++ [t];
       observability := observability categories;
       performance := performance categories;
       external_services := external_services categories |}
  else if Py.contains "observability" test_name || Py.contains "metrics" test_name then
    {| control_plane := control_plane categories;
       traffic_management := traffic_management categories;
       security := security categories;
       observability := observability categories ++ [t];
       performance := performance categories;
       external_services := external_services categories |}
  else if Py.contains "performance" test_name then
    {| control_plane := control_plane categories;
       traffic_management := traffic_management categories;
       security := security categories;
       observability := observability categories;
       performance := performance categories ++ [t];
       external_services := external_services categories |}
  else if Py.contains "external" test_name then
    {| control_plane := control_plane categories;
       traffic_management := traffic_management categories;
       security := security categories;
       observability := observability categories;
       performance := performance categories;
       external_services := external_services categories ++ [t] |}
  else categories.

(** [categorize_results]. *)
Definition categorize_results (self : Suite) : Categories :=
  fold_left categorize (test_results self) no_categories.

(** The [severity_weights] dictionary of [calculate_risk_level]. *)
Definition severity_weights : list (string * Z) :=
  [("CRITICAL", 40); ("HIGH", 20); ("MEDIUM", 10); ("LOW", 5)].

(** [d.get(key)] on a dictionary given by its items. *)
Fixpoint get {A} (d : list (string * A)) (key : string) : option A :=
  match d with
  | [] => None
  | (k, v) :: d => if String.eqb k key then Some v else get d key
  end.

(** The [risk_score] summed over the findings (every finding the suite
    stores has a severity, so the default of [finding.get] is not used). *)
Definition risk_score (findings : list Finding) : Z :=
  fold_left
    (fun risk_score finding =>
       risk_score + Py.get_default (get severity_weights (severity finding)) 0)
    findings 0.

(** [calculate_risk_level]. *)
Definition calculate_risk_level (self : Suite) : string :=
  let risk_score := risk_score (security_findings self) in
  if risk_score >=? 100 then "CRITICAL"
  else if risk_score >=? 60 then "HIGH"
  else if risk_score >=? 30 then "MEDIUM"
  else "LOW".

(** An entry of a list of recommendations; the security recommendations
    have no ["category"]. *)
Record Recommendation := mkRecommendation {
  category : option string;
  priority : string;
  recommendation : string;
  impact : string
}.

Definition has_type (name : string) (findings : list Finding) : bool :=
  existsb (fun f => String.eqb (finding_type f) name) findings.

(** [generate_security_recommendations]. *)
Definition generate_security_recommendations (self : Suite) : list Recommendation :=
  let recommendations := [] in
  let recommendations :=
    if has_type "missing_authorization_policy" (security_findings self)
    then (recommendations
          ++ [{| category := None;
                 priority := "HIGH";
                 recommendation :=
                   "Implement AuthorizationPolicy resources in all namespaces";
                 impact :=
                   "Ensures proper namespace isolation and zero-trust architecture" |}])%list
    else recommendations in
  let recommendations :=
    if has_type "mtls_not_strict" (security_findings self)
    then (recommendations
          ++ [{| category := None;
                 priority := "MEDIUM";
                 recommendation := "Configure STRICT mTLS mode across the mesh";
                 impact := "Ensures encrypted communication between all services" |}])%list
    else recommendations in
  recommendations.

(** An entry of [self.performance_metrics]: its type and the two numbers
    the report reads, where the entry has them. *)
Record Metric := mkMetric {
  metric_type : string;
  avg_latency_ms : option float;
  error_rate : option float
}.

Definition baseline_metrics (performance_metrics : list Metric) : list Metric :=
  filter (fun m => String.eqb (metric_type m) "baseline_performance")
    performance_metrics.

(** [xs[-1]] of a list that is not empty. *)
Definition latest (xs : list Metric) : option Metric :=
  match rev xs with
  | [] => None
  | m :: _ => Some m
  end.

(** The dictionary returned by [assess_sla_compliance]; the two verdicts
    are there when a baseline was assessed. *)
Record Sla := mkSla {
  status : string;
  latency_compliant : option bool;
  error_rate_compliant : option bool
}.

(** [assess_sla_compliance]. *)
Definition assess_sla_compliance (performance_metrics : list Metric) : Sla :=
  match performance_metrics with
  | [] => {| status := "NOT_TESTED"; latency_compliant := None;
             error_rate_compliant := None |}
  | _ =>
      match latest (baseline_metrics performance_metrics) with
      | Some latest =>
          let avg_latency := Py.get_default (avg_latency_ms latest) (float_of_Z 0) in
          let error_rate := Py.get_default (error_rate latest) (float_of_Z 0) in
          let latency_compliant := PrimFloat.leb avg_latency (float_of_Z 1000) in
          let error_rate_compliant := PrimFloat.leb error_rate (float_of_Z 5) in
          {| status := if latency_compliant && error_rate_compliant
                       then "COMPLIANT" else "NON_COMPLIANT";
             latency_compliant := Some latency_compliant;
             error_rate_compliant := Some error_rate_compliant |}
      | None => {| status := "NO_DATA"; latency_compliant := None;
                   error_rate_compliant := None |}
      end
  end.

(** The baseline is there and its average latency is above 500 ms. *)
Definition slow_baseline (performance_metrics : list Metric) : bool :=
  match performance_metrics with
  | [] => false
  | _ =>
      match latest (baseline_metrics performance_metrics) with
      | Some latest =>
          PrimFloat.ltb (float_of_Z 500)
            (Py.get_default (avg_latency_ms latest) (float_of_Z 0))
      | None => false
      end
  end.

(** [generate_recommendations]. *)
Definition generate_recommendations
    (self : Suite) (performance_metrics : list Metric) : list Recommendation :=
  let recommendations := [] in
  let failed_tests :=
    map test (filter (fun t => negb (passed t)) (test_results self)) in
  let recommendations :=
    match failed_tests with
    | [] => recommendations
    | _ =>
        (recommendations
         ++ [{| category := Some "Test Failures";
                priority := "HIGH";
                recommendation :=
                  "Address "
                  ++ CertManager.decimal (Z.of_nat (List.length failed_tests))
                  ++ " failed tests: "
                  ++ String.concat ", " (firstn 3 failed_tests)
                  ++ (if Nat.ltb 3 (List.length failed_tests) then "..." else "");
                impact := "Critical functionality may not work as expected" |}])%list
    end in
  let recommendations :=
    match security_findings self with
    | [] => recommendations
    | _ => (recommendations ++ generate_security_recommendations self)%list
    end in
  let recommendations :=
    if slow_baseline performance_metrics
    then (recommendations
          ++ [{| category := Some "Performance";
                 priority := "MEDIUM";
                 recommendation := "Optimize application response times";
                 impact :=
                   "Improve user experience and reduce resource consumption" |}])%list
    else recommendations in
  recommendations.

End IstioReport.

(** * Properties of the report sections *)

Module IstioBehaviour.

Import Istio IstioReport.

(** The first of the six keyword tests of [categorize_results] a test
    name passes, counted from 0; 6 when it passes none. *)
Definition keyword_group (t : TestResult) : nat :=
  let test_name := test t in
  if Py.contains "control_plane" test_name || Py.contains "sidecar" test_name then 0
  else if Py.contains "gateway" test_name || Py.contains "canary" test_name
          || Py.contains "destination_rule" test_name then 1
  else if Py.contains "isolation" test_name || Py.contains "mtls" test_name then 2
  else if Py.contains "observability" test_name || Py.contains "metrics" test_name then 3
  else if Py.contains "performance" test_name then 4
  else if Py.contains "external" test_name then 5
  else 6.

Definition in_group (n : nat) (results : list TestResult) : list TestResult :=
  filter (fun t => Nat.eqb (keyword_group t) n) results.

(** The number of findings of a severity. *)
Definition count (level : string) (findings : list Finding) : Z :=
  Z.of_nat (List.length (with_severity level findings)).

(** The weight of a severity in the risk score. *)
Definition weight (level : string) : Z :=
  Py.get_default (get severity_weights level) 0.

(** The order of the risk levels. *)
Definition level_rank (level : string) : nat :=
  if String.eqb level "CRITICAL" then 3
  else if String.eqb level "HIGH" then 2
  else if String.eqb level "MEDIUM" then 1
  else 0.

Definition level_of (score : Z) : string :=
  if score >=? 100 then "CRITICAL"
  else if score >=? 60 then "HIGH"
  else if score >=? 30 then "MEDIUM"
  else "LOW".

Lemma categorize_adds categories t :
  categorize categories t
  = {| control_plane := control_plane categories ++ in_group 0 [t];
       traffic_management := traffic_management categories ++ in_group 1 [t];
       security := security categories ++ in_group 2 [t];
       observability := observability categories ++ in_group 3 [t];
       performance := performance categories ++ in_group 4 [t];
       external_services := external_services categories ++ in_group 5 [t] |}.
Proof.
  unfold categorize, in_group, keyword_group. cbn [filter]. cbv zeta.
  destruct categories as [c1 c2 c3 c4 c5 c6]. cbn [control_plane
    traffic_management security observability performance external_services].
  destruct (_ || _); [cbn; now rewrite !app_nil_r|].
  destruct (_ || _); [cbn; now rewrite !app_nil_r|].
  destruct (_ || _); [cbn; now rewrite !app_nil_r|].
  destruct (_ || _); [cbn; now rewrite !app_nil_r|].
  destruct (Py.contains "performance" _); [cbn; now rewrite !app_nil_r|].
  destruct (Py.contains "external" _); cbn; now rewrite !app_nil_r.
Qed.

Lemma in_group_cons n t results :
  in_group n (t :: results) = (in_group n [t] ++ in_group n results)%list.
Proof.
  unfold in_group. cbn [filter]. destruct (Nat.eqb _ _); reflexivity.
Qed.

Lemma fold_categorize results :
  forall categories,
    fold_left categorize results categories
    = {| control_plane := control_plane categories ++ in_group 0 results;
         traffic_management := traffic_management categories ++ in_group 1 results;
         security := security categories ++ in_group 2 results;
         observability := observability categories ++ in_group 3 results;
         performance := performance categories ++ in_group 4 results;
         external_services := external_services categories ++ in_group 5 results |}.
Proof.
  induction results as [|t results IH]; intros categories.
  - destruct categories. cbn. now rewrite !app_nil_r.
  - cbn [fold_left]. rewrite IH, categorize_adds.
    cbn [control_plane traffic_management security observability performance
         external_services].
    rewrite !(in_group_cons _ t results), !app_assoc. reflexivity.
Qed.

(** X23.  [categorize_results] files every test result under the first
    keyword group its name passes, in the order of [test_results]: a
    result is listed under one category at most, also when its name has
    keywords of several groups. *)
Theorem categories_by_first_keyword self :
  categorize_results self
  = {| control_plane := in_group 0 (test_results self);
       traffic_management := in_group 1 (test_results self);
       security := in_group 2 (test_results self);
       observability := in_group 3 (test_results self);
       performance := in_group 4 (test_results self);
       external_services := in_group 5 (test_results self) |}.
Proof.
  unfold categorize_results. rewrite fold_categorize. reflexivity.
Qed.

Lemma group_lengths results :
  (List.length (in_group 0 results) + List.length (in_group 1 results)
   + List.length (in_group 2 results) + List.length (in_group 3 results)
   + List.length (in_group 4 results) + List.length (in_group 5 results)
   + List.length (in_group 6 results))%nat
  = List.length results.
Proof.
  induction results as [|t results IH]; [reflexivity|].
  rewrite !(in_group_cons _ t results), !length_app.
  cbn [List.length]. rewrite <- IH.
  assert (Hone :
            (List.length (in_group 0 [t]) + List.length (in_group 1 [t])
             + List.length (in_group 2 [t]) + List.length (in_group 3 [t])
             + List.length (in_group 4 [t]) + List.length (in_group 5 [t])
             + List.length (in_group 6 [t]))%nat = 1%nat).
  { unfold in_group. cbn [filter].
    assert (Hle : (keyword_group t <= 6)%nat).
    { unfold keyword_group. cbv zeta.
      repeat match goal with
             | |- context [if ?b then _ else _] => destruct b
             end; lia. }
    destruct (keyword_group t) as [|[|[|[|[|[|[|k]]]]]]]; cbn; lia. }
  lia.
Qed.

(** X24.  The categories of the report hold every test result once,
    except the results whose names have none of the keywords: these are
    in no category. *)
Theorem uncategorized_results_are_dropped self :
  let categories := categorize_results self in
  (List.length (control_plane categories)
   + List.length (traffic_management categories)
   + List.length (security categories)
   + List.length (observability categories)
   + List.length (performance categories)
   + List.length (external_services categories)
   + List.length (in_group 6 (test_results self)))%nat
  = List.length (test_results self).
Proof.
  cbv zeta. unfold categorize_results. rewrite fold_categorize.
  cbn [control_plane traffic_management security observability performance
       external_services].
  apply group_lengths.
Qed.

(** ** The risk level *)

Lemma weight_cases level :
  weight level
  = if String.eqb level "CRITICAL" then 40
    else if String.eqb level "HIGH" then 20
    else if String.eqb level "MEDIUM" then 10
    else if String.eqb level "LOW" then 5
    else 0.
Proof.
  unfold weight, severity_weights. cbn [get].
  rewrite (String.eqb_sym "CRITICAL"), (String.eqb_sym "HIGH"),
    (String.eqb_sym "MEDIUM"), (String.eqb_sym "LOW").
  repeat match goal with
         | |- context [String.eqb level ?s] => destruct (String.eqb level s)
         end; reflexivity.
Qed.

Lemma weight_nonnegative level : 0 <= weight level.
Proof.
  rewrite weight_cases.
  repeat match goal with
         | |- context [String.eqb level ?s] => destruct (String.eqb level s)
         end; lia.
Qed.

Lemma fold_add {A} (g : A -> Z) (l : list A) :
  forall a,
    fold_left (fun s x => s + g x) l a = a + fold_left (fun s x => s + g x) l 0.
Proof.
  induction l as [|x l IH]; intros a; cbn [fold_left].
  - lia.
  - rewrite IH, (IH (0 + g x)). lia.
Qed.

Lemma risk_score_cons f findings :
  risk_score (f :: findings) = weight (severity f) + risk_score findings.
Proof.
  change (fold_left (fun s x => s + weight (severity x)) findings
            (0 + weight (severity f))
          = weight (severity f)
            + fold_left (fun s x => s + weight (severity x)) findings 0).
  rewrite fold_add. lia.
Qed.

Lemma risk_score_snoc findings f :
  risk_score (findings ++ [f]) = risk_score findings + weight (severity f).
Proof.
  induction findings as [|g findings IH].
  - cbn [app]. rewrite risk_score_cons. unfold risk_score. cbn. lia.
  - cbn [app]. rewrite !risk_score_cons, IH. lia.
Qed.

Lemma count_cons level f findings :
  count level (f :: findings)
  = (if String.eqb (severity f) level then 1 else 0) + count level findings.
Proof.
  unfold count, with_severity. cbn [filter].
  destruct (String.eqb (severity f) level); cbn [List.length]; lia.
Qed.

Lemma risk_score_by_counts findings :
  risk_score findings
  = 40 * count "CRITICAL" findings + 20 * count "HIGH" findings
    + 10 * count "MEDIUM" findings + 5 * count "LOW" findings.
Proof.
  induction findings as [|f findings IH].
  - reflexivity.
  - rewrite risk_score_cons, !count_cons, IH, weight_cases.
    generalize (count "CRITICAL" findings), (count "HIGH" findings),
      (count "MEDIUM" findings), (count "LOW" findings).
    intros c h m l.
    destruct (String.eqb_spec (severity f) "CRITICAL") as [-> | _];
      [cbn [String.eqb Ascii.eqb Bool.eqb andb]; lia|].
    destruct (String.eqb_spec (severity f) "HIGH") as [-> | _];
      [cbn [String.eqb Ascii.eqb Bool.eqb andb]; lia|].
    destruct (String.eqb_spec (severity f) "MEDIUM") as [-> | _];
      [cbn [String.eqb Ascii.eqb Bool.eqb andb]; lia|].
    destruct (String.eqb_spec (severity f) "LOW"); lia.
Qed.



Lemma level_of_monotone a b :
  a <= b -> (level_rank (level_of a) <= level_rank (level_of b))%nat.
Proof.
  intros H. unfold level_of.
  destruct (Z.geb_spec a 100), (Z.geb_spec b 100),
    (Z.geb_spec a 60), (Z.geb_spec b 60),
    (Z.geb_spec a 30), (Z.geb_spec b 30); cbn; lia.
Qed.

(** X25.  The risk level of the report is a function of the numbers of
    CRITICAL, HIGH, MEDIUM and LOW findings alone: their weighted sum
    40c + 20h + 10m + 5l against the thresholds 100, 60 and 30.  A
    finding with any other severity string weighs nothing. *)
Theorem risk_level_by_counts self :
  let findings := security_findings self in
  calculate_risk_level self
  = level_of (40 * count "CRITICAL" findings + 20 * count "HIGH" findings
              + 10 * count "MEDIUM" findings + 5 * count "LOW" findings).
Proof.
  cbv zeta. unfold calculate_risk_level. cbv zeta.
  rewrite risk_score_by_counts. reflexivity.
Qed.


(** X27.  Storing one more finding never lowers the risk level. *)
Theorem finding_never_lowers_risk self level finding_type description remediation :
  (level_rank (calculate_risk_level self)
   <= level_rank
        (calculate_risk_level
           (store_security_finding self level finding_type description
              remediation)))%nat.
Proof.
  unfold calculate_risk_level, store_security_finding. cbv zeta.
  cbn [security_findings]. rewrite risk_score_snoc. cbn [severity].
  apply (level_of_monotone (risk_score (security_findings self))).
  pose proof (weight_nonnegative level). lia.
Qed.

(** ** Recommendations and the SLA *)

Lemma latest_snoc earlier m : latest (earlier ++ [m]) = Some m.
Proof. unfold latest. rewrite rev_app_distr. reflexivity. Qed.

Lemma baseline_metrics_last earlier m later :
  metric_type m = "baseline_performance" ->
  baseline_metrics later = [] ->
  baseline_metrics (earlier ++ m :: later) = (baseline_metrics earlier ++ [m])%list.
Proof.
  intros Hm Hlater. unfold baseline_metrics in *.
  rewrite filter_app. cbn [filter]. rewrite Hm, Hlater. reflexivity.
Qed.

(** X28.  The SLA verdict goes by the latest baseline measurement alone:
    the measurements before it and the entries of other types after it
    do not count. *)
Theorem sla_by_latest_baseline earlier m later :
  metric_type m = "baseline_performance" ->
  baseline_metrics later = [] ->
  assess_sla_compliance (earlier ++ m :: later) = assess_sla_compliance [m].
Proof.
  intros Hm Hlater. unfold assess_sla_compliance.
  rewrite (baseline_metrics_last earlier m later Hm Hlater), latest_snoc.
  assert (Hone : baseline_metrics [m] = [m]).
  { unfold baseline_metrics. cbn [filter]. rewrite Hm. reflexivity. }
  rewrite Hone. change (latest [m]) with (Some m).
  destruct earlier; reflexivity.
Qed.


(** ** Concrete suites *)

(** Five tests passed and one critical finding was stored. *)
Definition breached : Suite :=
  store_security_finding
    (fold_left (fun self name => store_test_result self name true)
       ["control_plane_health"; "gateway_routing_demo"; "mtls_configuration";
        "observability_metrics"; "external_services"]
       new_suite)
    "CRITICAL" "exposed_admin_port" "The admin port is reachable from outside"
    "Restrict the admin port to the mesh".



(** The report of that suite fails on the critical finding, rates the
    risk as MEDIUM and recommends nothing. *)
Example failed_report_of_medium_risk :
  calculate_risk_level breached = "MEDIUM"
  /\ generate_recommendations breached [] = [].
Proof. vm_compute. split; reflexivity. Qed.

Definition baseline (latency errors : Z) : Metric :=
  {| metric_type := "baseline_performance";
     avg_latency_ms := Some (float_of_Z latency);
     error_rate := Some (float_of_Z errors) |}.

Definition envoy_metrics : Metric :=
  {| metric_type := "envoy_metrics"; avg_latency_ms := None; error_rate := None |}.

Lemma sla_by_latest_baseline_witness :
  metric_type (baseline 200 0) = "baseline_performance"
  /\ baseline_metrics [envoy_metrics] = []
  /\ assess_sla_compliance ([baseline 1500 10] ++ baseline 200 0 :: [envoy_metrics])
     = assess_sla_compliance [baseline 200 0].
Proof.
  assert (H1 : metric_type (baseline 200 0) = "baseline_performance")
    by reflexivity.
  assert (H2 : baseline_metrics [envoy_metrics] = []) by reflexivity.
  split; [exact H1|]. split; [exact H2|].
  exact (sla_by_latest_baseline [baseline 1500 10] (baseline 200 0)
           [envoy_metrics] H1 H2).
Defined.

(** A baseline of 800 ms meets the SLA and still draws the performance
    recommendation: the two thresholds are 1000 ms and 500 ms. *)
Example compliant_and_slow :
  status (assess_sla_compliance [baseline 800 0]) = "COMPLIANT"
  /\ slow_baseline [baseline 800 0] = true.
Proof. vm_compute. split; reflexivity. Qed.

(** A result named for two groups is filed under the first one. *)
Example gateway_performance_is_traffic_management :
  categorize_results
    (store_test_result new_suite "gateway_performance" true)
  = {| control_plane := [];
       traffic_management := [{| test := "gateway_performance"; passed := true |}];
       security := []; observability := []; performance := [];
       external_services := [] |}.
Proof. vm_compute. reflexivity. Qed.

End IstioBehaviour.
